(** * smart_document_chat: the chunker, the PDF ingestion and the chat engine

    A shallow embedding of [document_processor.py] and [chat_engine.py],
    and of their callers in [vector_store.py], [main.py] and
    [preprocess_documents.py].

    Python [str] values are modelled as [string]; one [ascii] stands for one
    code point below 256, so [len], slicing and [rfind] count characters the
    way Python does.  Python integers are [Z]: the cursor of [split_text] does
    become negative on real runs, and Python then reads it from the end of the
    text, which the model writes out.  Dictionaries with a free key set (chat
    messages, the statistics record) are [gmap string _].

    The chat engine is read twice: in [ChatEngine] at the types its callers
    give it, and in [Untyped] over values that need not be texts.  What the
    libraries and the system outside the repository refuse (a batch the
    Chroma collection does not take, a file name that cannot be opened, a
    value the response model does not take) is a parameter of the model,
    carried by the state it belongs to. *)

From Stdlib Require Import ZArith Ascii String List Lia Bool DecimalString.
From stdpp Require Import base option list strings gmap sorting.

Local Open Scope string_scope.
Local Open Scope list_scope.
Local Open Scope Z_scope.

(** ** Python string primitives *)

Module PyStr.

(** [len(s)] *)
Definition len (s : string) : Z := Z.of_nat (String.length s).

(** The one-character string [chr(n)]. *)
Definition chr (n : nat) : string := String (ascii_of_nat n) EmptyString.

Definition newline : string := chr 10.
Definition dquote : string := chr 34.

(** [c.isspace()] for the code points below 256: TAB..CR, FS..US and the
    blank, NEL and NBSP. *)
Definition is_space (c : ascii) : bool :=
  let n := N_of_ascii c in
  ((9 <=? n) && (n <=? 13) || (28 <=? n) && (n <=? 32)
   || (n =? 133) || (n =? 160))%N.

Definition is_empty (s : string) : bool :=
  match s with EmptyString => true | String _ _ => false end.

Fixpoint lstrip (s : string) : string :=
  match s with
  | EmptyString => EmptyString
  | String c r => if is_space c then lstrip r else s
  end.

Fixpoint rstrip (s : string) : string :=
  match s with
  | EmptyString => EmptyString
  | String c r =>
      let r' := rstrip r in
      if is_space c && is_empty r' then EmptyString else String c r'
  end.

(** [s.strip()] *)
Definition strip (s : string) : string := rstrip (lstrip s).

(** How CPython adjusts the bounds of [s[i:j]] and of [s.rfind(sub, i, j)]:
    a negative bound counts from the end and is clamped at 0, an upper
    bound past the end is clamped at the length. *)
Definition adjust_start (n i : Z) : Z :=
  if i <? 0 then Z.max 0 (i + n) else i.

Definition adjust_end (n j : Z) : Z :=
  if n <? j then n else if j <? 0 then Z.max 0 (j + n) else j.

(** [s[i:j]] *)
Definition slice (s : string) (i j : Z) : string :=
  let lo := adjust_start (len s) i in
  let hi := adjust_end (len s) j in
  substring (Z.to_nat lo) (Z.to_nat (hi - lo)) s.

(** [s[i:i+len(sub)] == sub] for an index inside the text *)
Definition matches_at (s sub : string) (i : Z) : bool :=
  (0 <=? i) && String.eqb (substring (Z.to_nat i) (String.length sub) s) sub.

(** The candidates [lo + k - 1], ..., [lo], highest first. *)
Fixpoint rfind_down (s sub : string) (lo : Z) (k : nat) : Z :=
  match k with
  | O => -1
  | S k' =>
      let i := lo + Z.of_nat k' in
      if matches_at s sub i then i else rfind_down s sub lo k'
  end.

(** [s.rfind(sub, i, j)]: the highest index of an occurrence of [sub] that
    lies inside [s[i:j]], or [-1]. *)
Definition rfind (s sub : string) (i j : Z) : Z :=
  let lo := adjust_start (len s) i in
  let hi := adjust_end (len s) j in
  rfind_down s sub lo (Z.to_nat (hi - len sub - lo + 1)).

(** [c.upper()] for the code points below 256: the letters a..z and the
    accented letters 224..254 (but the division sign 247) move down by 32,
    the sharp s 223 becomes SS.  The capitals of 181 and 255 lie above 255,
    outside this model of [str]; these two are left as they are. *)
Definition upper_char (c : ascii) : string :=
  let n := N_of_ascii c in
  if ((97 <=? n) && (n <=? 122)
      || (224 <=? n) && (n <=? 254) && negb (n =? 247))%N
  then String (ascii_of_N (n - 32)) EmptyString
  else if (n =? 223)%N then "SS"
  else String c EmptyString.

(** [s.upper()] *)
Fixpoint upper (s : string) : string :=
  match s with
  | EmptyString => EmptyString
  | String c r => upper_char c +:+ upper r
  end.

(** The capital of every character of the text is in the model: the text
    has neither the code point 181 nor 255.  For such a text [upper] is
    [str.upper]. *)
Fixpoint upper_exact (s : string) : bool :=
  match s with
  | EmptyString => true
  | String c r =>
      negb (N_of_ascii c =? 181)%N && negb (N_of_ascii c =? 255)%N
      && upper_exact r
  end.

(** [sep.join(l)] *)
Fixpoint join (sep : string) (l : list string) : string :=
  match l with
  | [] => EmptyString
  | [x] => x
  | x :: r => x +:+ sep +:+ join sep r
  end.

(** [l[-n:]] for a positive [n] *)
Definition last_n {A} (n : nat) (l : list A) : list A :=
  drop (List.length l - n)%nat l.

End PyStr.

(** ** document_processor.py *)

Module DocumentProcessor.
Import PyStr.

(** The delimiters of the [for char in ...] loop, in the order it tries
    them. *)
Definition delimiters : list string := [". "; "? "; "! "; newline].

(** The [for ... break] loop of [split_text]: the first delimiter of the
    list that occurs in the window sets the end. *)
Fixpoint sentence_break (text : string) (ds : list string) (start end_ : Z)
  : option Z :=
  match ds with
  | [] => None
  | d :: ds' =>
      let last_break := rfind text d start end_ in
      if negb (last_break =? -1) then Some (last_break + 1)
      else sentence_break text ds' start end_
  end.

(** The value of [end] when the chunk is extracted. *)
Definition chunk_end (text : string) (chunk_size start : Z) : Z :=
  let end_ := start + chunk_size in
  if end_ <? len text then
    match sentence_break text delimiters start end_ with
    | Some e => e
    | None =>
        let last_space := rfind text " " start end_ in
        if negb (last_space =? -1) then last_space else end_
    end
  else end_.

(** The chunk of one iteration, [text[start:end].strip()]. *)
Definition chunk_at (text : string) (chunk_size start : Z) : string :=
  strip (slice text start (chunk_end text chunk_size start)).

(** The cursor after one iteration. *)
Definition next_start (text : string) (chunk_size overlap start : Z) : Z :=
  let end_ := chunk_end text chunk_size start in
  if end_ <? len text then end_ - overlap else len text.

(** [chunks.append(chunk)] under [if chunk:] *)
Definition emit (chunks : list string) (chunk : string) : list string :=
  if is_empty chunk then chunks else chunks ++ [chunk].

(** The [while start < text_length] loop.  [fuel] bounds the number of
    iterations; [None] means the bound was reached with the loop still
    running. *)
Fixpoint split_loop (fuel : nat) (text : string) (chunk_size overlap : Z)
    (start : Z) (chunks : list string) : option (list string) :=
  if start <? len text then
    match fuel with
    | O => None
    | S fuel' =>
        split_loop fuel' text chunk_size overlap
          (next_start text chunk_size overlap start)
          (emit chunks (chunk_at text chunk_size start))
    end
  else Some chunks.

Definition split_text (fuel : nat) (text : string) (chunk_size overlap : Z)
  : option (list string) :=
  split_loop fuel text chunk_size overlap 0 [].

(** The loop state after [n] iterations (fewer when it stopped before). *)
Fixpoint split_run (n : nat) (text : string) (chunk_size overlap : Z)
    (start : Z) (chunks : list string) : Z * list string :=
  match n with
  | O => (start, chunks)
  | S n' =>
      if start <? len text then
        split_run n' text chunk_size overlap
          (next_start text chunk_size overlap start)
          (emit chunks (chunk_at text chunk_size start))
      else (start, chunks)
  end.

(** *** process_pdf *)

(** The chunk dictionaries [process_pdf] builds always carry the same
    keys. *)
Record Metadata := { source : string; page : Z; chunk : Z }.
Record Chunk := { text : string; metadata : Metadata }.

(** How a call ends: with a value, with an exception carrying [str(e)], or
    not within the iteration bound. *)
Inductive outcome (A : Type) : Type :=
| Returned (a : A)
| Raised (msg : string)
| Unfinished.
Arguments Returned {A} a.
Arguments Raised {A} msg.
Arguments Unfinished {A}.

(** What pypdf gives for one page ([page.extract_text()]) and for the file
    ([PdfReader(pdf_path)]). *)
Inductive extraction := Extracted (t : string) | ExtractFailed (msg : string).
Inductive pdf := Unreadable (msg : string) | Pages (pages : list extraction).

(** [for i, chunk_text in enumerate(page_chunks): chunks.append({...})] *)
Fixpoint append_page (filename : string) (page_num : Z)
    (page_chunks : list string) (i : Z) (chunks : list Chunk) : list Chunk :=
  match page_chunks with
  | [] => chunks
  | chunk_text :: rest =>
      append_page filename page_num rest (i + 1)
        (chunks ++ [{| text := chunk_text;
                       metadata := {| source := filename;
                                      page := page_num;
                                      chunk := i |} |}])
  end.

(** [for page_num, page in enumerate(reader.pages, start=1): ...] *)
Fixpoint page_loop (fuel : nat) (filename : string) (pages : list extraction)
    (page_num : Z) (chunks : list Chunk) : outcome (list Chunk) :=
  match pages with
  | [] => Returned chunks
  | ExtractFailed msg :: _ => Raised msg
  | Extracted t :: rest =>
      if is_empty (strip t) then
        page_loop fuel filename rest (page_num + 1) chunks
      else
        match split_text fuel t 800 200 with
        | None => Unfinished
        | Some page_chunks =>
            page_loop fuel filename rest (page_num + 1)
              (append_page filename page_num page_chunks 0 chunks)
        end
  end.

Definition processing_error (filename msg : string) : string :=
  "Error processing PDF " +:+ filename +:+ ": " +:+ msg.

Definition process_pdf (fuel : nat) (file : pdf) (filename : string)
  : outcome (list Chunk) :=
  match file with
  | Unreadable msg => Raised (processing_error filename msg)
  | Pages pages =>
      match page_loop fuel filename pages 1 [] with
      | Raised msg => Raised (processing_error filename msg)
      | r => r
      end
  end.

(** *** get_document_stats *)

(** The values of the statistics dictionary. *)
Inductive stat := IntStat (n : Z) | SourcesStat (names : list string).

(** [sum(len(chunk['text']) for chunk in chunks)] *)
Definition total_chars (chunks : list Chunk) : Z :=
  foldl (fun acc c => acc + len (text c)) 0 chunks.

(** [list(set(chunk['metadata']['source'] for chunk in chunks))]: Python
    fixes no order for it; the model lists the set in the order of
    [elements]. *)
Definition distinct_sources (chunks : list Chunk) : list string :=
  elements (list_to_set ((source ∘ metadata) <$> chunks) : gset string).

Definition get_document_stats (chunks : list Chunk) : gmap string stat :=
  if bool_decide (chunks = []) then
    <["total_chunks" := IntStat 0]>
      (<["total_characters" := IntStat 0]>
         (<["sources" := SourcesStat []]> ∅))
  else
    <["total_chunks" := IntStat (Z.of_nat (List.length chunks))]>
      (<["total_characters" := IntStat (total_chars chunks)]>
         (<["sources" := SourcesStat (distinct_sources chunks)]>
            (<["avg_chunk_size" :=
                 IntStat (if bool_decide (chunks = []) then 0
                          else total_chars chunks
                               / Z.of_nat (List.length chunks))]> ∅))).

(** *** What the ingestion contract says, in its own words *)

(** The records of one page: one per chunk text, numbered from 0. *)
Definition page_records (filename : string) (p : Z) (page_chunks : list string)
  : list Chunk :=
  imap (fun i c => {| text := c;
                      metadata := {| source := filename; page := p;
                                     chunk := Z.of_nat i |} |})
       page_chunks.

(** The records of the page with 0-based position [k]: none for a blank
    page, else those of its chunker output. *)
Definition records_of_page (fuel : nat) (filename : string) (k : nat)
    (t : string) : option (list Chunk) :=
  if is_empty (strip t) then Some []
  else page_records filename (Z.of_nat k + 1) <$> split_text fuel t 800 200.

(** All records, page after page, for the pages from position [k] on. *)
Fixpoint pdf_records_from (fuel : nat) (filename : string) (k : nat)
    (texts : list string) : option (list Chunk) :=
  match texts with
  | [] => Some []
  | t :: rest =>
      match records_of_page fuel filename k t,
            pdf_records_from fuel filename (S k) rest with
      | Some here, Some after => Some (here ++ after)
      | _, _ => None
      end
  end.

Definition pdf_records (fuel : nat) (filename : string) (texts : list string)
  : option (list Chunk) :=
  pdf_records_from fuel filename 0 texts.

End DocumentProcessor.

(** ** chat_engine.py *)

Module ChatEngine.
Import PyStr.
Import DocumentProcessor (outcome, Returned, Raised, Unfinished).

(** A chat message as the callers of this repository build it: a
    dictionary whose values are texts; [role] and [content] may be missing.
    (The module [Untyped] below reads the functions of this module for
    messages of any shape.) *)
Abbreviation message := (gmap string string).

Definition system_msg : string :=
  join newline
    [ "You are a helpful AI assistant that answers questions based on provided documents.";
      EmptyString;
      "IMPORTANT RULES:";
      "- Answer questions using ONLY the information from the provided documents";
      "- Do NOT mention document numbers (like " +:+ dquote +:+ "Document 1"
        +:+ dquote +:+ ", " +:+ dquote +:+ "Document 2" +:+ dquote
        +:+ ", etc.) in your response";
      "- Answer naturally as if the information is from a single coherent source";
      "- For summarization questions (" +:+ dquote +:+ "what is this about?"
        +:+ dquote +:+ ", " +:+ dquote +:+ "summarize" +:+ dquote
        +:+ "), provide a comprehensive overview of the content";
      "- If the answer is not in the documents, say " +:+ dquote
        +:+ "I cannot find that information in the uploaded documents"
        +:+ dquote;
      "- Be concise but thorough";
      "- If asked about something not in the documents, politely decline and explain what information IS available" ].

(** The text one message adds to [history_text]. *)
Definition render_message (msg : message) : string :=
  let role := default "user" (msg !! "role") in
  let content := default EmptyString (msg !! "content") in
  newline +:+ upper role +:+ ": " +:+ content.

(** [for msg in chat_history[-3:]: history_text += ...] *)
Fixpoint history_loop (msgs : list message) (history_text : string) : string :=
  match msgs with
  | [] => history_text
  | msg :: rest => history_loop rest (history_text +:+ render_message msg)
  end.

(** [history_text] after the [if chat_history:] block; [None] and the empty
    list are both false. *)
Definition history_text (chat_history : option (list message)) : string :=
  match chat_history with
  | None => EmptyString
  | Some [] => EmptyString
  | Some h => history_loop (last_n 3 h) EmptyString
  end.

Definition no_history : string := "(No previous conversation)".

(** The f-string of the prompt, around the text of its history block. *)
Definition prompt_with (history_block query context : string) : string :=
  system_msg +:+ newline +:+ newline
  +:+ "PREVIOUS CONVERSATION:" +:+ newline
  +:+ history_block +:+ newline +:+ newline
  +:+ "RELEVANT DOCUMENTS:" +:+ newline
  +:+ context +:+ newline +:+ newline
  +:+ "USER QUESTION: " +:+ query +:+ newline +:+ newline
  +:+ "ASSISTANT ANSWER:".

Definition _build_prompt (query context : string)
    (chat_history : option (list message)) : string :=
  let h := history_text chat_history in
  prompt_with (if is_empty h then no_history else h) query context.

(** How [requests.post] and the reading of its answer end: a JSON object
    with a text as its [response] field or without that field, or one of
    the exceptions [_call_ollama] tells apart.  (A [response] field that
    holds another value is read in the module [Untyped] below.) *)
Inductive post_result :=
| Responded (response : option string)
| ConnectionError
| Timeout
| RequestException (msg : string)
| OtherException (msg : string).

Definition cannot_connect : string :=
  "Cannot connect to Ollama. Make sure it's running with: ollama serve".
Definition timed_out : string :=
  "Ollama request timed out. Try a smaller model or simpler question.".
Definition no_documents : string :=
  "I don't have any documents to reference. Please upload some documents first.".

(** ["\n\n---\n\n".join(relevant_docs)] *)
Definition context_of (relevant_docs : list string) : string :=
  join (newline +:+ newline +:+ "---" +:+ newline +:+ newline) relevant_docs.

Section Engine.
(** The metadata dictionaries of the index are handed through untouched. *)
Context {Meta : Type}.
(** [self.vector_store.search]: it answers or raises. *)
Variable search : string -> Z -> outcome (list string * list Meta).
(** The generation service: what a POST of a prompt comes back with. *)
Variable post : string -> post_result.

(** Calls that reach the generation service are recorded: a computation
    takes the prompts posted so far and returns them extended. *)
Definition Gen (A : Type) : Type := list string -> A * list string.

Definition ret {A} (a : A) : Gen A := fun posted => (a, posted).
Definition bind {A B} (m : Gen A) (k : A -> Gen B) : Gen B :=
  fun posted => let '(a, posted') := m posted in k a posted'.
Definition do_post (prompt : string) : Gen post_result :=
  fun posted => (post prompt, posted ++ [prompt]).

Definition _call_ollama (prompt : string) : Gen (outcome string) :=
  bind (do_post prompt) (fun r =>
    ret match r with
        | Responded response =>
            Returned (default "No response generated" response)
        | ConnectionError => Raised cannot_connect
        | Timeout => Raised timed_out
        | RequestException e => Raised ("Error calling Ollama: " +:+ e)
        | OtherException e => Raised e
        end).

Definition get_response (query : string)
    (chat_history : option (list message)) (n_results : Z)
  : Gen (outcome (string * list Meta)) :=
  match search query n_results with
  | Raised e => ret (Raised e)
  | Unfinished => ret Unfinished
  | Returned (relevant_docs, metadatas) =>
      match relevant_docs with
      | [] => ret (Returned (no_documents, []))
      | _ =>
          let context := context_of relevant_docs in
          let prompt := _build_prompt query context chat_history in
          bind (_call_ollama prompt) (fun r =>
            ret match r with
                | Returned response_text =>
                    Returned (response_text, metadatas)
                | Raised e =>
                    Returned ("Error getting response from Ollama: " +:+ e,
                              [])
                | Unfinished => Unfinished
                end)
      end
  end.
End Engine.

End ChatEngine.

(** ** Vocabulary of the specification *)

Module Spec.
Import PyStr DocumentProcessor ChatEngine.

(** [sub] occurs in [s] at index [i], wholly inside the window
    [lo, hi). *)
Definition occurs_in (s sub : string) (lo hi i : Z) : Prop :=
  lo <= i /\ i + len sub <= hi /\ matches_at s sub i = true.

(** [i] is the last such occurrence. *)
Definition last_in (s sub : string) (lo hi i : Z) : Prop :=
  occurs_in s sub lo hi i /\ forall j, occurs_in s sub lo hi j -> j <= i.

Definition absent (s sub : string) (lo hi : Z) : Prop :=
  forall j, ~ occurs_in s sub lo hi j.




(** The reading under which every non-empty text shorter than the chunk
    size gives exactly one chunk. *)
Definition short_text_one_chunk : Prop :=
  forall text chunk_size overlap,
    text <> EmptyString -> len text < chunk_size ->
    exists fuel,
      split_text fuel text chunk_size overlap = Some [strip text].

(** One line of the history block: the role in upper case, a colon and a
    blank, the content. *)
Definition history_line (role content : string) : string :=
  upper role +:+ ": " +:+ content.

(** The lines of the given entries, each one begun on a line of its own;
    an entry without role counts as a user's, one without content as
    empty. *)
Definition history_lines (entries : list message) : string :=
  foldr (fun m rest =>
           newline
           +:+ history_line (default "user" (m !! "role"))
                            (default EmptyString (m !! "content"))
           +:+ rest)
        EmptyString entries.

(** The history block of the prompt: the placeholder for an empty history,
    else the lines of its last three entries. *)
Definition history_section (h : list message) : string :=
  match h with
  | [] => "(No previous conversation)"
  | _ => history_lines (last_n 3 h)
  end.

(** The text has the character [c]. *)
Fixpoint has_char (c : ascii) (s : string) : bool :=
  match s with
  | EmptyString => false
  | String c' r => Ascii.eqb c c' || has_char c r
  end.

(** Every character of the text is white space. *)
Fixpoint all_space (s : string) : bool :=
  match s with
  | EmptyString => true
  | String c r => is_space c && all_space r
  end.
(** A chunker result read as the end of the call that waits for it. *)
Definition as_outcome {A} (o : option A) : outcome A :=
  match o with Some a => Returned a | None => Unfinished end.
End Spec.

(** ** Sample inputs *)

Module Samples.
Import PyStr DocumentProcessor ChatEngine.

Definition hello : string := "Hello world. Goodbye world.".
Definition gap_text : string := "a. bcdefghijklmnopqrstuvwxyz".

Definition letters (n : nat) (c : ascii) : string :=
  string_of_list_ascii (repeat c n).

(** A page of 300 letters, one blank and 1000 letters. *)
Definition two_long_words : string :=
  letters 300 "a" +:+ " " +:+ letters 1000 "b".

(** Pages without any blank, of 2000 and of 1400 letters. *)
Definition three_chunk_page : string := letters 2000 "a".
Definition two_chunk_page : string := letters 1400 "b".

(** An index without documents, one with a single text, and a generation
    service that cannot be reached. *)
Definition empty_index : string -> Z -> outcome (list string * list unit) :=
  fun _ _ => Returned ([], []).
Definition one_document : string -> Z -> outcome (list string * list unit) :=
  fun _ _ => Returned (["Some text."], [tt]).
Definition offline : string -> post_result := fun _ => ConnectionError.
End Samples.

(** ** Vocabulary for the chunks of a text *)

Module Chunks.
Import PyStr DocumentProcessor.

(** The text begins, or ends, with a white space character. *)
Definition begins_with_space (s : string) : bool :=
  match s with
  | EmptyString => false
  | String c _ => is_space c
  end.

Fixpoint ends_with_space (s : string) : bool :=
  match s with
  | EmptyString => false
  | String c r => if is_empty r then is_space c else ends_with_space r
  end.

(** [piece] is a run of consecutive characters of [s]. *)
Definition piece_of (piece s : string) : Prop :=
  exists before after, s = before +:+ piece +:+ after.

(** No character of the text is white space. *)
Fixpoint no_space (s : string) : bool :=
  match s with
  | EmptyString => true
  | String c r => negb (is_space c) && no_space r
  end.

(** The chunks put together again: the first one whole, each later one
    from its character [overlap] on, [chunk[overlap:]]. *)
Definition reassemble (overlap : Z) (chunks : list string) : string :=
  match chunks with
  | [] => EmptyString
  | c :: rest =>
      c +:+ foldr (fun x acc => slice x overlap (len x) +:+ acc)
                  EmptyString rest
  end.

(** What a stripped chunk looks like. *)
Definition stripped (c : string) : Prop :=
  c <> EmptyString /\ begins_with_space c = false /\ ends_with_space c = false.
End Chunks.

(** ** Vocabulary for the records of a PDF *)

Module Records.
Import PyStr DocumentProcessor Chunks.

(** Record [a] comes before record [b]: an earlier page, or the same page
    and an earlier chunk. *)
Definition record_before (a b : Chunk) : Prop :=
  page (metadata a) < page (metadata b)
  \/ page (metadata a) = page (metadata b)
     /\ chunk (metadata a) < chunk (metadata b).

(** What a record of a file of [n_pages] pages looks like. *)
Definition record_of_file (filename : string) (n_pages : Z) (r : Chunk) : Prop :=
  source (metadata r) = filename
  /\ 1 <= page (metadata r) <= n_pages
  /\ 0 <= chunk (metadata r)
  /\ stripped (text r)
  /\ len (text r) <= 800.
End Records.

(** ** vector_store.py *)

Module VectorStore.
Import PyStr DocumentProcessor.

(** A metadata dictionary of the index.  Its keys and the types of their
    values are the ones [process_pdf] writes; a dictionary may lack any of
    them. *)
Record meta := {
  meta_source : option string;
  meta_page : option Z;
  meta_chunk : option Z
}.

(** The dictionary [chunk['metadata']] of a chunk of [process_pdf]. *)
Definition stored_meta (m : Metadata) : meta :=
  {| meta_source := Some (source m);
     meta_page := Some (page m);
     meta_chunk := Some (chunk m) |}.

(** The Chroma collection, as far as the store uses it: the documents and
    their metadata under their ids. *)
Abbreviation collection := (gmap string (string * meta)).

(** The store: its collection, how many ids [uuid.uuid4()] has drawn, and
    what [collection.add] raises for a batch of the given size.  Chroma takes
    a batch only up to the maximal batch size of its client; for a larger
    one it raises before anything is written, with a text that depends on
    its version.  [None] stands for a batch that is taken. *)
Record store := {
  records : collection;
  drawn : nat;
  add_error : nat -> option string
}.

(** [str(n)] of an integer *)
Definition str_of_int (n : Z) : string := NilZero.string_of_int (Z.to_int n).

(** [collection.get()]: the ids with their documents and metadata, in the
    order the collection lists them. *)
Definition collection_get (c : collection) : list (string * (string * meta)) :=
  map_to_list c.

(** What [collection.add(ids=..., documents=..., metadatas=...)] writes when
    it takes the batch; a record under an id the collection already has
    stays as it is. *)
Fixpoint collection_add (ids documents : list string) (metadatas : list meta)
    (c : collection) : collection :=
  match ids, documents, metadatas with
  | i :: ids', d :: documents', m :: metadatas' =>
      collection_add ids' documents' metadatas'
        (match c !! i with
         | Some _ => c
         | None => <[i := (d, m)]> c
         end)
  | _, _, _ => c
  end.

(** [collection.delete(ids=...)] *)
Definition collection_delete (ids : list string) (c : collection) : collection :=
  foldr delete c ids.

Section Ids.
(** The ids [uuid.uuid4()] draws, one after the other. *)
Variable uuid4 : nat -> string.

(** How the call ends, and the store afterwards.  The whole list goes to
    [collection.add] as one batch; the ids are drawn before that call, also
    when it raises. *)
Definition add_documents (chunks : list Chunk) (st : store)
  : outcome unit * store :=
  match chunks with
  | [] => (Returned tt, st)
  | _ =>
      let ids := uuid4 <$> seq (drawn st) (List.length chunks) in
      let documents := text <$> chunks in
      let metadatas := (stored_meta ∘ metadata) <$> chunks in
      match add_error st (List.length ids) with
      | Some e =>
          (Raised e,
           {| records := records st;
              drawn := (drawn st + List.length chunks)%nat;
              add_error := add_error st |})
      | None =>
          (Returned tt,
           {| records := collection_add ids documents metadatas (records st);
              drawn := (drawn st + List.length chunks)%nat;
              add_error := add_error st |})
      end
  end.

(** Every id of the collection was drawn before. *)
Definition store_ok (st : store) : Prop :=
  forall i, is_Some (records st !! i) ->
            exists k, (k < drawn st)%nat /\ i = uuid4 k.

(** The [n] ids the next call of [add_documents] draws are new: different
    from each other and from the ids of the collection. *)
Definition fresh_ids (st : store) (n : nat) : Prop :=
  NoDup (uuid4 <$> seq (drawn st) n)
  /\ Forall (fun i => records st !! i = None) (uuid4 <$> seq (drawn st) n).
End Ids.

Definition get_collection_count (st : store) : Z :=
  Z.of_nat (size (records st)).

(** The citation of one metadata dictionary. *)
Definition format_source (m : meta) : string :=
  default "Unknown" (meta_source m)
  +:+ " (Page "
  +:+ match meta_page m with Some p => str_of_int p | None => "?" end
  +:+ ")".

(** [for meta in metadatas: sources.append(...)] *)
Fixpoint format_loop (metadatas : list meta) (sources : list string)
  : list string :=
  match metadatas with
  | [] => sources
  | m :: rest => format_loop rest (sources ++ [format_source m])
  end.

Definition format_sources (metadatas : list meta) : list string :=
  format_loop metadatas [].

(** [for metadata in results['metadatas']: if 'source' in metadata:
    sources.add(metadata['source'])] *)
Fixpoint collect_sources (metadatas : list meta) (sources : gset string)
  : gset string :=
  match metadatas with
  | [] => sources
  | m :: rest =>
      collect_sources rest
        (match meta_source m with
         | Some s => {[s]} ∪ sources
         | None => sources
         end)
  end.

(** [sorted(list(sources))]: strings compare by their code points. *)
Definition get_indexed_documents (st : store) : list string :=
  merge_sort String.le
    (elements (collect_sources ((snd ∘ snd) <$> collection_get (records st)) ∅)).

Definition is_document_indexed (filename : string) (st : store) : bool :=
  bool_decide (filename ∈ get_indexed_documents st).

(** [for i, metadata in enumerate(results['metadatas']):
    if metadata.get('source') == filename:
    ids_to_delete.append(results['ids'][i])] *)
Fixpoint ids_of_source (filename : string)
    (entries : list (string * (string * meta))) (ids_to_delete : list string)
  : list string :=
  match entries with
  | [] => ids_to_delete
  | (i, (_, m)) :: rest =>
      ids_of_source filename rest
        (if bool_decide (meta_source m = Some filename)
         then ids_to_delete ++ [i] else ids_to_delete)
  end.

(** The number of chunks deleted, and the store afterwards. *)
Definition delete_document (filename : string) (st : store) : Z * store :=
  let ids_to_delete :=
    ids_of_source filename (collection_get (records st)) [] in
  (Z.of_nat (List.length ids_to_delete),
   match ids_to_delete with
   | [] => st
   | _ => {| records := collection_delete ids_to_delete (records st);
             drawn := drawn st;
             add_error := add_error st |}
   end).

(** A record of the collection has the given source. *)
Definition has_source (filename : string) (c : collection) : Prop :=
  exists i d m, c !! i = Some (d, m) /\ meta_source m = Some filename.
End VectorStore.

(** ** Sample stores *)

Module StoreSamples.
Import PyStr DocumentProcessor VectorStore Samples.

(** A sequence of ids, all different. *)
Definition sample_uuid4 (k : nat) : string := "id-" +:+ letters k "x".

(** An empty store whose collection takes every batch. *)
Definition empty_store : store :=
  {| records := ∅; drawn := 0; add_error := fun _ => None |}.

Definition chunk_of (filename : string) (p c : Z) (t : string) : Chunk :=
  {| text := t;
     metadata := {| source := filename; page := p; chunk := c |} |}.

(** A store with two chunks of a.pdf and one of b.pdf. *)
Definition sample_store : store :=
  snd (add_documents sample_uuid4 [chunk_of "b.pdf" 1 0 "Third text."]
         (snd (add_documents sample_uuid4
                 [chunk_of "a.pdf" 1 0 "First text.";
                  chunk_of "a.pdf" 2 0 "Second text."]
                 empty_store))).

(** Two chunks of a file that [sample_store] does not have. *)
Definition new_chunks : list Chunk :=
  [chunk_of "c.pdf" 1 0 "Fourth text."; chunk_of "c.pdf" 1 1 "Fifth text."].

(** The same store with a client that takes one record at a time. *)
Definition batch_too_large : string := "Batch size exceeds maximum batch size".
Definition narrow_store : store :=
  {| records := records sample_store;
     drawn := drawn sample_store;
     add_error := fun n => if (1 <? n)%nat then Some batch_too_large else None |}.

(** A generation service that answers, one whose answer has no [response]
    field, and an index whose search raises. *)
Definition answering : string -> ChatEngine.post_result :=
  fun _ => ChatEngine.Responded (Some "It is about tests.").
Definition silent : string -> ChatEngine.post_result :=
  fun _ => ChatEngine.Responded None.

(** An index whose search finds the first chunk of a.pdf. *)
Definition one_hit : string -> Z -> outcome (list string * list meta) :=
  fun _ _ =>
    Returned (["First text."],
              [stored_meta {| source := "a.pdf"; page := 1; chunk := 0 |}]).
End StoreSamples.

(** ** main.py *)

Module Api.
Import PyStr DocumentProcessor ChatEngine VectorStore.

(** [c.lower()] for the code points below 256: the letters A..Z and the
    accented capitals 192..222 (but the multiplication sign 215) move up
    by 32. *)
Definition lower_char (c : ascii) : ascii :=
  let n := N_of_ascii c in
  if ((65 <=? n) && (n <=? 90)
      || (192 <=? n) && (n <=? 222) && negb (n =? 215))%N
  then ascii_of_N (n + 32) else c.

(** [s.lower()] *)
Fixpoint lower (s : string) : string :=
  match s with
  | EmptyString => EmptyString
  | String c r => String (lower_char c) (lower r)
  end.

(** [s.endswith(suffix)] *)
Definition endswith (s suffix : string) : bool :=
  (String.length suffix <=? String.length s)%nat
  && String.eqb (substring (String.length s - String.length suffix)
                           (String.length suffix) s) suffix.

(** How an endpoint ends: with its response model, with an
    [HTTPException], or not at all. *)
Inductive http (A : Type) : Type :=
| Ok (body : A)
| HTTPException (status_code : Z) (detail : string)
| Pending.
Arguments Ok {A} body.
Arguments HTTPException {A} status_code detail.
Arguments Pending {A}.

(** The models of schemas.py that the endpoints read and build. *)
Record Message := { role : string; content : string }.
Record ChatRequest := {
  message : string;
  chat_history : list Message;
  n_results : Z
}.
Record Source := { filename : string; page : Z; chunk_index : Z }.
Record ChatResponse := {
  response : string;
  sources : list Source;
  sources_text : option string
}.
Record DocumentsListResponse := {
  documents : list string;
  total_count : Z
}.
Record DocumentStatsResponse := {
  total_documents : Z;
  total_chunks : Z;
  indexed_documents : list string
}.
Record DocumentDeleteResponse := {
  delete_message : string;
  delete_filename : string;
  chunks_deleted : Z
}.
Record DocumentUploadResponse := {
  upload_message : string;
  upload_filename : string;
  chunks_added : Z;
  pages_processed : Z
}.

(** The globals of the module, [vector_store] and [chat_engine] ([None]
    until the start-up has run), and the file system as the endpoints meet
    it: the files of the documents folder, each by the name it was saved
    under (the path from the folder), and what creating the folder and
    opening a file of the given name in it for writing raise ([None]: the
    file is opened).  The name is the client's: one with a directory part
    that does not exist, or one longer than the file system allows, is
    refused with an [OSError]. *)
Record app := {
  vector_store : option store;
  chat_engine : bool;
  documents_dir : gset string;
  save_error : string -> option string
}.

(** [{"role": msg.role, "content": msg.content}] for each message *)
Definition history_of (msgs : list Message) : list (gmap string string) :=
  (fun msg => <["role" := role msg]> (<["content" := content msg]> ∅))
    <$> msgs.

(** [Source(filename=source.get("source", "unknown"),
    page=source.get("page", 0), chunk_index=source.get("chunk", 0))] *)
Definition source_of (m : meta) : Source :=
  {| filename := default "unknown" (meta_source m);
     page := default 0 (meta_page m);
     chunk_index := default 0 (meta_chunk m) |}.

(** [for source in sources_list: formatted_sources.append(...)] *)
Fixpoint sources_loop (sources_list : list meta) (formatted_sources : list Source)
  : list Source :=
  match sources_list with
  | [] => formatted_sources
  | m :: rest => sources_loop rest (formatted_sources ++ [source_of m])
  end.

(** ["Sources:\n" + "\n".join(f"- {src}" for src in formatted_source_list)] *)
Definition sources_text_of (formatted_source_list : list string) : string :=
  "Sources:" +:+ newline
  +:+ join newline ((fun src => "- " +:+ src) <$> formatted_source_list).

Section Chat.
Variable search : string -> Z -> outcome (list string * list meta).
Variable post : string -> post_result.

(** The endpoint [chat].  What [str(e)] is for the attribute error of a
    missing store is written out. *)
Definition chat (st : app) (request : ChatRequest)
  : Gen (http ChatResponse) :=
  if negb (chat_engine st) then
    ret (HTTPException 503 "Chat engine not initialized")
  else
    bind (get_response search post (message request)
                       (Some (history_of (chat_history request)))
                       (n_results request))
      (fun r =>
         ret match r with
             | Unfinished => Pending
             | Raised e =>
                 HTTPException 500 ("Error processing request: " +:+ e)
             | Returned (response_text, sources_list) =>
                 let formatted_sources := sources_loop sources_list [] in
                 match sources_list with
                 | [] =>
                     Ok {| response := response_text;
                           sources := formatted_sources;
                           sources_text := None |}
                 | _ =>
                     match vector_store st with
                     | None =>
                         HTTPException 500
                           ("Error processing request: "
                            +:+ "'NoneType' object has no attribute 'format_sources'")
                     | Some _ =>
                         Ok {| response := response_text;
                               sources := formatted_sources;
                               sources_text :=
                                 Some (sources_text_of
                                         (format_sources sources_list)) |}
                     end
                 end
             end).
End Chat.

(** The endpoint [get_indexed_documents]. *)
Definition get_indexed_documents (st : app) : http DocumentsListResponse :=
  match vector_store st with
  | None => HTTPException 503 "Vector store not initialized"
  | Some vs =>
      let documents := VectorStore.get_indexed_documents vs in
      Ok {| documents := documents;
            total_count := Z.of_nat (List.length documents) |}
  end.

(** The endpoint [get_document_stats].  From its definition on, the name
    [get_document_stats] of main.py is this function of no parameter, not
    the function imported from document_processor. *)
Definition get_document_stats (st : app) : http DocumentStatsResponse :=
  match vector_store st with
  | None => HTTPException 503 "Vector store not initialized"
  | Some vs =>
      let documents := VectorStore.get_indexed_documents vs in
      let chunk_count := get_collection_count vs in
      Ok {| total_documents := Z.of_nat (List.length documents);
            total_chunks := chunk_count;
            indexed_documents := documents |}
  end.

(** What [str(e)] is when [get_document_stats] is called with one
    argument. *)
Definition stats_call_error : string :=
  "get_document_stats() takes 0 positional arguments but 1 was given".

(** An uploaded file: its name, and what [PdfReader] makes of its
    bytes. *)
Record UploadFile := { file_name : string; file_pdf : pdf }.

(** The endpoint [upload_document].  A saved file is a name added to the
    documents folder; when the file cannot be opened for writing nothing is
    saved and the error is answered like every other one; copying into the
    opened file is taken to succeed.  The call [get_document_stats(chunks)]
    reaches the endpoint above and raises a [TypeError]; what follows it in
    the source ([add_documents], the log line, the response) is never
    run. *)
Definition upload_document (fuel : nat) (st : app) (file : UploadFile)
  : http DocumentUploadResponse * app :=
  match vector_store st with
  | None => (HTTPException 503 "Vector store not initialized", st)
  | Some vs =>
      if negb (endswith (lower (file_name file)) ".pdf") then
        (HTTPException 400 "Only PDF files are supported", st)
      else if is_document_indexed (file_name file) vs then
        (HTTPException 409
           ("Document '" +:+ file_name file +:+ "' is already indexed"), st)
      else
        match save_error st (file_name file) with
        | Some e =>
            (HTTPException 500 ("Error uploading document: " +:+ e), st)
        | None =>
            let saved :=
              {| vector_store := vector_store st;
                 chat_engine := chat_engine st;
                 documents_dir := {[file_name file]} ∪ documents_dir st;
                 save_error := save_error st |} in
            match process_pdf fuel (file_pdf file) (file_name file) with
            | Unfinished => (Pending, saved)
            | Raised e =>
                (HTTPException 500 ("Error uploading document: " +:+ e), saved)
            | Returned [] =>
                (HTTPException 400 "Failed to extract text from PDF",
                 {| vector_store := vector_store st;
                    chat_engine := chat_engine st;
                    documents_dir := documents_dir saved ∖ {[file_name file]};
                    save_error := save_error st |})
            | Returned (_ :: _) =>
                (HTTPException 500
                   ("Error uploading document: " +:+ stats_call_error), saved)
            end
        end
  end.

(** The endpoint [delete_document]. *)
Definition delete_document (st : app) (name : string)
  : http DocumentDeleteResponse * app :=
  match vector_store st with
  | None => (HTTPException 503 "Vector store not initialized", st)
  | Some vs =>
      if negb (is_document_indexed name vs) then
        (HTTPException 404 ("Document '" +:+ name +:+ "' not found in index"),
         st)
      else
        let initial_count := get_collection_count vs in
        let vs' := snd (VectorStore.delete_document name vs) in
        let final_count := get_collection_count vs' in
        let chunks_deleted := initial_count - final_count in
        (Ok {| delete_message := "Document deleted successfully";
               delete_filename := name;
               chunks_deleted := chunks_deleted |},
         {| vector_store := Some vs';
            chat_engine := chat_engine st;
            documents_dir := documents_dir st ∖ {[name]};
            save_error := save_error st |})
  end.
End Api.

(** ** Sample requests *)

Module ApiSamples.
Import PyStr DocumentProcessor VectorStore StoreSamples.

(** What opening a name with a directory part raises in a folder without
    folders of its own. *)
Definition no_such_directory (name : string) : string :=
  "[Errno 2] No such file or directory: 'documents/" +:+ name +:+ "'".

(** The text has a slash. *)
Fixpoint has_slash (s : string) : bool :=
  match s with
  | EmptyString => false
  | String c r => Ascii.eqb c "/" || has_slash r
  end.

Definition sample_app : Api.app :=
  {| Api.vector_store := Some sample_store;
     Api.chat_engine := true;
     Api.documents_dir := {["a.pdf"; "b.pdf"]};
     Api.save_error :=
       fun name => if has_slash name then Some (no_such_directory name)
                   else None |}.

Definition sample_request : Api.ChatRequest :=
  {| Api.message := "What is this about?";
     Api.chat_history := [ {| Api.role := "user"; Api.content := "Hello" |} ];
     Api.n_results := 5 |}.
End ApiSamples.

(** ** preprocess_documents.py *)

Module Preprocess.
Import PyStr DocumentProcessor VectorStore.

(** What [process_documents] keeps track of and prints at the end. *)
Record summary := {
  new_documents : list string;
  skipped_documents : list string;
  failed_documents : list (string * string);
  total_chunks : Z
}.

Definition nothing_done : summary :=
  {| new_documents := []; skipped_documents := [];
     failed_documents := []; total_chunks := 0 |}.

Section Run.
Variable uuid4 : nat -> string.

(** [for pdf_path in pdf_files: ...], each file given by its name
    [pdf_path.name] and by what [PdfReader] makes of it. *)
Fixpoint documents_loop (fuel : nat) (pdf_files : list (string * pdf))
    (vs : store) (sm : summary) : option (store * summary) :=
  match pdf_files with
  | [] => Some (vs, sm)
  | (filename, file) :: rest =>
      if is_document_indexed filename vs then
        documents_loop fuel rest vs
          {| new_documents := new_documents sm;
             skipped_documents := skipped_documents sm ++ [filename];
             failed_documents := failed_documents sm;
             total_chunks := total_chunks sm |}
      else
        match process_pdf fuel file filename with
        | Unfinished => None
        | Raised e =>
            documents_loop fuel rest vs
              {| new_documents := new_documents sm;
                 skipped_documents := skipped_documents sm;
                 failed_documents := failed_documents sm ++ [(filename, e)];
                 total_chunks := total_chunks sm |}
        | Returned chunks =>
            match add_documents uuid4 chunks vs with
            | (Returned _, vs') =>
                documents_loop fuel rest vs'
                  {| new_documents := new_documents sm ++ [filename];
                     skipped_documents := skipped_documents sm;
                     failed_documents := failed_documents sm;
                     total_chunks :=
                       total_chunks sm + Z.of_nat (List.length chunks) |}
            | (Raised e, vs') =>
                documents_loop fuel rest vs'
                  {| new_documents := new_documents sm;
                     skipped_documents := skipped_documents sm;
                     failed_documents := failed_documents sm ++ [(filename, e)];
                     total_chunks := total_chunks sm |}
            | (Unfinished, _) => None
            end
        end
  end.

(** The store and the summary at the end of [process_documents], or
    [None] when the chunker does not return on a page of a file. *)
Definition process_documents (fuel : nat) (pdf_files : list (string * pdf))
    (vs : store) : option (store * summary) :=
  match pdf_files with
  | [] => Some (vs, nothing_done)
  | _ => documents_loop fuel pdf_files vs nothing_done
  end.
End Run.

(** The records of the collection that have the given source. *)
Definition records_of (filename : string) (c : collection) : collection :=
  filter (fun entry => meta_source (snd (snd entry)) = Some filename) c.
End Preprocess.

(** ** chat_engine.py and the chat endpoint on values of any type

    [ChatEngine] and [Api.chat] read the chat history and the answer of the
    generation service at the types their callers in this repository give
    them: a message is a dictionary of texts, a generated response is a
    text.  Python checks neither.  This module reads the same functions
    over values that need not be texts, to settle what they do with a
    history or an answer of another shape; on texts the two readings
    agree. *)

Module Untyped.
Import PyStr DocumentProcessor VectorStore.
Import ChatEngine (system_msg, no_history, prompt_with, no_documents,
                   cannot_connect, timed_out, context_of, Gen, ret, bind).

(** A Python value as JSON gives it: [None], a truth value, an integer or
    a text.  (Numbers with a fraction, lists and dictionaries as values of
    a field are left out.) *)
Inductive value :=
| VNone
| VBool (b : bool)
| VInt (n : Z)
| VStr (s : string).

(** [type(v).__name__] *)
Definition type_name (v : value) : string :=
  match v with
  | VNone => "NoneType"
  | VBool _ => "bool"
  | VInt _ => "int"
  | VStr _ => "str"
  end.

(** [str(v)], which is what an f-string writes for [v]. *)
Definition str (v : value) : string :=
  match v with
  | VNone => "None"
  | VBool true => "True"
  | VBool false => "False"
  | VInt n => str_of_int n
  | VStr s => s
  end.

(** [str(e)] of the [AttributeError] that reading the attribute [name] of
    [v] raises when [v] has no such attribute. *)
Definition no_attribute (v : value) (name : string) : string :=
  "'" +:+ type_name v +:+ "' object has no attribute '" +:+ name +:+ "'".

(** An element of the chat history: a dictionary, or a value that is
    none. *)
Inductive entry :=
| Dict (d : gmap string value)
| NotDict (v : value).

(** The three lines of the loop body for one element:
    [role = msg.get("role", "user")], [content = msg.get("content", "")]
    and the text [f"\n{role.upper()}: {content}"].  Only a dictionary has
    [get], only a text has [upper]. *)
Definition render_message (msg : entry) : outcome string :=
  match msg with
  | NotDict v => Raised (no_attribute v "get")
  | Dict d =>
      let role := default (VStr "user") (d !! "role") in
      let content := default (VStr EmptyString) (d !! "content") in
      match role with
      | VStr r => Returned (newline +:+ upper r +:+ ": " +:+ str content)
      | _ => Raised (no_attribute role "upper")
      end
  end.

(** [for msg in chat_history[-3:]: history_text += ...] *)
Fixpoint history_loop (msgs : list entry) (history_text : string)
  : outcome string :=
  match msgs with
  | [] => Returned history_text
  | msg :: rest =>
      match render_message msg with
      | Returned line => history_loop rest (history_text +:+ line)
      | Raised e => Raised e
      | Unfinished => Unfinished
      end
  end.

(** [history_text] after the [if chat_history:] block. *)
Definition history_text (chat_history : option (list entry))
  : outcome string :=
  match chat_history with
  | None => Returned EmptyString
  | Some [] => Returned EmptyString
  | Some h => history_loop (last_n 3 h) EmptyString
  end.

Definition _build_prompt (query context : string)
    (chat_history : option (list entry)) : outcome string :=
  match history_text chat_history with
  | Returned h =>
      Returned (prompt_with (if is_empty h then no_history else h)
                            query context)
  | Raised e => Raised e
  | Unfinished => Unfinished
  end.

(** How [requests.post] and the reading of its answer end; the [response]
    field of the JSON object can hold any value. *)
Inductive post_result :=
| Responded (response : option value)
| ConnectionError
| Timeout
| RequestException (msg : string)
| OtherException (msg : string).

Section Engine.
Context {Meta : Type}.
Variable search : string -> Z -> outcome (list string * list Meta).
Variable post : string -> post_result.

Definition do_post (prompt : string) : Gen post_result :=
  fun posted => (post prompt, posted ++ [prompt]).

(** [result.get("response", "No response generated")] is returned as it
    is. *)
Definition _call_ollama (prompt : string) : Gen (outcome value) :=
  bind (do_post prompt) (fun r =>
    ret match r with
        | Responded response =>
            Returned (default (VStr "No response generated") response)
        | ConnectionError => Raised cannot_connect
        | Timeout => Raised timed_out
        | RequestException e => Raised ("Error calling Ollama: " +:+ e)
        | OtherException e => Raised e
        end).

(** The prompt is built before the [try] block: what [_build_prompt]
    raises leaves [get_response]. *)
Definition get_response (query : string)
    (chat_history : option (list entry)) (n_results : Z)
  : Gen (outcome (value * list Meta)) :=
  match search query n_results with
  | Raised e => ret (Raised e)
  | Unfinished => ret Unfinished
  | Returned (relevant_docs, metadatas) =>
      match relevant_docs with
      | [] => ret (Returned (VStr no_documents, []))
      | _ =>
          let context := context_of relevant_docs in
          match _build_prompt query context chat_history with
          | Raised e => ret (Raised e)
          | Unfinished => ret Unfinished
          | Returned prompt =>
              bind (_call_ollama prompt) (fun r =>
                ret match r with
                    | Returned response_text =>
                        Returned (response_text, metadatas)
                    | Raised e =>
                        Returned
                          (VStr ("Error getting response from Ollama: " +:+ e),
                           [])
                    | Unfinished => Unfinished
                    end)
          end
      end
  end.
End Engine.

(** [{"role": msg.role, "content": msg.content}] for each message of the
    request; the request model has made both fields texts. *)
Definition history_of (msgs : list Api.Message) : list entry :=
  (fun msg =>
     Dict (<["role" := VStr (Api.role msg)]>
             (<["content" := VStr (Api.content msg)]> ∅)))
    <$> msgs.

Section Chat.
Variable search : string -> Z -> outcome (list string * list meta).
Variable post : string -> post_result.
(** [ChatResponse(response=...)]: the field is declared a [str].  pydantic
    takes a text as it is and refuses [None]; what it makes of a number or
    a truth value depends on its version, and so does the text of its
    error. *)
Variable none_refused : string.
Variable coerced : value -> outcome string.

Definition response_field (v : value) : outcome string :=
  match v with
  | VStr s => Returned s
  | VNone => Raised none_refused
  | _ => coerced v
  end.

(** The endpoint [chat].  The response model is built last, after the
    sources; its refusal is answered like every other exception. *)
Definition chat (st : Api.app) (request : Api.ChatRequest)
  : Gen (Api.http Api.ChatResponse) :=
  if negb (Api.chat_engine st) then
    ret (Api.HTTPException 503 "Chat engine not initialized")
  else
    bind (get_response search post (Api.message request)
                       (Some (history_of (Api.chat_history request)))
                       (Api.n_results request))
      (fun r =>
         ret match r with
             | Unfinished => Api.Pending
             | Raised e =>
                 Api.HTTPException 500 ("Error processing request: " +:+ e)
             | Returned (response_text, sources_list) =>
                 let formatted_sources := Api.sources_loop sources_list [] in
                 let formatted :=
                   match sources_list with
                   | [] => Returned None
                   | _ =>
                       match Api.vector_store st with
                       | None =>
                           Raised
                             "'NoneType' object has no attribute 'format_sources'"
                       | Some _ =>
                           Returned
                             (Some (Api.sources_text_of
                                      (format_sources sources_list)))
                       end
                   end in
                 match formatted with
                 | Raised e =>
                     Api.HTTPException 500
                       ("Error processing request: " +:+ e)
                 | Unfinished => Api.Pending
                 | Returned sources_text =>
                     match response_field response_text with
                     | Returned response =>
                         Api.Ok {| Api.response := response;
                                   Api.sources := formatted_sources;
                                   Api.sources_text := sources_text |}
                     | Raised e =>
                         Api.HTTPException 500
                           ("Error processing request: " +:+ e)
                     | Unfinished => Api.Pending
                     end
                 end
             end).
End Chat.

(** The values of [ChatEngine] among the ones of this module. *)
Definition of_message (m : ChatEngine.message) : entry := Dict (VStr <$> m).

Definition of_post (r : ChatEngine.post_result) : post_result :=
  match r with
  | ChatEngine.Responded response => Responded (VStr <$> response)
  | ChatEngine.ConnectionError => ConnectionError
  | ChatEngine.Timeout => Timeout
  | ChatEngine.RequestException e => RequestException e
  | ChatEngine.OtherException e => OtherException e
  end.

Definition of_outcome {A B} (f : A -> B) (o : outcome A) : outcome B :=
  match o with
  | Returned a => Returned (f a)
  | Raised e => Raised e
  | Unfinished => Unfinished
  end.

(** *** Vocabulary for the histories *)

(** An element that [_build_prompt] can render: a dictionary whose role,
    if it has one, is a text. *)
Definition well_formed (msg : entry) : bool :=
  match msg with
  | Dict d =>
      match d !! "role" with
      | None | Some (VStr _) => true
      | Some _ => false
      end
  | NotDict _ => false
  end.

(** The role and the content of an element as the prompt shows them: a
    message without role is a user's, one without content has an empty
    content. *)
Definition role_of (msg : entry) : string :=
  match msg with
  | Dict d => match d !! "role" with Some (VStr r) => r | _ => "user" end
  | NotDict _ => "user"
  end.

Definition content_of (msg : entry) : string :=
  match msg with
  | Dict d => match d !! "content" with Some v => str v | None => EmptyString end
  | NotDict _ => EmptyString
  end.

(** One line per element: begun on a line of its own, the role in upper
    case, a colon and a blank, the content. *)
Definition history_lines (entries : list entry) : string :=
  foldr (fun msg rest =>
           newline +:+ upper (role_of msg) +:+ ": " +:+ content_of msg
           +:+ rest)
        EmptyString entries.

(** [str(e)] of what rendering an element that is not well formed
    raises. *)
Definition error_of (msg : entry) : string :=
  match msg with
  | NotDict v => no_attribute v "get"
  | Dict d => no_attribute (default (VStr "user") (d !! "role")) "upper"
  end.

(** The capitals of the roles are in the model of [str]. *)
Definition roles_exact (entries : list entry) : Prop :=
  Forall (fun msg => upper_exact (role_of msg) = true) entries.

(** The reading under which no history makes [_build_prompt] fail. *)
Definition history_never_fails : Prop :=
  forall query context chat_history,
    exists prompt,
      _build_prompt query context chat_history = Returned prompt.

(** Sample histories: a message without role and one without content, and
    one whose role is [None]. *)
Definition partial_history : list entry :=
  [ Dict {[ "content" := VStr "Hello" ]};
    Dict {[ "role" := VStr "assistant" ]} ].
Definition null_role_history : list entry :=
  [ Dict (<["role" := VNone]> {[ "content" := VStr "Hello" ]}) ].

(** A generation service whose answer has [null] as its response, and one
    that answers with a text. *)
Definition null_response : string -> post_result :=
  fun _ => Responded (Some VNone).
Definition answering : string -> post_result :=
  fun _ => Responded (Some (VStr "It is about tests.")).
End Untyped.

(** ** Properties of the string primitives *)

Import PyStr DocumentProcessor Spec Samples.

Lemma adjust_start_nonneg n i : 0 <= n -> 0 <= adjust_start n i.
Proof. unfold adjust_start. destruct (Z.ltb_spec i 0); lia. Qed.

Lemma len_nonneg s : 0 <= len s.
Proof. unfold len. lia. Qed.

Lemma rfind_down_spec s sub lo k :
  let r := rfind_down s sub lo k in
  (r = -1 /\ forall j, lo <= j < lo + Z.of_nat k -> matches_at s sub j = false)
  \/ (lo <= r < lo + Z.of_nat k /\ matches_at s sub r = true
      /\ forall j, r < j < lo + Z.of_nat k -> matches_at s sub j = false).
Proof.
  induction k as [|k IH]; cbn [rfind_down].
  - left. split; [reflexivity | intros j Hj; lia].
  - destruct (matches_at s sub (lo + Z.of_nat k)) eqn:Hm.
    + right. split; [lia|]. split; [exact Hm | intros j Hj; lia].
    + destruct IH as [[Hr Hno] | (Hr & Hyes & Hno)].
      * left. split; [exact Hr|]. intros j Hj.
        destruct (Z.eq_dec j (lo + Z.of_nat k)) as [->|Hne]; [exact Hm|].
        apply Hno. lia.
      * right. split; [lia|]. split; [exact Hyes|]. intros j Hj.
        destruct (Z.eq_dec j (lo + Z.of_nat k)) as [->|Hne]; [exact Hm|].
        apply Hno. lia.
Qed.

(** [rfind] answers [-1] exactly when the window has no occurrence. *)
Lemma rfind_absent s sub i j :
  absent s sub (adjust_start (len s) i) (adjust_end (len s) j) ->
  rfind s sub i j = -1.
Proof.
  intros Habs. unfold rfind.
  set (lo := adjust_start (len s) i) in *.
  set (hi := adjust_end (len s) j) in *.
  destruct (rfind_down_spec s sub lo (Z.to_nat (hi - len sub - lo + 1)))
    as [[Hr _] | (Hr & Hyes & _)]; [exact Hr|].
  exfalso. apply (Habs (rfind_down s sub lo (Z.to_nat (hi - len sub - lo + 1)))).
  split; [lia|]. split; [lia | exact Hyes].
Qed.


(** The converse readings, used to decide [last_in] and [absent] on a given
    text by running [rfind]. *)
Lemma rfind_found_last s sub i j :
  rfind s sub i j <> -1 ->
  last_in s sub (adjust_start (len s) i) (adjust_end (len s) j) (rfind s sub i j).
Proof.
  unfold rfind.
  set (lo := adjust_start (len s) i).
  set (hi := adjust_end (len s) j).
  intros Hne.
  destruct (rfind_down_spec s sub lo (Z.to_nat (hi - len sub - lo + 1)))
    as [[Hr _] | (Hr & Hyes & Hno)]; [contradiction|].
  split.
  - split; [lia|]. split; [lia | exact Hyes].
  - intros q (Hq1 & Hq2 & Hq3).
    destruct (Z_le_gt_dec q (rfind_down s sub lo (Z.to_nat (hi - len sub - lo + 1))))
      as [Hle|Hgt]; [exact Hle|].
    rewrite Hno in Hq3; [discriminate | lia].
Qed.


(** ** The chunker: where a window is cut *)






(** When the loop returns, it returns the chunks of its last state. *)
Lemma split_loop_run fuel text cs ov start chunks l :
  split_loop fuel text cs ov start chunks = Some l ->
  snd (split_run fuel text cs ov start chunks) = l.
Proof.
  revert start chunks. induction fuel as [|fuel IH]; intros start chunks;
    cbn [split_loop split_run].
  - destruct (start <? len text); [discriminate|]. intros [= <-]. reflexivity.
  - destruct (start <? len text); [apply IH|]. intros [= <-]. reflexivity.
Qed.




(** ** The chunker: returning, and what the chunks cover *)

Lemma split_loop_done fuel text cs ov start chunks :
  len text <= start -> split_loop fuel text cs ov start chunks = Some chunks.
Proof.
  intros Hge. destruct fuel; cbn [split_loop];
    destruct (Z.ltb_spec start (len text)); (lia || reflexivity).
Qed.

Lemma split_loop_more_fuel fuel k text cs ov start chunks l :
  split_loop fuel text cs ov start chunks = Some l ->
  split_loop (fuel + k) text cs ov start chunks = Some l.
Proof.
  revert start chunks. induction fuel as [|fuel IH]; intros start chunks;
    cbn [split_loop Nat.add].
  - destruct (Z.ltb_spec start (len text)); [discriminate|].
    intros [= <-]. apply split_loop_done. lia.
  - destruct (start <? len text); [apply IH | trivial].
Qed.

(** A cursor the loop body maps to itself keeps the loop running for
    ever. *)
Lemma split_loop_stalls text cs ov start :
  start < len text -> next_start text cs ov start = start ->
  forall fuel chunks, split_loop fuel text cs ov start chunks = None.
Proof.
  intros Hlt Hfix fuel. induction fuel as [|fuel IH]; intros chunks;
    cbn [split_loop]; destruct (Z.ltb_spec start (len text)); try lia.
  - reflexivity.
  - rewrite Hfix. apply IH.
Qed.

(** C3 fails on the code: on [hello] with chunk size 15 and overlap 5 (so
    [0 <= overlap < chunk_size]) the loop of [split_text] never ends.  The
    first window is cut after the period at 11, the cursor goes to 7, the
    window from 7 is cut after the same period, and the cursor is 7 again. *)
Theorem split_text_hello_never_returns :
  0 <= 5 < 15
  /\ next_start hello 15 5 0 = 7
  /\ next_start hello 15 5 7 = 7
  /\ forall fuel, split_text fuel hello 15 5 = None.
Proof.
  split; [lia|]. split; [vm_compute; reflexivity|].
  split; [vm_compute; reflexivity|].
  intros [|fuel]; [vm_compute; reflexivity|].
  unfold split_text. cbn [split_loop].
  replace (0 <? len hello) with true by (vm_compute; reflexivity).
  replace (next_start hello 15 5 0) with 7 by (vm_compute; reflexivity).
  apply split_loop_stalls; vm_compute; reflexivity.
Qed.

(** The same stall through [process_pdf], which chunks with 800 and 200: on
    the page [two_long_words] the only blank of the window is at 300, the
    cursor goes to 100 and stays there. *)
Lemma process_pdf_can_hang fuel filename :
  process_pdf fuel (Pages [Extracted two_long_words]) filename = Unfinished.
Proof.
  unfold process_pdf. cbn [page_loop].
  replace (is_empty (strip two_long_words)) with false by (vm_compute; reflexivity).
  assert (Hnone : split_text fuel two_long_words 800 200 = None).
  { destruct fuel as [|fuel]; [vm_compute; reflexivity|].
    unfold split_text. cbn [split_loop].
    replace (0 <? len two_long_words) with true by (vm_compute; reflexivity).
    replace (next_start two_long_words 800 200 0) with 100
      by (vm_compute; reflexivity).
    apply split_loop_stalls; vm_compute; reflexivity. }
  rewrite Hnone. reflexivity.
Qed.

(** What does hold of the chunks: none of them is empty. *)
Lemma split_loop_chunks_nonempty fuel text cs ov start chunks l :
  Forall (fun c => is_empty c = false) chunks ->
  split_loop fuel text cs ov start chunks = Some l ->
  Forall (fun c => is_empty c = false) l.
Proof.
  revert start chunks. induction fuel as [|fuel IH]; intros start chunks Hall;
    cbn [split_loop]; destruct (start <? len text);
    try discriminate; try (intros [= <-]; exact Hall).
  apply IH. unfold emit.
  destruct (is_empty (chunk_at text cs start)) eqn:He; [exact Hall|].
  apply Forall_app. split; [exact Hall|]. constructor; [exact He | constructor].
Qed.

(** C6 fails on the code: on [gap_text] with chunk size 10 and overlap 3 the
    call returns, and the letter b of the input is in none of its chunks.
    The first window is cut after the period at 1, so the cursor becomes
    [2 - 3 = -1]; Python reads [text[-1:9]] from the end of the text, the
    slice is empty, and the next cursor is [9 - 3 = 6]: the characters at
    3, 4 and 5 are never in a window. *)
Theorem split_text_drops_characters :
  (forall k, split_text (5 + k) gap_text 10 3
             = Some ["a."; "efghijklmn"; "lmnopqrstu"; "stuvwxyz"])
  /\ fst (split_run 1 gap_text 10 3 0 []) = -1
  /\ fst (split_run 2 gap_text 10 3 0 []) = 6
  /\ has_char "b" gap_text = true
  /\ is_space "b" = false
  /\ forallb (fun c => negb (has_char "b" c))
             ["a."; "efghijklmn"; "lmnopqrstu"; "stuvwxyz"] = true.
Proof.
  split; [|repeat split; vm_compute; reflexivity].
  intros k. unfold split_text. apply split_loop_more_fuel.
  vm_compute. reflexivity.
Qed.

(** ** The chunker on a text shorter than the chunk size *)

Lemma substring_whole s : substring 0 (String.length s) s = s.
Proof. induction s as [|c s IH]; cbn; [reflexivity | now rewrite IH]. Qed.

Lemma slice_whole text j : len text <= j -> slice text 0 j = text.
Proof.
  intros Hle. unfold slice, adjust_start, adjust_end. cbn [Z.ltb Z.compare].
  replace (Z.to_nat 0) with 0%nat by reflexivity.
  assert (Hhi : (if len text <? j then len text
                 else if j <? 0 then Z.max 0 (j + len text) else j) = len text).
  { pose proof (len_nonneg text).
    destruct (Z.ltb_spec (len text) j); [reflexivity|].
    destruct (Z.ltb_spec j 0); lia. }
  rewrite Hhi. unfold len. rewrite Z.sub_0_r, Nat2Z.id. apply substring_whole.
Qed.

Lemma split_text_short fuel text cs ov :
  text <> EmptyString -> len text < cs ->
  split_text (S fuel) text cs ov = Some (emit [] (strip text)).
Proof.
  intros Hne Hlt. unfold split_text. cbn [split_loop].
  assert (Hpos : 0 < len text).
  { unfold len. destruct text; [contradiction | cbn; lia]. }
  destruct (Z.ltb_spec 0 (len text)) as [_|]; [|lia].
  assert (Hend : chunk_end text cs 0 = cs).
  { unfold chunk_end. rewrite Z.add_0_l.
    destruct (Z.ltb_spec cs (len text)); [lia | reflexivity]. }
  unfold next_start, chunk_at. rewrite Hend.
  destruct (Z.ltb_spec cs (len text)); [lia|].
  rewrite slice_whole by lia. apply split_loop_done. lia.
Qed.

(** C8, as the code has it: a non-empty text strictly shorter than the chunk
    size gives, after one iteration and for every overlap, exactly one chunk,
    the whole text stripped, when it has a character that is not white
    space; a text of white space only gives no chunk at all. *)
Theorem split_text_short_text fuel text chunk_size overlap :
  text <> EmptyString -> len text < chunk_size ->
  (strip text <> EmptyString ->
   split_text (S fuel) text chunk_size overlap = Some [strip text])
  /\ (strip text = EmptyString ->
      split_text (S fuel) text chunk_size overlap = Some []).
Proof.
  intros Hne Hlt. rewrite (split_text_short fuel text chunk_size overlap Hne Hlt).
  unfold emit. split; intros H.
  - destruct (strip text); [contradiction | reflexivity].
  - rewrite H. reflexivity.
Qed.

(** A short text with blanks around it, and a text of one blank. *)
Lemma split_text_short_text_witness :
  split_text 1 " ab c " 50 1 = Some ["ab c"] /\ split_text 1 " " 5 1 = Some [].
Proof.
  split.
  - apply (split_text_short_text 0 " ab c " 50 1);
      [discriminate | vm_compute; reflexivity | vm_compute; discriminate].
  - apply (split_text_short_text 0 " " 5 1);
      [discriminate | vm_compute; reflexivity | vm_compute; reflexivity].
Defined.

(** C8 as stated fails: the one-blank text is non-empty and shorter than 5,
    and [split_text] returns no chunk for it. *)
Lemma blank_text_gives_no_chunk : ~ short_text_one_chunk.
Proof.
  intros H.
  destruct (H " " 5 1 ltac:(discriminate) ltac:(vm_compute; reflexivity))
    as [[|fuel] Hfuel].
  - vm_compute in Hfuel. discriminate.
  - rewrite split_text_short in Hfuel
      by (discriminate || (vm_compute; reflexivity)).
    vm_compute in Hfuel. discriminate.
Qed.

(** ** White space and the chunks of a blank text *)

Lemma rstrip_empty_iff s : is_empty (rstrip s) = all_space s.
Proof.
  induction s as [|c s IH]; cbn [rstrip all_space is_empty]; [reflexivity|].
  rewrite IH. destruct (is_space c), (all_space s); reflexivity.
Qed.

Lemma lstrip_all_space s : all_space (lstrip s) = all_space s.
Proof.
  induction s as [|c s IH]; cbn [lstrip all_space]; [reflexivity|].
  destruct (is_space c) eqn:Hc; cbn [all_space andb]; [exact IH|].
  rewrite Hc. reflexivity.
Qed.

Lemma strip_empty_iff s : is_empty (strip s) = all_space s.
Proof. unfold strip. rewrite rstrip_empty_iff. apply lstrip_all_space. Qed.

Lemma all_space_substring s n m :
  all_space s = true -> all_space (substring n m s) = true.
Proof.
  revert n m. induction s as [|c s IH]; intros n m Hs.
  - destruct n, m; reflexivity.
  - cbn [all_space] in Hs. apply andb_true_iff in Hs as [Hc Hs].
    destruct n as [|n]; destruct m as [|m]; cbn [substring all_space];
      try reflexivity; try (apply IH; exact Hs).
    rewrite Hc. cbn. apply IH. exact Hs.
Qed.

Lemma blank_text_emits_nothing text cs start chunks :
  all_space text = true -> emit chunks (chunk_at text cs start) = chunks.
Proof.
  intros Hs. unfold emit, chunk_at. rewrite strip_empty_iff.
  unfold slice. rewrite all_space_substring by exact Hs. reflexivity.
Qed.

Lemma blank_text_no_chunks fuel text cs ov start chunks l :
  all_space text = true ->
  split_loop fuel text cs ov start chunks = Some l -> l = chunks.
Proof.
  intros Hs. revert start chunks.
  induction fuel as [|fuel IH]; intros start chunks; cbn [split_loop].
  - destruct (start <? len text); [discriminate | congruence].
  - destruct (start <? len text); [|congruence].
    rewrite blank_text_emits_nothing by exact Hs. apply IH.
Qed.

(** ** process_pdf against the ingestion contract *)

Lemma append_page_records filename p page_chunks i0 chunks :
  append_page filename p page_chunks (Z.of_nat i0) chunks
  = chunks ++ imap (fun i c => {| text := c;
                                  metadata := {| source := filename; page := p;
                                                 chunk := Z.of_nat (i0 + i) |} |})
                   page_chunks.
Proof.
  revert i0 chunks. induction page_chunks as [|c rest IH]; intros i0 chunks;
    cbn [append_page].
  - rewrite imap_nil, app_nil_r. reflexivity.
  - replace (Z.of_nat i0 + 1) with (Z.of_nat (S i0)) by lia.
    rewrite IH, imap_cons, <- app_assoc. cbn [app].
    rewrite Nat.add_0_r. do 2 f_equal.
    apply imap_ext. intros i x _. cbn. do 3 f_equal. lia.
Qed.

Lemma page_loop_records fuel filename texts k chunks :
  page_loop fuel filename (Extracted <$> texts) (Z.of_nat k + 1) chunks
  = as_outcome ((fun l => chunks ++ l) <$> pdf_records_from fuel filename k texts).
Proof.
  revert k chunks. induction texts as [|t rest IH]; intros k chunks;
    cbn [fmap list_fmap page_loop pdf_records_from].
  - cbn. rewrite app_nil_r. reflexivity.
  - unfold records_of_page.
    replace (Z.of_nat k + 1 + 1) with (Z.of_nat (S k) + 1) by lia.
    destruct (is_empty (strip t)).
    + rewrite IH. destruct (pdf_records_from fuel filename (S k) rest);
        reflexivity.
    + destruct (split_text fuel t 800 200) as [page_chunks|]; [|reflexivity].
      cbn [fmap option_fmap option_map].
      rewrite IH, (append_page_records filename _ page_chunks 0 chunks).
      destruct (pdf_records_from fuel filename (S k) rest); cbn; [|reflexivity].
      unfold page_records. rewrite <- app_assoc. reflexivity.
Qed.

(** C5: on a PDF whose pages extract to [texts], [process_pdf] returns the
    records the contract describes, [pdf_records]: page after page, nothing
    for a page that is empty once stripped, and for every other page [p]
    (counted from 1) one record per element of [split_text t 800 200], with
    that page number and the 0-based position in the page's chunk list; it
    returns when the chunker does on each such page.  A two-page PDF whose
    pages give 3 and 2 chunks gives 5 records with pages 1,1,1,2,2 and chunk
    numbers 0,1,2,0,1. *)
Theorem process_pdf_records fuel filename :
  (forall texts,
      process_pdf fuel (Pages (Extracted <$> texts)) filename
      = as_outcome (pdf_records fuel filename texts))
  /\ (forall t1 t2 a b c d e,
         split_text fuel t1 800 200 = Some [a; b; c] ->
         split_text fuel t2 800 200 = Some [d; e] ->
         exists records,
           process_pdf fuel (Pages [Extracted t1; Extracted t2]) filename
           = Returned records
           /\ text <$> records = [a; b; c; d; e]
           /\ (page ∘ metadata) <$> records = [1; 1; 1; 2; 2]
           /\ (chunk ∘ metadata) <$> records = [0; 1; 2; 0; 1]
           /\ (source ∘ metadata) <$> records = replicate 5 filename).
Proof.
  assert (Hgen : forall texts,
      process_pdf fuel (Pages (Extracted <$> texts)) filename
      = as_outcome (pdf_records fuel filename texts)).
  { intros texts. unfold process_pdf, pdf_records.
    pose proof (page_loop_records fuel filename texts 0 []) as Hloop.
    change (Z.of_nat 0 + 1) with 1 in Hloop. rewrite Hloop.
    destruct (pdf_records_from fuel filename 0 texts); reflexivity. }
  split; [exact Hgen|].
  intros t1 t2 a b c d e H1 H2.
  assert (Hnb : forall t x l, split_text fuel t 800 200 = Some (x :: l) ->
                              is_empty (strip t) = false).
  { intros t x l Ht. rewrite strip_empty_iff.
    destruct (all_space t) eqn:Hs; [|reflexivity].
    apply (blank_text_no_chunks _ _ _ _ _ _ _ Hs) in Ht. discriminate. }
  change [Extracted t1; Extracted t2] with (Extracted <$> [t1; t2]).
  rewrite Hgen. unfold pdf_records. cbn [pdf_records_from].
  unfold records_of_page.
  rewrite (Hnb _ _ _ H1), (Hnb _ _ _ H2), H1, H2.
  eexists. split; [reflexivity|]. repeat split.
Qed.

(** Two pages without blanks, of 2000 and 1400 letters: windows of 800
    that advance by 600 give 3 and 2 chunks. *)
Lemma process_pdf_records_witness :
  exists records,
    process_pdf 4 (Pages [Extracted three_chunk_page; Extracted two_chunk_page])
                "a.pdf" = Returned records
    /\ (page ∘ metadata) <$> records = [1; 1; 1; 2; 2]
    /\ (chunk ∘ metadata) <$> records = [0; 1; 2; 0; 1].
Proof.
  destruct (process_pdf_records 4 "a.pdf") as [_ Hex].
  destruct (Hex three_chunk_page two_chunk_page
              (slice three_chunk_page 0 800) (slice three_chunk_page 600 1400)
              (slice three_chunk_page 1200 2000)
              (slice two_chunk_page 0 800) (slice two_chunk_page 600 1400)
              ltac:(vm_compute; reflexivity) ltac:(vm_compute; reflexivity))
    as (records & Hret & _ & Hpages & Hchunks & _).
  exists records. split; [exact Hret|]. split; [exact Hpages | exact Hchunks].
Defined.

(** ** get_document_stats *)

Lemma total_chars_from acc chunks :
  foldl (fun a c => a + len (text c)) acc chunks
  = acc + foldr Z.add 0 ((len ∘ text) <$> chunks).
Proof.
  revert acc. induction chunks as [|c chunks IH]; intros acc; cbn; [lia|].
  rewrite IH. lia.
Qed.

(** On a non-empty list the dictionary has the four entries, with the
    values the contract names. *)
Lemma get_document_stats_nonempty (chunks : list Chunk) :
  chunks <> [] ->
  let stats := get_document_stats chunks in
  let total := foldr Z.add 0 ((len ∘ text) <$> chunks) in
  stats !! "total_chunks" = Some (IntStat (Z.of_nat (List.length chunks)))
  /\ stats !! "total_characters" = Some (IntStat total)
  /\ stats !! "avg_chunk_size"
     = Some (IntStat (total / Z.of_nat (List.length chunks)))
  /\ exists names,
       stats !! "sources" = Some (SourcesStat names)
       /\ NoDup names
       /\ forall x, x ∈ names <-> exists c, c ∈ chunks /\ source (metadata c) = x.
Proof.
  intros Hne stats total. subst stats. unfold get_document_stats.
  rewrite bool_decide_eq_false_2 by exact Hne.
  assert (Htotal : total_chars chunks = total).
  { unfold total_chars. rewrite total_chars_from. reflexivity. }
  rewrite Htotal.
  split; [apply lookup_insert_eq|].
  split; [rewrite lookup_insert_ne by discriminate; apply lookup_insert_eq|].
  split; [do 3 (rewrite lookup_insert_ne by discriminate); apply lookup_insert_eq|].
  exists (distinct_sources chunks). split.
  - do 2 (rewrite lookup_insert_ne by discriminate). apply lookup_insert_eq.
  - unfold distinct_sources. split; [apply NoDup_elements|].
    intros x. rewrite elem_of_elements, elem_of_list_to_set, list_elem_of_fmap.
    split; intros (c & H1 & H2); exists c; cbn in *; split; auto.
Qed.

(** C7 fails on the code for the empty list: the dictionary returned there
    has three entries and no [avg_chunk_size] at all, so that field is not
    zero but missing; the other two numbers are zero and the source list is
    empty, as claimed. *)
Theorem get_document_stats_empty_lacks_average :
  get_document_stats [] !! "avg_chunk_size" = None
  /\ dom (get_document_stats [])
     = ({["total_chunks"; "total_characters"; "sources"]} : gset string)
  /\ get_document_stats [] !! "total_chunks" = Some (IntStat 0)
  /\ get_document_stats [] !! "total_characters" = Some (IntStat 0)
  /\ get_document_stats [] !! "sources" = Some (SourcesStat []).
Proof.
  unfold get_document_stats. rewrite bool_decide_eq_true_2 by reflexivity.
  split; [do 3 (rewrite lookup_insert_ne by discriminate); apply lookup_empty|].
  split; [rewrite !dom_insert_L, dom_empty_L; set_solver|].
  split; [apply lookup_insert_eq|].
  split; [rewrite lookup_insert_ne by discriminate; apply lookup_insert_eq|].
  do 2 (rewrite lookup_insert_ne by discriminate). apply lookup_insert_eq.
Qed.

(** ** The prompt builder *)

Import ChatEngine.

Lemma string_app_assoc (a b c : string) : (a +:+ b) +:+ c = a +:+ (b +:+ c).
Proof.
  induction a as [|x a IH]; [reflexivity|].
  change (String x ((a +:+ b) +:+ c) = String x (a +:+ (b +:+ c))).
  f_equal. exact IH.
Qed.

Lemma string_app_nil_r (a : string) : a +:+ EmptyString = a.
Proof.
  induction a as [|x a IH]; [reflexivity|].
  change (String x (a +:+ EmptyString) = String x a). f_equal. exact IH.
Qed.

Lemma history_loop_lines msgs acc :
  history_loop msgs acc = acc +:+ history_lines msgs.
Proof.
  revert acc. induction msgs as [|m msgs IH]; intros acc;
    cbn [history_loop history_lines foldr].
  - symmetry. apply string_app_nil_r.
  - rewrite IH. unfold render_message, history_line.
    fold (history_lines msgs). rewrite !string_app_assoc. reflexivity.
Qed.

Lemma history_lines_not_empty m msgs : is_empty (history_lines (m :: msgs)) = false.
Proof. reflexivity. Qed.

Lemma last_n_length {A} n (l : list A) : (List.length (last_n n l) <= n)%nat.
Proof. unfold last_n. rewrite length_drop. lia. Qed.

Lemma last_n_suffix {A} n (l : list A) :
  l = take (List.length l - n) l ++ last_n n l.
Proof. unfold last_n. symmetry. apply take_drop. Qed.

Lemma last_n_nonempty {A} n (x : A) l : last_n (S n) (x :: l) <> [].
Proof.
  intros H. apply (f_equal (@List.length A)) in H.
  unfold last_n in H. rewrite length_drop in H. cbn in H. lia.
Qed.

Lemma last_three_of_more {A} (older : list A) a b c :
  last_n 3 (older ++ [a; b; c]) = [a; b; c].
Proof.
  unfold last_n. rewrite length_app. cbn [List.length].
  replace (List.length older + 3 - 3)%nat with (List.length older) by lia.
  apply drop_app_length.
Qed.

Lemma history_text_section h :
  (let t := history_text (Some h) in if is_empty t then no_history else t)
  = history_section h.
Proof.
  destruct h as [|m h]; [reflexivity|].
  cbn [history_text history_section]. rewrite history_loop_lines.
  change (EmptyString +:+ history_lines (last_n 3 (m :: h)))
    with (history_lines (last_n 3 (m :: h))).
  cbv zeta.
  destruct (last_n 3 (m :: h)) as [|m' r] eqn:Hl.
  - exfalso. exact (last_n_nonempty 2 m h Hl).
  - rewrite history_lines_not_empty. reflexivity.
Qed.

Lemma build_prompt_block query context h :
  _build_prompt query context (Some h)
  = prompt_with (history_section h) query context.
Proof.
  unfold _build_prompt. cbv zeta.
  pose proof (history_text_section h) as Hs. cbv zeta in Hs.
  rewrite Hs. reflexivity.
Qed.

Lemma history_section_lines (h : list message) :
  h <> [] -> history_section h = history_lines (last_n 3 h).
Proof. destruct h; [contradiction | reflexivity]. Qed.

(** C9: the prompt is the system message and, under the heading "PREVIOUS
    CONVERSATION:", the history block, followed by the documents and the
    question.  For the empty history the block is the placeholder
    "(No previous conversation)".  For a history of one, two or more
    entries it holds one line per entry for at most three entries, the last
    ones: a newline, the role in upper case, ": " and the content, whatever
    other keys the entry has; the entries before the last three change
    nothing.  In general the block is made of the lines of the last three
    entries, an entry without role counting as a user's and one without
    content as empty.  (The roles are taken to have their capitals among
    the code points of the model, see [upper_exact].) *)
Theorem build_prompt_history query context :
  let prompt_of block :=
    system_msg +:+ newline +:+ newline
    +:+ "PREVIOUS CONVERSATION:" +:+ newline
    +:+ block +:+ newline +:+ newline
    +:+ "RELEVANT DOCUMENTS:" +:+ newline
    +:+ context +:+ newline +:+ newline
    +:+ "USER QUESTION: " +:+ query +:+ newline +:+ newline
    +:+ "ASSISTANT ANSWER:" in
  let entry (m : message) (role content : string) : message :=
    <["role" := role]> (<["content" := content]> m) in
  let line (role content : string) :=
    newline +:+ upper role +:+ ": " +:+ content in
  _build_prompt query context (Some [])
  = prompt_of "(No previous conversation)"
  /\ (forall m1 r1 c1,
         upper_exact r1 = true ->
         _build_prompt query context (Some [entry m1 r1 c1])
         = prompt_of (line r1 c1))
  /\ (forall m1 r1 c1 m2 r2 c2,
         upper_exact r1 = true -> upper_exact r2 = true ->
         _build_prompt query context (Some [entry m1 r1 c1; entry m2 r2 c2])
         = prompt_of (line r1 c1 +:+ line r2 c2))
  /\ (forall older m1 r1 c1 m2 r2 c2 m3 r3 c3,
         upper_exact r1 = true -> upper_exact r2 = true ->
         upper_exact r3 = true ->
         _build_prompt query context
           (Some (older ++ [entry m1 r1 c1; entry m2 r2 c2; entry m3 r3 c3]))
         = prompt_of (line r1 c1 +:+ line r2 c2 +:+ line r3 c3))
  /\ (forall h : list message,
         h <> [] ->
         Forall (fun m => upper_exact (default "user" (m !! "role")) = true)
                (last_n 3 h) ->
         _build_prompt query context (Some h)
         = prompt_of (history_lines (last_n 3 h))
         /\ (List.length (last_n 3 h) <= 3)%nat
         /\ exists older, h = older ++ last_n 3 h).
Proof.
  intros prompt_of entry line.
  assert (Hgen : forall h : list message,
             h <> [] ->
             _build_prompt query context (Some h)
             = prompt_of (history_lines (last_n 3 h))).
  { intros h Hne. rewrite build_prompt_block, history_section_lines by exact Hne.
    reflexivity. }
  assert (Hline : forall (m : message) role content rest,
             history_lines (entry m role content :: rest)
             = line role content +:+ history_lines rest).
  { intros m role content rest. subst entry line. cbn [history_lines foldr].
    rewrite lookup_insert_eq, lookup_insert_ne by discriminate.
    rewrite lookup_insert_eq. cbn [default].
    unfold history_line. rewrite !string_app_assoc. reflexivity. }
  assert (Hnil : history_lines [] = EmptyString) by reflexivity.
  split; [reflexivity|].
  split.
  { intros m1 r1 c1 _. rewrite Hgen by discriminate.
    change (last_n 3 [entry m1 r1 c1]) with [entry m1 r1 c1].
    rewrite Hline, Hnil, string_app_nil_r. reflexivity. }
  split.
  { intros m1 r1 c1 m2 r2 c2 _ _. rewrite Hgen by discriminate.
    change (last_n 3 [entry m1 r1 c1; entry m2 r2 c2])
      with [entry m1 r1 c1; entry m2 r2 c2].
    rewrite !Hline, Hnil, string_app_nil_r. reflexivity. }
  split.
  { intros older m1 r1 c1 m2 r2 c2 m3 r3 c3 _ _ _.
    rewrite Hgen.
    - rewrite last_three_of_more, !Hline, Hnil, string_app_nil_r.
      reflexivity.
    - intros H. apply (f_equal (@List.length _)) in H.
      rewrite length_app in H. cbn in H. lia. }
  intros h Hne _. split; [apply Hgen; exact Hne|].
  split; [apply last_n_length|]. eexists. apply last_n_suffix.
Qed.

(** A history of four messages: the first one is not in the prompt. *)
Lemma build_prompt_history_witness :
  _build_prompt "Why?" "Some text."
    (Some ([ <["role" := "user"]> (<["content" := "Hello"]> ∅) ]
           ++ [ <["role" := "assistant"]> (<["content" := "Hi"]> ∅);
                <["role" := "user"]> (<["content" := "More"]> ∅);
                <["role" := "assistant"]> (<["content" := "Sure"]> ∅) ]))
  = system_msg +:+ newline +:+ newline
    +:+ "PREVIOUS CONVERSATION:" +:+ newline
    +:+ ((newline +:+ "ASSISTANT" +:+ ": " +:+ "Hi")
         +:+ (newline +:+ "USER" +:+ ": " +:+ "More")
         +:+ (newline +:+ "ASSISTANT" +:+ ": " +:+ "Sure"))
    +:+ newline +:+ newline
    +:+ "RELEVANT DOCUMENTS:" +:+ newline
    +:+ "Some text." +:+ newline +:+ newline
    +:+ "USER QUESTION: " +:+ "Why?" +:+ newline +:+ newline
    +:+ "ASSISTANT ANSWER:".
Proof.
  destruct (build_prompt_history "Why?" "Some text.")
    as (_ & _ & _ & Hthree & _).
  apply (Hthree [ <["role" := "user"]> (<["content" := "Hello"]> ∅) ]
                ∅ "assistant" "Hi" ∅ "user" "More" ∅ "assistant" "Sure");
    reflexivity.
Defined.

(** ** The orchestrator *)

Section Orchestrator.
Context {Meta : Type}.
Variable search : string -> Z -> outcome (list string * list Meta).
Variable post : string -> post_result.

Lemma get_response_generates query chat_history n_results d docs metadatas posted :
  search query n_results = Returned (d :: docs, metadatas) ->
  get_response search post query chat_history n_results posted
  = (match post (_build_prompt query (context_of (d :: docs)) chat_history) with
     | Responded response =>
         Returned (default "No response generated" response, metadatas)
     | ConnectionError =>
         Returned ("Error getting response from Ollama: " +:+ cannot_connect, [])
     | Timeout =>
         Returned ("Error getting response from Ollama: " +:+ timed_out, [])
     | RequestException e =>
         Returned ("Error getting response from Ollama: "
                   +:+ "Error calling Ollama: " +:+ e, [])
     | OtherException e =>
         Returned ("Error getting response from Ollama: " +:+ e, [])
     end,
     posted ++ [_build_prompt query (context_of (d :: docs)) chat_history]).
Proof.
  intros Hs. unfold get_response. rewrite Hs.
  unfold bind, _call_ollama, bind, do_post, ret, context_of.
  destruct (post _); reflexivity.
Qed.

(** C2: when the search gives no text, [get_response] returns the fixed
    message with an empty source list, and the prompts posted to the
    generation service are the ones posted before: [_call_ollama] did not
    run. *)
Theorem get_response_without_documents
    query chat_history n_results metadatas posted :
  search query n_results = Returned ([], metadatas) ->
  get_response search post query chat_history n_results posted
  = (Returned
       ("I don't have any documents to reference. Please upload some documents first.",
        []),
     posted).
Proof. intros Hs. unfold get_response. rewrite Hs. reflexivity. Qed.

(** C4: when the search gives at least one text and the generation call
    fails, by a connection failure, a timeout or another request failure,
    [get_response] returns: its answer is the text "Error getting response
    from Ollama: " followed by the message of the failure, with an empty
    source list; for a connection failure that message is the one that
    tells to run ollama serve. *)
Theorem get_response_generation_failure
    query chat_history n_results d docs metadatas posted :
  search query n_results = Returned (d :: docs, metadatas) ->
  let prompt := _build_prompt query (context_of (d :: docs)) chat_history in
  let answer :=
    fst (get_response search post query chat_history n_results posted) in
  (post prompt = ConnectionError ->
   answer
   = Returned
       ("Error getting response from Ollama: "
        +:+ "Cannot connect to Ollama. Make sure it's running with: ollama serve",
        []))
  /\ (post prompt = Timeout ->
      answer
      = Returned
          ("Error getting response from Ollama: "
           +:+ "Ollama request timed out. Try a smaller model or simpler question.",
           []))
  /\ (forall e, post prompt = RequestException e ->
      answer
      = Returned
          ("Error getting response from Ollama: "
           +:+ "Error calling Ollama: " +:+ e, [])).
Proof.
  intros Hs prompt answer. subst answer prompt.
  rewrite (get_response_generates _ _ _ _ _ _ _ Hs). cbn [fst].
  repeat split; [intros -> | intros -> | intros e ->]; reflexivity.
Qed.

End Orchestrator.

(** An empty index: the fixed answer, nothing posted. *)
Lemma get_response_without_documents_witness :
  get_response empty_index offline "What is this about?" None 5 []
  = (Returned
       ("I don't have any documents to reference. Please upload some documents first.",
        []),
     []).
Proof.
  apply (get_response_without_documents empty_index offline
           "What is this about?" None 5 [] []).
  reflexivity.
Defined.

(** One retrieved text and a service that cannot be reached. *)
Lemma get_response_generation_failure_witness :
  fst (get_response one_document offline "What is this about?" None 5 [])
  = Returned
      ("Error getting response from Ollama: "
       +:+ "Cannot connect to Ollama. Make sure it's running with: ollama serve",
       []).
Proof.
  destruct (get_response_generation_failure one_document offline
              "What is this about?" None 5 "Some text." [] [tt] [] eq_refl)
    as [Hconnection _].
  apply Hconnection. reflexivity.
Defined.

(** ** The history on values of any type *)

Lemma string_app_nil_l (a : string) : EmptyString +:+ a = a.
Proof. reflexivity. Qed.

Lemma untyped_render_well_formed msg :
  Untyped.well_formed msg = true ->
  Untyped.render_message msg
  = Returned (newline +:+ upper (Untyped.role_of msg) +:+ ": "
              +:+ Untyped.content_of msg).
Proof.
  destruct msg as [d|v]; [|discriminate].
  unfold Untyped.well_formed, Untyped.render_message, Untyped.role_of,
    Untyped.content_of.
  destruct (d !! "role") as [[| | |r]|]; try discriminate;
    destruct (d !! "content"); reflexivity.
Qed.

Lemma untyped_render_ill_formed msg :
  Untyped.well_formed msg = false ->
  Untyped.render_message msg = Raised (Untyped.error_of msg).
Proof.
  destruct msg as [d|v]; [|reflexivity].
  unfold Untyped.well_formed, Untyped.render_message, Untyped.error_of.
  destruct (d !! "role") as [[| | |r]|]; try discriminate; reflexivity.
Qed.

Lemma untyped_loop_well_formed msgs acc :
  forallb Untyped.well_formed msgs = true ->
  Untyped.history_loop msgs acc
  = Returned (acc +:+ Untyped.history_lines msgs).
Proof.
  revert acc. induction msgs as [|msg msgs IH]; intros acc Hwf;
    cbn [Untyped.history_loop Untyped.history_lines foldr].
  - rewrite string_app_nil_r. reflexivity.
  - cbn [forallb] in Hwf. apply andb_true_iff in Hwf as [Hmsg Hrest].
    rewrite (untyped_render_well_formed msg Hmsg), IH by exact Hrest.
    fold (Untyped.history_lines msgs). rewrite !string_app_assoc.
    reflexivity.
Qed.

Lemma untyped_loop_ill_formed good bad rest acc :
  forallb Untyped.well_formed good = true ->
  Untyped.well_formed bad = false ->
  Untyped.history_loop (good ++ bad :: rest) acc
  = Raised (Untyped.error_of bad).
Proof.
  revert acc. induction good as [|msg good IH]; intros acc Hgood Hbad;
    cbn [Untyped.history_loop app].
  - rewrite (untyped_render_ill_formed bad Hbad). reflexivity.
  - cbn [forallb] in Hgood. apply andb_true_iff in Hgood as [Hmsg Hrest].
    rewrite (untyped_render_well_formed msg Hmsg). apply IH; assumption.
Qed.

Lemma untyped_lines_not_empty msg msgs :
  is_empty (Untyped.history_lines (msg :: msgs)) = false.
Proof. reflexivity. Qed.

Lemma untyped_build_prompt_empty query context chat_history :
  chat_history = None \/ chat_history = Some [] ->
  Untyped._build_prompt query context chat_history
  = Returned (prompt_with no_history query context).
Proof. intros [->| ->]; reflexivity. Qed.

Lemma untyped_build_prompt_well_formed query context h :
  h <> [] ->
  forallb Untyped.well_formed (last_n 3 h) = true ->
  Untyped._build_prompt query context (Some h)
  = Returned (prompt_with (Untyped.history_lines (last_n 3 h)) query context).
Proof.
  intros Hne Hwf. destruct h as [|m h]; [contradiction|].
  unfold Untyped._build_prompt, Untyped.history_text.
  rewrite (untyped_loop_well_formed _ _ Hwf), string_app_nil_l.
  destruct (last_n 3 (m :: h)) as [|m' r] eqn:Hl.
  - exfalso. exact (last_n_nonempty 2 m h Hl).
  - rewrite untyped_lines_not_empty. reflexivity.
Qed.

Lemma untyped_build_prompt_ill_formed query context h good bad rest :
  last_n 3 h = good ++ bad :: rest ->
  forallb Untyped.well_formed good = true ->
  Untyped.well_formed bad = false ->
  Untyped._build_prompt query context (Some h)
  = Raised (Untyped.error_of bad).
Proof.
  intros Hlast Hgood Hbad. destruct h as [|m h].
  - destruct good; discriminate.
  - unfold Untyped._build_prompt, Untyped.history_text.
    rewrite Hlast, (untyped_loop_ill_formed good bad rest _ Hgood Hbad).
    reflexivity.
Qed.

Lemma untyped_build_prompt_returns query context chat_history :
  match chat_history with
  | None => True
  | Some h => forallb Untyped.well_formed (last_n 3 h) = true
  end ->
  exists prompt,
    Untyped._build_prompt query context chat_history = Returned prompt.
Proof.
  destruct chat_history as [[|m h]|]; intros Hwf;
    [eexists; reflexivity | | eexists; reflexivity].
  eexists. apply untyped_build_prompt_well_formed; [discriminate | exact Hwf].
Qed.

(** The typed reading is the untyped one on texts. *)
Lemma untyped_render_agrees (m : message) :
  Untyped.render_message (Untyped.of_message m)
  = Returned (render_message m).
Proof.
  unfold Untyped.render_message, Untyped.of_message, render_message.
  rewrite !lookup_fmap.
  destruct (m !! "role"), (m !! "content"); reflexivity.
Qed.

Lemma untyped_loop_agrees (msgs : list message) acc :
  Untyped.history_loop (Untyped.of_message <$> msgs) acc
  = Returned (history_loop msgs acc).
Proof.
  revert acc. induction msgs as [|m msgs IH]; intros acc;
    cbn [Untyped.history_loop history_loop fmap list_fmap]; [reflexivity|].
  rewrite untyped_render_agrees. apply IH.
Qed.

Lemma last_n_fmap {A B} (f : A -> B) n (l : list A) :
  last_n n (f <$> l) = f <$> last_n n l.
Proof. unfold last_n. rewrite length_fmap, fmap_drop. reflexivity. Qed.

Lemma untyped_build_prompt_agrees query context
    (chat_history : option (list message)) :
  Untyped._build_prompt query context
    (fmap (M:=option) (fmap (M:=list) Untyped.of_message) chat_history)
  = Returned (_build_prompt query context chat_history).
Proof.
  destruct chat_history as [[|m h]|]; [reflexivity | | reflexivity].
  unfold Untyped._build_prompt, _build_prompt, Untyped.history_text,
    history_text.
  cbn [fmap option_fmap option_map].
  change (Untyped.of_message <$> m :: h)
    with (Untyped.of_message m :: (Untyped.of_message <$> h)).
  change (Untyped.of_message m :: (Untyped.of_message <$> h))
    with (Untyped.of_message <$> (m :: h)).
  rewrite last_n_fmap, untyped_loop_agrees. reflexivity.
Qed.

Section UntypedOrchestrator.
Context {Meta : Type}.
Variable search : string -> Z -> outcome (list string * list Meta).
Variable post : string -> Untyped.post_result.

Lemma untyped_get_response_generates
    query chat_history n_results d docs metadatas prompt posted :
  search query n_results = Returned (d :: docs, metadatas) ->
  Untyped._build_prompt query (context_of (d :: docs)) chat_history
  = Returned prompt ->
  Untyped.get_response search post query chat_history n_results posted
  = (match post prompt with
     | Untyped.Responded response =>
         Returned (default (Untyped.VStr "No response generated") response,
                   metadatas)
     | Untyped.ConnectionError =>
         Returned (Untyped.VStr ("Error getting response from Ollama: "
                                 +:+ cannot_connect), [])
     | Untyped.Timeout =>
         Returned (Untyped.VStr ("Error getting response from Ollama: "
                                 +:+ timed_out), [])
     | Untyped.RequestException e =>
         Returned (Untyped.VStr ("Error getting response from Ollama: "
                                 +:+ "Error calling Ollama: " +:+ e), [])
     | Untyped.OtherException e =>
         Returned (Untyped.VStr ("Error getting response from Ollama: " +:+ e),
                   [])
     end,
     posted ++ [prompt]).
Proof.
  intros Hs Hp. unfold Untyped.get_response. rewrite Hs.
  unfold context_of in *. rewrite Hp.
  unfold bind, Untyped._call_ollama, bind, Untyped.do_post, ret.
  destruct (post _); reflexivity.
Qed.

Lemma untyped_get_response_raises
    query chat_history n_results d docs metadatas e posted :
  search query n_results = Returned (d :: docs, metadatas) ->
  Untyped._build_prompt query (context_of (d :: docs)) chat_history
  = Raised e ->
  Untyped.get_response search post query chat_history n_results posted
  = (Raised e, posted).
Proof.
  intros Hs Hp. unfold Untyped.get_response. rewrite Hs.
  unfold context_of in *. rewrite Hp. reflexivity.
Qed.

(** C10: [None] and the empty history give the same prompt, the one with
    the placeholder, and the same call.  A message without role is written
    as a user's, one without content with an empty content, and a content
    that is no text as [str] shows it.  As long as each of the last three
    elements of the history is a dictionary whose role, if it has one, is a
    text, [_build_prompt] returns and [get_response] ends the way the
    search does, raising only what the search raised.  An element among
    the last three that is no dictionary, or whose role is no text, makes
    [_build_prompt] raise the attribute error of the first such element,
    and [get_response], which builds the prompt outside its [try], raises
    it too when the search has found documents; when the search has found
    none the history is not read. *)
Theorem history_defaults :
  let prompt_of (query context block : string) :=
    system_msg +:+ newline +:+ newline
    +:+ "PREVIOUS CONVERSATION:" +:+ newline
    +:+ block +:+ newline +:+ newline
    +:+ "RELEVANT DOCUMENTS:" +:+ newline
    +:+ context +:+ newline +:+ newline
    +:+ "USER QUESTION: " +:+ query +:+ newline +:+ newline
    +:+ "ASSISTANT ANSWER:" in
  let attribute_error (bad : Untyped.entry) :=
    match bad with
    | Untyped.NotDict v =>
        "'" +:+ Untyped.type_name v +:+ "' object has no attribute 'get'"
    | Untyped.Dict d =>
        "'" +:+ Untyped.type_name
                  (default (Untyped.VStr "user") (d !! "role"))
        +:+ "' object has no attribute 'upper'"
    end in
  (forall query context,
      Untyped._build_prompt query context None
      = Returned (prompt_of query context "(No previous conversation)")
      /\ Untyped._build_prompt query context (Some [])
         = Untyped._build_prompt query context None)
  /\ (forall query n_results posted,
         Untyped.get_response search post query (Some []) n_results posted
         = Untyped.get_response search post query None n_results posted)
  /\ (forall query context d,
         d !! "role" = None ->
         Untyped._build_prompt query context (Some [Untyped.Dict d])
         = Returned
             (prompt_of query context
                (newline +:+ "USER: "
                 +:+ match d !! "content" with
                     | Some v => Untyped.str v
                     | None => EmptyString
                     end)))
  /\ (forall query context d r,
         d !! "role" = Some (Untyped.VStr r) ->
         d !! "content" = None ->
         upper_exact r = true ->
         Untyped._build_prompt query context (Some [Untyped.Dict d])
         = Returned (prompt_of query context (newline +:+ upper r +:+ ": ")))
  /\ (forall query context h,
         h <> [] ->
         forallb Untyped.well_formed (last_n 3 h) = true ->
         Untyped.roles_exact (last_n 3 h) ->
         Untyped._build_prompt query context (Some h)
         = Returned
             (prompt_of query context (Untyped.history_lines (last_n 3 h))))
  /\ (forall query chat_history n_results posted,
         match chat_history with
         | None => True
         | Some h => forallb Untyped.well_formed (last_n 3 h) = true
         end ->
         match search query n_results with
         | Returned _ =>
             exists r,
               fst (Untyped.get_response search post query chat_history
                      n_results posted) = Returned r
         | Raised e =>
             fst (Untyped.get_response search post query chat_history
                    n_results posted) = Raised e
         | Unfinished =>
             fst (Untyped.get_response search post query chat_history
                    n_results posted) = Unfinished
         end)
  /\ (forall query h good bad rest,
         last_n 3 h = good ++ bad :: rest ->
         forallb Untyped.well_formed good = true ->
         Untyped.well_formed bad = false ->
         (forall context,
             Untyped._build_prompt query context (Some h)
             = Raised (attribute_error bad))
         /\ (forall n_results d docs metadatas posted,
                search query n_results = Returned (d :: docs, metadatas) ->
                Untyped.get_response search post query (Some h) n_results
                  posted
                = (Raised (attribute_error bad), posted))
         /\ (forall n_results metadatas posted,
                search query n_results = Returned ([], metadatas) ->
                Untyped.get_response search post query (Some h) n_results
                  posted
                = (Returned
                     (Untyped.VStr
                        "I don't have any documents to reference. Please upload some documents first.",
                      []),
                   posted))).
Proof.
  intros prompt_of attribute_error.
  assert (Herr : forall bad, attribute_error bad = Untyped.error_of bad).
  { intros [d|v]; reflexivity. }
  split; [intros query context; split; reflexivity|].
  split; [reflexivity|].
  split.
  { intros query context d Hrole.
    rewrite untyped_build_prompt_well_formed; [|discriminate|].
    - change (last_n 3 [Untyped.Dict d]) with [Untyped.Dict d].
      cbn [Untyped.history_lines foldr Untyped.role_of Untyped.content_of].
      rewrite Hrole, string_app_nil_r. reflexivity.
    - change (last_n 3 [Untyped.Dict d]) with [Untyped.Dict d].
      cbn [forallb Untyped.well_formed]. rewrite Hrole. reflexivity. }
  split.
  { intros query context d r Hrole Hcontent _.
    rewrite untyped_build_prompt_well_formed; [|discriminate|].
    - change (last_n 3 [Untyped.Dict d]) with [Untyped.Dict d].
      cbn [Untyped.history_lines foldr Untyped.role_of Untyped.content_of].
      rewrite Hrole, Hcontent, !string_app_nil_r. reflexivity.
    - change (last_n 3 [Untyped.Dict d]) with [Untyped.Dict d].
      cbn [forallb Untyped.well_formed]. rewrite Hrole. reflexivity. }
  split.
  { intros query context h Hne Hwf _.
    apply untyped_build_prompt_well_formed; assumption. }
  split.
  { intros query chat_history n_results posted Hwf.
    destruct (search query n_results) as [[[|d docs] metadatas]|e|] eqn:Hs.
    - eexists. unfold Untyped.get_response. rewrite Hs. reflexivity.
    - destruct (untyped_build_prompt_returns query (context_of (d :: docs))
                  chat_history Hwf) as [prompt Hp].
      rewrite (untyped_get_response_generates _ _ _ _ _ _ _ _ Hs Hp).
      cbn [fst]. destruct (post prompt); eexists; reflexivity.
    - unfold Untyped.get_response. rewrite Hs. reflexivity.
    - unfold Untyped.get_response. rewrite Hs. reflexivity. }
  intros query h good bad rest Hlast Hgood Hbad. rewrite Herr.
  split; [|split].
  - intros context.
    apply (untyped_build_prompt_ill_formed _ _ _ _ _ _ Hlast Hgood Hbad).
  - intros n_results d docs metadatas posted Hs.
    apply (untyped_get_response_raises _ _ _ _ _ _ _ _ Hs).
    apply (untyped_build_prompt_ill_formed _ _ _ _ _ _ Hlast Hgood Hbad).
  - intros n_results metadatas posted Hs.
    unfold Untyped.get_response. rewrite Hs. reflexivity.
Qed.
End UntypedOrchestrator.

(** A message without role and one without content, with one retrieved
    text. *)
Lemma history_defaults_witness :
  Untyped._build_prompt "Why?" "Some text." (Some Untyped.partial_history)
  = Returned
      (system_msg +:+ newline +:+ newline
       +:+ "PREVIOUS CONVERSATION:" +:+ newline
       +:+ (newline +:+ "USER: Hello" +:+ newline +:+ "ASSISTANT: ")
       +:+ newline +:+ newline
       +:+ "RELEVANT DOCUMENTS:" +:+ newline
       +:+ "Some text." +:+ newline +:+ newline
       +:+ "USER QUESTION: " +:+ "Why?" +:+ newline +:+ newline
       +:+ "ASSISTANT ANSWER:")
  /\ Untyped.get_response one_document Untyped.answering "Why?"
       (Some Untyped.null_role_history) 5 []
     = (Raised "'NoneType' object has no attribute 'upper'", []).
Proof.
  destruct (history_defaults one_document Untyped.answering)
    as (_ & _ & _ & _ & Hlines & _ & Hraises).
  split.
  - rewrite (Hlines "Why?" "Some text." Untyped.partial_history);
      [reflexivity | discriminate | reflexivity | repeat constructor].
  - destruct (Hraises "Why?" Untyped.null_role_history []
                (Untyped.Dict
                   (<["role" := Untyped.VNone]>
                      {[ "content" := Untyped.VStr "Hello" ]}))
                [] eq_refl eq_refl eq_refl) as (_ & Hcall & _).
    apply (Hcall 5 "Some text." [] [tt] []). reflexivity.
Defined.

(** C10 as stated fails: a message whose role is [None] makes
    [_build_prompt] raise. *)
Lemma null_role_raises : ~ Untyped.history_never_fails.
Proof.
  intros H.
  destruct (H "Why?" "Some text." (Some Untyped.null_role_history))
    as [prompt Hprompt].
  vm_compute in Hprompt. discriminate.
Qed.


(** ** More on the chunker: what every chunk is *)

Import Chunks.

(** A property of every chunk the loop body can produce holds of the whole
    result. *)
Lemma split_loop_invariant (P : string -> Prop) fuel text cs ov start chunks l :
  (forall s, is_empty (chunk_at text cs s) = false -> P (chunk_at text cs s)) ->
  Forall P chunks ->
  split_loop fuel text cs ov start chunks = Some l ->
  Forall P l.
Proof.
  intros Hbody. revert start chunks.
  induction fuel as [|fuel IH]; intros start chunks Hall; cbn [split_loop];
    destruct (start <? len text); try discriminate;
    try (intros [= <-]; exact Hall).
  apply IH. unfold emit.
  destruct (is_empty (chunk_at text cs start)) eqn:He; [exact Hall|].
  apply Forall_app. split; [exact Hall|].
  constructor; [apply Hbody; exact He | constructor].
Qed.

Lemma lstrip_begins s : begins_with_space (lstrip s) = false.
Proof.
  induction s as [|c r IH]; cbn [lstrip]; [reflexivity|].
  destruct (is_space c) eqn:Hc; [exact IH | exact Hc].
Qed.

Lemma rstrip_begins s :
  begins_with_space s = false -> begins_with_space (rstrip s) = false.
Proof.
  destruct s as [|c r]; [reflexivity|]. cbn [begins_with_space rstrip].
  intros Hc. rewrite Hc. cbn [andb begins_with_space]. exact Hc.
Qed.

Lemma rstrip_ends s : ends_with_space (rstrip s) = false.
Proof.
  induction s as [|c r IH]; cbn [rstrip]; [reflexivity|].
  destruct (is_space c) eqn:Hc; destruct (is_empty (rstrip r)) eqn:He;
    cbn [andb]; try reflexivity; cbn [ends_with_space]; rewrite He;
    first [exact IH | exact Hc].
Qed.

Lemma strip_stripped s : is_empty (strip s) = false -> stripped (strip s).
Proof.
  intros He. split; [|split].
  - intros H. rewrite H in He. discriminate.
  - apply rstrip_begins, lstrip_begins.
  - apply rstrip_ends.
Qed.

(** X1: No chunk is empty, and none begins or ends with white space. *)
Theorem split_text_chunks_stripped fuel text chunk_size overlap l :
  split_text fuel text chunk_size overlap = Some l ->
  Forall stripped l.
Proof.
  apply split_loop_invariant; [|constructor].
  intros s. apply strip_stripped.
Qed.

(** On [gap_text], whose second chunk is cut out of the middle of the
    letters. *)
Lemma split_text_chunks_stripped_witness :
  Forall stripped ["a."; "efghijklmn"; "lmnopqrstu"; "stuvwxyz"].
Proof.
  apply (split_text_chunks_stripped 5 gap_text 10 3).
  vm_compute. reflexivity.
Defined.

(** *** Every chunk is a piece of the text *)

Lemma piece_of_refl s : piece_of s s.
Proof. exists EmptyString, EmptyString. symmetry. apply string_app_nil_r. Qed.

Lemma piece_of_trans a b c : piece_of a b -> piece_of b c -> piece_of a c.
Proof.
  intros (p1 & q1 & ->) (p2 & q2 & ->).
  exists (p2 +:+ p1), (q1 +:+ q2). rewrite !string_app_assoc. reflexivity.
Qed.

Lemma substring_prefix m s : exists after, s = substring 0 m s +:+ after.
Proof.
  revert m. induction s as [|c r IH]; intros m.
  - exists EmptyString. destruct m; reflexivity.
  - destruct m as [|m]; cbn [substring].
    + exists (String c r). reflexivity.
    + destruct (IH m) as [after Hafter]. exists after.
      change (String c r = String c (substring 0 m r +:+ after)).
      f_equal. exact Hafter.
Qed.

Lemma substring_piece n m s : piece_of (substring n m s) s.
Proof.
  revert n. induction s as [|c r IH]; intros n.
  - destruct n, m; apply piece_of_refl.
  - destruct n as [|n].
    + destruct (substring_prefix m (String c r)) as [after Hafter].
      exists EmptyString, after. exact Hafter.
    + cbn [substring]. destruct (IH n) as (before & after & Hr).
      exists (String c before), after.
      change (String c r = String c (before +:+ substring n m r +:+ after)).
      f_equal. exact Hr.
Qed.

Lemma lstrip_piece s : piece_of (lstrip s) s.
Proof.
  induction s as [|c r IH]; cbn [lstrip]; [apply piece_of_refl|].
  destruct (is_space c); [|apply piece_of_refl].
  destruct IH as (before & after & Hr).
  exists (String c before), after.
  change (String c r = String c (before +:+ lstrip r +:+ after)).
  f_equal. exact Hr.
Qed.

Lemma rstrip_prefix s : exists after, s = rstrip s +:+ after.
Proof.
  induction s as [|c r IH]; cbn [rstrip]; [exists EmptyString; reflexivity|].
  destruct (is_space c && is_empty (rstrip r)).
  - exists (String c r). reflexivity.
  - destruct IH as [after Hafter]. exists after.
    change (String c r = String c (rstrip r +:+ after)).
    f_equal. exact Hafter.
Qed.

Lemma strip_piece s : piece_of (strip s) s.
Proof.
  unfold strip. apply (piece_of_trans _ (lstrip s)); [|apply lstrip_piece].
  destruct (rstrip_prefix (lstrip s)) as [after Hafter].
  exists EmptyString, after. exact Hafter.
Qed.

(** X2: Every chunk is a run of consecutive characters of the text: the chunker
    copies, it never changes or invents a character. *)
Theorem split_text_chunks_pieces fuel text chunk_size overlap l :
  split_text fuel text chunk_size overlap = Some l ->
  Forall (fun c => piece_of c text) l.
Proof.
  apply split_loop_invariant; [|constructor].
  intros s _. unfold chunk_at, slice.
  eapply piece_of_trans; [apply strip_piece | apply substring_piece].
Qed.

Lemma split_text_chunks_pieces_witness :
  Forall (fun c => piece_of c gap_text)
         ["a."; "efghijklmn"; "lmnopqrstu"; "stuvwxyz"].
Proof.
  apply (split_text_chunks_pieces 5 gap_text 10 3).
  vm_compute. reflexivity.
Defined.


(** *** No chunk is longer than the chunk size *)

Lemma substring_length_le n m s : (String.length (substring n m s) <= m)%nat.
Proof.
  revert n m. induction s as [|c r IH]; intros n m.
  - destruct n, m; cbn; lia.
  - destruct n as [|n]; destruct m as [|m]; cbn [substring String.length];
      try lia.
    + specialize (IH 0%nat m). lia.
    + apply IH.
    + apply IH.
Qed.

Lemma lstrip_length_le s : (String.length (lstrip s) <= String.length s)%nat.
Proof.
  induction s as [|c r IH]; cbn [lstrip String.length]; [lia|].
  destruct (is_space c); cbn [String.length]; lia.
Qed.

Lemma rstrip_length_le s : (String.length (rstrip s) <= String.length s)%nat.
Proof.
  induction s as [|c r IH]; cbn [rstrip String.length]; [lia|].
  destruct (is_space c && is_empty (rstrip r)); cbn [String.length]; lia.
Qed.

Lemma strip_len_le s : len (strip s) <= len s.
Proof.
  unfold len, strip.
  pose proof (rstrip_length_le (lstrip s)). pose proof (lstrip_length_le s). lia.
Qed.

Lemma slice_len_le s i j :
  len (slice s i j)
  <= Z.max 0 (adjust_end (len s) j - adjust_start (len s) i).
Proof.
  unfold slice, len at 1.
  pose proof (substring_length_le
                (Z.to_nat (adjust_start (len s) i))
                (Z.to_nat (adjust_end (len s) j - adjust_start (len s) i)) s).
  lia.
Qed.

Lemma adjust_end_le n j : 0 <= n -> adjust_end n j <= n.
Proof.
  intros Hn. unfold adjust_end.
  destruct (Z.ltb_spec n j); [lia|]. destruct (Z.ltb_spec j 0); lia.
Qed.

Lemma adjust_end_inside n j : 0 <= j <= n -> adjust_end n j = j.
Proof.
  intros Hj. unfold adjust_end.
  destruct (Z.ltb_spec n j); [lia|]. destruct (Z.ltb_spec j 0); lia.
Qed.

(** The window of an iteration is at most [chunk_size] wide. *)
Lemma window_width n start cs :
  0 <= n -> 0 <= cs ->
  adjust_end n (start + cs) - adjust_start n start <= cs.
Proof.
  intros Hn Hcs. unfold adjust_end, adjust_start.
  destruct (Z.ltb_spec n (start + cs)); destruct (Z.ltb_spec start 0);
    try destruct (Z.ltb_spec (start + cs) 0); lia.
Qed.

Lemma sentence_break_some text ds start e x :
  sentence_break text ds start e = Some x ->
  exists d, In d ds /\ rfind text d start e <> -1
            /\ x = rfind text d start e + 1.
Proof.
  induction ds as [|d ds IH]; cbn [sentence_break]; [discriminate|].
  destruct (Z.eqb_spec (rfind text d start e) (-1)) as [Heq|Hne]; cbn [negb].
  - intros H. destruct (IH H) as (d' & Hin & Hd'). exists d'.
    split; [right; exact Hin | exact Hd'].
  - intros [= <-]. exists d. split; [left; reflexivity|]. split; [exact Hne|].
    reflexivity.
Qed.

Lemma delimiters_len d : In d delimiters -> 1 <= len d.
Proof. intros [<-|[<-|[<-|[<-|[]]]]]; vm_compute; discriminate. Qed.

(** The slice of an iteration is at most [chunk_size] long. *)
Lemma chunk_window_width text cs start :
  0 <= cs ->
  adjust_end (len text) (chunk_end text cs start)
  - adjust_start (len text) start <= cs.
Proof.
  intros Hcs. pose proof (len_nonneg text) as Hn.
  pose proof (window_width (len text) start cs Hn Hcs) as Hw.
  pose proof (adjust_end_le (len text) (start + cs) Hn) as Hhi.
  unfold chunk_end.
  destruct (Z.ltb_spec (start + cs) (len text)) as [Hlt|Hge]; [|exact Hw].
  destruct (sentence_break text delimiters start (start + cs)) as [x|] eqn:Hsb.
  - destruct (sentence_break_some _ _ _ _ _ Hsb) as (d & Hin & Hne & ->).
    destruct (rfind_found_last text d start (start + cs) Hne)
      as [(Hlo & Hup & _) _].
    pose proof (delimiters_len d Hin).
    pose proof (adjust_start_nonneg (len text) start Hn).
    rewrite adjust_end_inside by lia. lia.
  - destruct (Z.eqb_spec (rfind text " " start (start + cs)) (-1)) as [_|Hne];
      cbn [negb]; [exact Hw|].
    destruct (rfind_found_last text " " start (start + cs) Hne)
      as [(Hlo & Hup & _) _].
    assert (Hone : len " " = 1) by reflexivity.
    pose proof (adjust_start_nonneg (len text) start Hn).
    rewrite adjust_end_inside by lia. lia.
Qed.

Lemma chunk_at_len_le text cs s : 0 <= cs -> len (chunk_at text cs s) <= cs.
Proof.
  intros Hcs. unfold chunk_at.
  pose proof (strip_len_le (slice text s (chunk_end text cs s))).
  pose proof (slice_len_le text s (chunk_end text cs s)).
  pose proof (chunk_window_width text cs s Hcs). lia.
Qed.

(** X3: With a chunk size that is not negative, no chunk has more than
    [chunk_size] characters, wherever the cursor went. *)
Theorem split_text_chunks_bounded fuel text chunk_size overlap l :
  0 <= chunk_size ->
  split_text fuel text chunk_size overlap = Some l ->
  Forall (fun c => len c <= chunk_size) l.
Proof.
  intros Hcs. apply split_loop_invariant; [|constructor].
  intros s _. apply chunk_at_len_le. exact Hcs.
Qed.

Lemma split_text_chunks_bounded_witness :
  Forall (fun c => len c <= 10) ["a."; "efghijklmn"; "lmnopqrstu"; "stuvwxyz"].
Proof.
  apply (split_text_chunks_bounded 5 gap_text 10 3); [lia|].
  vm_compute. reflexivity.
Defined.


(** *** A text of white space only *)

(** X4: A text all of whose characters are white space gives no chunk. *)
Theorem split_text_blank_text fuel text chunk_size overlap l :
  all_space text = true ->
  split_text fuel text chunk_size overlap = Some l ->
  l = [].
Proof. intros Hs. apply blank_text_no_chunks. exact Hs. Qed.

Lemma split_text_blank_text_witness : @nil string = [].
Proof.
  apply (split_text_blank_text 3 (" " +:+ newline +:+ " ") 2 0 []);
    vm_compute; reflexivity.
Defined.

(** *** A text without white space *)

Lemma no_space_substring s n m :
  no_space s = true -> no_space (substring n m s) = true.
Proof.
  revert n m. induction s as [|c r IH]; intros n m Hs.
  - destruct n, m; reflexivity.
  - cbn [no_space] in Hs. apply andb_true_iff in Hs as [Hc Hr].
    destruct n as [|n]; destruct m as [|m]; cbn [substring no_space];
      try reflexivity; try (apply IH; exact Hr).
    rewrite Hc. cbn [andb]. apply IH. exact Hr.
Qed.

Lemma no_space_no_match text sub i :
  no_space text = true -> no_space sub = false -> matches_at text sub i = false.
Proof.
  intros Ht Hsub. unfold matches_at.
  destruct (0 <=? i); [cbn [andb] | reflexivity].
  destruct (String.eqb_spec (substring (Z.to_nat i) (String.length sub) text) sub)
    as [Heq|_]; [|reflexivity].
  pose proof (no_space_substring text (Z.to_nat i) (String.length sub) Ht) as H.
  rewrite Heq in H. congruence.
Qed.

Lemma no_space_rfind text sub i j :
  no_space text = true -> no_space sub = false -> rfind text sub i j = -1.
Proof.
  intros Ht Hsub. apply rfind_absent. intros k (_ & _ & Hm).
  rewrite (no_space_no_match text sub k Ht Hsub) in Hm. discriminate.
Qed.

Lemma no_space_chunk_end text cs start :
  no_space text = true -> chunk_end text cs start = start + cs.
Proof.
  intros Ht. unfold chunk_end.
  destruct (start + cs <? len text); [|reflexivity].
  cbn [delimiters sentence_break].
  rewrite !(no_space_rfind text _ _ _ Ht) by reflexivity. reflexivity.
Qed.

Lemma no_space_lstrip s : no_space s = true -> lstrip s = s.
Proof.
  destruct s as [|c r]; [reflexivity|]. cbn [no_space lstrip].
  intros [Hc _]%andb_true_iff. apply negb_true_iff in Hc. rewrite Hc.
  reflexivity.
Qed.

Lemma no_space_rstrip s : no_space s = true -> rstrip s = s.
Proof.
  induction s as [|c r IH]; [reflexivity|]. cbn [no_space rstrip].
  intros [Hc Hr]%andb_true_iff. apply negb_true_iff in Hc.
  rewrite Hc, (IH Hr). reflexivity.
Qed.

Lemma no_space_strip s : no_space s = true -> strip s = s.
Proof.
  intros Hs. unfold strip. rewrite (no_space_lstrip s Hs).
  apply no_space_rstrip. exact Hs.
Qed.

(** Slices and substrings, with the bounds as integers. *)
Lemma substring_past n s :
  (String.length s <= n)%nat -> substring 0 n s = s.
Proof.
  revert n. induction s as [|c r IH]; intros n Hn.
  - destruct n; reflexivity.
  - destruct n as [|n]; cbn [String.length] in Hn; [lia|].
    cbn [substring]. f_equal. apply IH. lia.
Qed.

Lemma substring_length a n s :
  (a + n <= String.length s)%nat -> String.length (substring a n s) = n.
Proof.
  revert a n. induction s as [|c r IH]; intros a n Hn; cbn [String.length] in Hn.
  - assert (a = 0%nat /\ n = 0%nat) as [-> ->] by lia. reflexivity.
  - destruct a as [|a]; destruct n as [|n]; cbn [substring String.length];
      try reflexivity.
    + f_equal. apply IH. lia.
    + apply IH. lia.
    + apply IH. lia.
Qed.

Lemma substring_substring a n i m s :
  (i + m <= n)%nat ->
  substring i m (substring a n s) = substring (a + i) m s.
Proof.
  revert a n i m. induction s as [|c r IH]; intros a n i m Hle.
  - assert (Hnil : forall x y, substring x y EmptyString = EmptyString)
      by (intros [|x] [|y]; reflexivity).
    rewrite !Hnil. reflexivity.
  - destruct a as [|a].
    + destruct n as [|n].
      * assert (i = 0%nat /\ m = 0%nat) as [-> ->] by lia. reflexivity.
      * cbn [substring Nat.add]. destruct i as [|i].
        -- destruct m as [|m]; [reflexivity|]. cbn [substring]. f_equal.
           apply (IH 0%nat n 0%nat m). lia.
        -- cbn [substring]. apply (IH 0%nat n i m). lia.
    + cbn [substring Nat.add]. apply IH. exact Hle.
Qed.

Lemma substring_app_split a b s :
  substring 0 a s +:+ substring a b s = substring 0 (a + b) s.
Proof.
  revert a b. induction s as [|c r IH]; intros a b.
  - assert (Hnil : forall x y, substring x y EmptyString = EmptyString)
      by (intros [|x] [|y]; reflexivity).
    rewrite !Hnil. reflexivity.
  - destruct a as [|a]; cbn [Nat.add].
    + destruct b; reflexivity.
    + cbn [substring].
      change (String c (substring 0 a r +:+ substring a b r)
              = String c (substring 0 (a + b) r)).
      f_equal. apply IH.
Qed.

Lemma slice_from s i j :
  0 <= i -> i <= j ->
  slice s i j
  = substring (Z.to_nat i) (Z.to_nat (Z.min j (len s) - i)) s.
Proof.
  intros Hi Hij. unfold slice, adjust_start, adjust_end.
  pose proof (len_nonneg s).
  destruct (Z.ltb_spec i 0); [lia|].
  destruct (Z.ltb_spec (len s) j); [f_equal; f_equal; lia|].
  destruct (Z.ltb_spec j 0); [lia|]. f_equal. f_equal. lia.
Qed.

Lemma tails_from_acc ov rest acc :
  foldr (fun x a => slice x ov (len x) +:+ a) acc rest
  = foldr (fun x a => slice x ov (len x) +:+ a) EmptyString rest +:+ acc.
Proof.
  induction rest as [|x rest IH]; cbn [foldr]; [reflexivity|].
  rewrite IH, string_app_assoc. reflexivity.
Qed.

Lemma reassemble_snoc ov chunks c :
  chunks <> [] ->
  reassemble ov (chunks ++ [c])
  = reassemble ov chunks +:+ slice c ov (len c).
Proof.
  destruct chunks as [|c0 rest]; [contradiction|]. intros _.
  cbn [app reassemble]. rewrite foldr_app. cbn [foldr].
  rewrite tails_from_acc, string_app_nil_r, string_app_assoc. reflexivity.
Qed.

Lemma nonempty_by_length s : 0 < len s -> is_empty s = false.
Proof. destruct s; [intros H; vm_compute in H; discriminate | reflexivity]. Qed.

Lemma substring_len a n s :
  0 <= a -> 0 <= n -> a + n <= len s ->
  len (substring (Z.to_nat a) (Z.to_nat n) s) = n.
Proof.
  intros Ha Hn Hle. unfold len in *.
  rewrite substring_length by lia. lia.
Qed.

(** The chunk of a window of a text without white space is the window. *)
Lemma no_space_chunk text cs start :
  no_space text = true -> 0 <= start < len text -> 0 < cs ->
  chunk_at text cs start
  = substring (Z.to_nat start)
              (Z.to_nat (Z.min (start + cs) (len text) - start)) text.
Proof.
  intros Ht Hs Hcs. unfold chunk_at. rewrite (no_space_chunk_end text cs start Ht).
  rewrite slice_from by lia. apply no_space_strip, no_space_substring. exact Ht.
Qed.

(** A window without its first [ov] characters. *)
Lemma window_tail text start n ov :
  0 <= start -> 0 <= ov <= n -> start + n <= len text ->
  slice (substring (Z.to_nat start) (Z.to_nat n) text) ov
        (len (substring (Z.to_nat start) (Z.to_nat n) text))
  = substring (Z.to_nat (start + ov)) (Z.to_nat (n - ov)) text.
Proof.
  intros Hs Hov Hle.
  rewrite (substring_len start n text) by lia.
  rewrite slice_from by lia.
  rewrite (substring_len start n text) by lia.
  rewrite Z.min_id, substring_substring by lia.
  f_equal. lia.
Qed.

Lemma prefix_extend text a b :
  0 <= a -> 0 <= b ->
  substring 0 (Z.to_nat a) text +:+ substring (Z.to_nat a) (Z.to_nat b) text
  = substring 0 (Z.to_nat (a + b)) text.
Proof.
  intros Ha Hb. rewrite substring_app_split. f_equal. lia.
Qed.

Lemma no_space_loop text cs ov :
  no_space text = true -> 0 <= ov < cs ->
  forall fuel start chunks,
    len text - start <= Z.of_nat fuel ->
    (chunks = [] /\ start = 0
     \/ chunks <> [] /\ 0 <= start /\ start + ov < len text
        /\ reassemble ov chunks = substring 0 (Z.to_nat (start + ov)) text) ->
    exists l, split_loop fuel text cs ov start chunks = Some l
              /\ reassemble ov l = text.
Proof.
  intros Ht Hov.
  assert (Hstop : forall fuel start chunks,
             len text <= start ->
             (chunks = [] /\ start = 0
              \/ chunks <> [] /\ 0 <= start /\ start + ov < len text
                 /\ reassemble ov chunks
                    = substring 0 (Z.to_nat (start + ov)) text) ->
             exists l, split_loop fuel text cs ov start chunks = Some l
                       /\ reassemble ov l = text).
  { intros fuel start chunks Hge [[-> ->]|(_ & _ & Hlt & _)]; [|lia].
    exists []. split; [apply split_loop_done; exact Hge|].
    destruct text; [reflexivity|]. unfold len in Hge. cbn in Hge. lia. }
  induction fuel as [|fuel IH]; intros start chunks Hfuel Hinv.
  { apply Hstop; [lia | exact Hinv]. }
  destruct (Z_lt_ge_dec start (len text)) as [Hlt|Hge];
    [|apply Hstop; [lia | exact Hinv]].
  assert (Hstart : 0 <= start) by (destruct Hinv as [[_ ->]|(_ & H & _)]; lia).
  cbn [split_loop]. destruct (Z.ltb_spec start (len text)) as [_|]; [|lia].
  pose proof (no_space_chunk text cs start Ht ltac:(lia) ltac:(lia)) as Hchunk.
  set (n := Z.min (start + cs) (len text) - start) in *.
  assert (Hn : 0 < n) by (subst n; lia).
  assert (Hlen : len (chunk_at text cs start) = n).
  { rewrite Hchunk. apply substring_len; subst n; lia. }
  unfold emit. rewrite (nonempty_by_length (chunk_at text cs start)) by lia.
  unfold next_start. rewrite (no_space_chunk_end text cs start Ht).
  destruct (Z.ltb_spec (start + cs) (len text)) as [Hin|Hout].
  - (* the window ends inside the text *)
    assert (Hncs : n = cs) by (subst n; lia).
    apply IH; [lia|]. right.
    split; [intros H; apply app_eq_nil in H as [_ H]; discriminate|].
    split; [lia|]. split; [lia|].
    replace (start + cs - ov + ov) with (start + cs) by lia.
    destruct Hinv as [[-> ->]|(Hne & _ & Hprev & Hre)].
    + cbn [app reassemble foldr]. rewrite string_app_nil_r, Hchunk.
      f_equal. lia.
    + rewrite (reassemble_snoc ov chunks _ Hne), Hre, Hchunk.
      rewrite window_tail by lia.
      rewrite prefix_extend by lia. f_equal. lia.
  - (* the window reaches the end of the text *)
    assert (Hnend : n = len text - start) by (subst n; lia).
    eexists. split; [apply split_loop_done; lia|].
    destruct Hinv as [[-> ->]|(Hne & _ & Hprev & Hre)].
    + cbn [app reassemble foldr]. rewrite string_app_nil_r, Hchunk.
      apply substring_past. unfold len in *. lia.
    + rewrite (reassemble_snoc ov chunks _ Hne), Hre, Hchunk.
      rewrite window_tail by lia.
      rewrite prefix_extend by lia.
      apply substring_past. unfold len in *. lia.
Qed.

(** X5: On a text without any white space and with [0 <= overlap < chunk_size]
    the chunker returns, after at most [len(text)] iterations, and its
    chunks overlap by exactly [overlap] characters: the first chunk followed
    by every later chunk from its character [overlap] on is the text again. *)
Theorem split_text_without_space fuel text chunk_size overlap :
  no_space text = true -> 0 <= overlap < chunk_size ->
  len text <= Z.of_nat fuel ->
  exists l, split_text fuel text chunk_size overlap = Some l
            /\ reassemble overlap l = text.
Proof.
  intros Ht Hov Hfuel. unfold split_text.
  apply (no_space_loop text chunk_size overlap Ht Hov); [lia|].
  left. split; reflexivity.
Qed.

Lemma split_text_without_space_witness :
  exists l, split_text 26 "abcdefghijklmnopqrstuvwxyz" 10 3 = Some l
            /\ reassemble 3 l = "abcdefghijklmnopqrstuvwxyz".
Proof.
  apply (split_text_without_space 26 "abcdefghijklmnopqrstuvwxyz" 10 3);
    [reflexivity | lia | vm_compute; discriminate].
Defined.


(** ** More on process_pdf *)

Import Records.

(** Carries the five parts of a record's shape over to new bounds. *)
Ltac shape H :=
  destruct H as (?Hsrc & ?Hpage & ?Hchunk & ?Hstripped & ?Hlen);
  cbn [metadata source page chunk text] in *;
  (split; [first [assumption | reflexivity]|]);
  (split; [lia|]); (split; [lia|]); (split; assumption).

(** The chunks of a page, as [process_pdf] asks for them. *)
Lemma page_chunks_ok fuel t page_chunks :
  split_text fuel t 800 200 = Some page_chunks ->
  Forall (fun c => stripped c /\ len c <= 800) page_chunks.
Proof.
  apply split_loop_invariant; [|constructor].
  intros s He. split; [apply strip_stripped; exact He|].
  apply chunk_at_len_le. lia.
Qed.

Lemma page_records_ok filename p page_chunks i0 :
  Forall (fun c => stripped c /\ len c <= 800) page_chunks ->
  StronglySorted record_before
    (imap (fun i c => {| text := c;
                         metadata := {| source := filename; page := p;
                                        chunk := Z.of_nat (i0 + i) |} |})
          page_chunks)
  /\ Forall (fun r => source (metadata r) = filename
                      /\ page (metadata r) = p
                      /\ Z.of_nat i0 <= chunk (metadata r)
                      /\ stripped (text r) /\ len (text r) <= 800)
       (imap (fun i c => {| text := c;
                            metadata := {| source := filename; page := p;
                                           chunk := Z.of_nat (i0 + i) |} |})
             page_chunks).
Proof.
  intros Hall. revert i0.
  induction Hall as [|c rest [Hc1 Hc2] _ IH]; intros i0.
  - rewrite imap_nil. split; constructor.
  - rewrite imap_cons.
    assert (Hshift :
      imap ((fun i c0 => {| text := c0;
                            metadata := {| source := filename; page := p;
                                           chunk := Z.of_nat (i0 + i) |} |}) ∘ S)
           rest
      = imap (fun i c0 => {| text := c0;
                             metadata := {| source := filename; page := p;
                                            chunk := Z.of_nat (S i0 + i) |} |})
             rest).
    { apply imap_ext. intros i x _. cbn. do 3 f_equal. lia. }
    rewrite Hshift. destruct (IH (S i0)) as [Hsorted Hrest]. split.
    + constructor; [exact Hsorted|].
      eapply Forall_impl; [exact Hrest|].
      intros r (_ & Hp & Hi & _). right. cbn [metadata page chunk].
      split; [symmetry; exact Hp | lia].
    + constructor.
      * cbn [metadata source page chunk text].
        split; [reflexivity|]. split; [reflexivity|]. split; [lia|].
        split; assumption.
      * eapply Forall_impl; [exact Hrest|]. cbn beta. intros r H. shape H.
Qed.

Lemma page_loop_invariant fuel filename pages page_num chunks records :
  page_loop fuel filename pages page_num chunks = Returned records ->
  StronglySorted record_before chunks ->
  Forall (fun r => source (metadata r) = filename
                   /\ 1 <= page (metadata r) < page_num
                   /\ 0 <= chunk (metadata r)
                   /\ stripped (text r) /\ len (text r) <= 800) chunks ->
  1 <= page_num ->
  StronglySorted record_before records
  /\ Forall (fun r => source (metadata r) = filename
                      /\ 1 <= page (metadata r)
                         < page_num + Z.of_nat (List.length pages)
                      /\ 0 <= chunk (metadata r)
                      /\ stripped (text r) /\ len (text r) <= 800) records.
Proof.
  revert page_num chunks.
  induction pages as [|[t|msg] rest IH]; intros page_num chunks;
    cbn [page_loop List.length].
  - intros [= <-] Hs Hall Hp. split; [exact Hs|].
    eapply Forall_impl; [exact Hall|]. cbn beta. intros r H. shape H.
  - assert (Hwiden : forall acc,
        Forall (fun r => source (metadata r) = filename
                         /\ 1 <= page (metadata r) < page_num + 1
                         /\ 0 <= chunk (metadata r)
                         /\ stripped (text r) /\ len (text r) <= 800) acc ->
        StronglySorted record_before acc ->
        page_loop fuel filename rest (page_num + 1) acc = Returned records ->
        1 <= page_num ->
        StronglySorted record_before records
        /\ Forall (fun r => source (metadata r) = filename
                            /\ 1 <= page (metadata r)
                               < page_num + Z.of_nat (S (List.length rest))
                            /\ 0 <= chunk (metadata r)
                            /\ stripped (text r) /\ len (text r) <= 800) records).
    { intros acc Hacc Hs Hrun Hp.
      destruct (IH (page_num + 1) acc Hrun Hs Hacc ltac:(lia)) as [H1 H2].
      split; [exact H1|]. eapply Forall_impl; [exact H2|]. cbn beta.
      intros r H. shape H. }
    destruct (is_empty (strip t)).
    + intros Hrun Hs Hall Hp. apply (Hwiden chunks); try assumption.
      eapply Forall_impl; [exact Hall|]. cbn beta.
      intros r H. shape H.
    + destruct (split_text fuel t 800 200) as [page_chunks|] eqn:Hsplit;
        [|discriminate].
      intros Hrun Hs Hall Hp.
      pose proof (append_page_records filename page_num page_chunks 0 chunks)
        as Happ.
      change (Z.of_nat 0) with 0 in Happ. rewrite Happ in Hrun. clear Happ.
      destruct (page_records_ok filename page_num page_chunks 0
                  (page_chunks_ok _ _ _ Hsplit)) as [Hnew_sorted Hnew].
      apply (Hwiden _) in Hrun; try assumption.
      * apply Forall_app. split.
        -- eapply Forall_impl; [exact Hall|]. cbn beta.
           intros r H. shape H.
        -- eapply Forall_impl; [exact Hnew|]. cbn beta.
           intros r H. shape H.
      * apply StronglySorted_app. split; [|split; assumption].
        intros a b Ha Hb. left.
        rewrite Forall_forall in Hall. rewrite Forall_forall in Hnew.
        destruct (Hall a Ha) as (_ & Hpa & _).
        destruct (Hnew b Hb) as (_ & Hpb & _). lia.
  - discriminate.
Qed.

(** X6: Whatever the file, the records [process_pdf] returns carry the given
    file name, a page number between 1 and the number of pages, a chunk
    number from 0 up, and a text that is stripped, not empty and at most 800
    characters long. *)
Theorem process_pdf_record_shape fuel pages filename records :
  process_pdf fuel (Pages pages) filename = Returned records ->
  Forall (record_of_file filename (Z.of_nat (List.length pages))) records.
Proof.
  unfold process_pdf.
  destruct (page_loop fuel filename pages 1 []) as [l|msg|] eqn:Hloop;
    try discriminate.
  intros [= <-].
  destruct (page_loop_invariant _ _ _ _ _ _ Hloop) as [_ Hall];
    [constructor | constructor | lia |].
  eapply Forall_impl; [exact Hall|]. cbn beta. unfold record_of_file.
  intros r H. shape H.
Qed.

(** X7: The records come in the order of their pages and, within a page, of
    their chunk numbers, strictly: no two records share page and chunk. *)
Theorem process_pdf_records_in_order fuel pages filename records :
  process_pdf fuel (Pages pages) filename = Returned records ->
  StronglySorted record_before records.
Proof.
  unfold process_pdf.
  destruct (page_loop fuel filename pages 1 []) as [l|msg|] eqn:Hloop;
    try discriminate.
  intros [= <-].
  destruct (page_loop_invariant _ _ _ _ _ _ Hloop) as [Hs _];
    [constructor | constructor | lia | exact Hs].
Qed.

Lemma process_pdf_record_shape_witness :
  Forall (record_of_file "f.pdf" 3)
    [ {| text := "Hi there";
         metadata := {| source := "f.pdf"; page := 1; chunk := 0 |} |};
      {| text := "Bye";
         metadata := {| source := "f.pdf"; page := 3; chunk := 0 |} |} ].
Proof.
  apply (process_pdf_record_shape 1
           [Extracted " Hi there "; Extracted " "; Extracted "Bye"] "f.pdf").
  vm_compute. reflexivity.
Defined.

Lemma process_pdf_records_in_order_witness :
  StronglySorted record_before
    [ {| text := "Hi there";
         metadata := {| source := "f.pdf"; page := 1; chunk := 0 |} |};
      {| text := "Bye";
         metadata := {| source := "f.pdf"; page := 3; chunk := 0 |} |} ].
Proof.
  apply (process_pdf_records_in_order 1
           [Extracted " Hi there "; Extracted " "; Extracted "Bye"] "f.pdf").
  vm_compute. reflexivity.
Defined.

(** The loop over a run of pages that were extracted, followed by more
    pages. *)
Lemma page_loop_prefix fuel filename texts more k chunks :
  page_loop fuel filename ((Extracted <$> texts) ++ more) (Z.of_nat k + 1) chunks
  = match pdf_records_from fuel filename k texts with
    | Some l =>
        page_loop fuel filename more
                  (Z.of_nat (k + List.length texts) + 1) (chunks ++ l)
    | None => Unfinished
    end.
Proof.
  revert k chunks. induction texts as [|t rest IH]; intros k chunks;
    cbn [fmap list_fmap app page_loop pdf_records_from List.length].
  - rewrite app_nil_r, Nat.add_0_r. reflexivity.
  - unfold records_of_page.
    replace (Z.of_nat k + 1 + 1) with (Z.of_nat (S k) + 1) by lia.
    replace (k + S (List.length rest))%nat with (S k + List.length rest)%nat
      by lia.
    destruct (is_empty (strip t)).
    + rewrite IH. destruct (pdf_records_from fuel filename (S k) rest);
        reflexivity.
    + destruct (split_text fuel t 800 200) as [page_chunks|]; [|reflexivity].
      cbn [fmap option_fmap option_map].
      pose proof (append_page_records filename (Z.of_nat k + 1) page_chunks 0 chunks)
        as Happ.
      change (Z.of_nat 0) with 0 in Happ. rewrite Happ, IH.
      destruct (pdf_records_from fuel filename (S k) rest); [|reflexivity].
      unfold page_records. rewrite <- app_assoc. reflexivity.
Qed.

(** X8: When the extraction of a page raises, after pages whose chunking
    returned, [process_pdf] raises "Error processing PDF", the file name, a
    colon and the message of the failure: the chunks of the earlier pages
    are not returned and the later pages are not read.  A file that cannot
    be opened raises in the same form. *)
Theorem process_pdf_failed_page fuel filename texts earlier msg rest :
  pdf_records fuel filename texts = Some earlier ->
  process_pdf fuel (Pages ((Extracted <$> texts) ++ ExtractFailed msg :: rest))
              filename
  = Raised ("Error processing PDF " +:+ filename +:+ ": " +:+ msg)
  /\ process_pdf fuel (Unreadable msg) filename
     = Raised ("Error processing PDF " +:+ filename +:+ ": " +:+ msg).
Proof.
  intros Hearlier. split; [|reflexivity].
  unfold process_pdf, pdf_records in *.
  pose proof (page_loop_prefix fuel filename texts
                (ExtractFailed msg :: rest) 0 []) as Hloop.
  change (Z.of_nat 0 + 1) with 1 in Hloop.
  rewrite Hloop, Hearlier. reflexivity.
Qed.

Lemma process_pdf_failed_page_witness :
  process_pdf 1 (Pages [Extracted "Hi there"; ExtractFailed "bad stream";
                        Extracted "Bye"]) "f.pdf"
  = Raised "Error processing PDF f.pdf: bad stream".
Proof.
  apply (process_pdf_failed_page 1 "f.pdf" ["Hi there"]
           [ {| text := "Hi there";
                metadata := {| source := "f.pdf"; page := 1; chunk := 0 |} |} ]
           "bad stream" [Extracted "Bye"]).
  vm_compute. reflexivity.
Defined.

(** X9: A PDF all of whose pages are empty or white space only gives the
    empty list, without any iteration of the chunker and without an
    error. *)
Theorem process_pdf_blank_pages fuel filename texts :
  Forall (fun t => all_space t = true) texts ->
  process_pdf fuel (Pages (Extracted <$> texts)) filename = Returned [].
Proof.
  intros Hblank. unfold process_pdf.
  assert (Hloop : forall page_num,
             page_loop fuel filename (Extracted <$> texts) page_num []
             = Returned []).
  { induction Hblank as [|t rest Ht _ IH]; intros page_num;
      cbn [fmap list_fmap page_loop]; [reflexivity|].
    rewrite strip_empty_iff, Ht. apply IH. }
  rewrite Hloop. reflexivity.
Qed.

Lemma process_pdf_blank_pages_witness :
  process_pdf 0 (Pages [Extracted EmptyString; Extracted "   "]) "f.pdf"
  = Returned [].
Proof.
  apply (process_pdf_blank_pages 0 "f.pdf" [EmptyString; "   "]).
  repeat constructor.
Defined.

(** ** More on get_document_stats *)

(** X10: On a list that is not empty [get_document_stats] gives the number of
    chunks, the sum of the lengths of their texts, the quotient of the two
    rounded down as the average, and the sources of the chunks, each
    once. *)
Theorem get_document_stats_values (chunks : list Chunk) :
  chunks <> [] ->
  let stats := get_document_stats chunks in
  let total := foldr Z.add 0 ((len ∘ text) <$> chunks) in
  stats !! "total_chunks" = Some (IntStat (Z.of_nat (List.length chunks)))
  /\ stats !! "total_characters" = Some (IntStat total)
  /\ stats !! "avg_chunk_size"
     = Some (IntStat (total / Z.of_nat (List.length chunks)))
  /\ exists names,
       stats !! "sources" = Some (SourcesStat names)
       /\ NoDup names
       /\ forall x, x ∈ names <-> exists c, c ∈ chunks /\ source (metadata c) = x.
Proof. apply get_document_stats_nonempty. Qed.

Lemma get_document_stats_values_witness :
  let chunks :=
    [ {| text := "abc";
         metadata := {| source := "a.pdf"; page := 1; chunk := 0 |} |};
      {| text := "defgh";
         metadata := {| source := "b.pdf"; page := 1; chunk := 0 |} |} ] in
  get_document_stats chunks !! "total_chunks" = Some (IntStat 2)
  /\ get_document_stats chunks !! "total_characters" = Some (IntStat 8)
  /\ get_document_stats chunks !! "avg_chunk_size" = Some (IntStat 4).
Proof.
  intros chunks.
  destruct (get_document_stats_values chunks ltac:(discriminate))
    as (H1 & H2 & H3 & _).
  split; [exact H1|]. split; [exact H2 | exact H3].
Defined.

Lemma sum_of_lengths_bounds (records : list Chunk) :
  Forall (fun r => 1 <= len (text r) <= 800) records ->
  Z.of_nat (List.length records)
  <= foldr Z.add 0 ((len ∘ text) <$> records)
  <= 800 * Z.of_nat (List.length records).
Proof.
  induction 1 as [|r rest Hr _ IH]; cbn [fmap list_fmap foldr List.length];
    [lia|].
  unfold compose at 1 3. lia.
Qed.

Lemma distinct_sources_one filename (records : list Chunk) :
  records <> [] ->
  Forall (fun r => source (metadata r) = filename) records ->
  distinct_sources records = [filename].
Proof.
  intros Hne Hall. unfold distinct_sources.
  assert (Hset : (list_to_set ((source ∘ metadata) <$> records) : gset string)
                 = {[filename]}).
  { apply set_eq. intros x.
    rewrite elem_of_list_to_set, list_elem_of_fmap, elem_of_singleton.
    rewrite Forall_forall in Hall. split.
    - intros (r & -> & Hr). apply (Hall r Hr).
    - intros ->. destruct records as [|r rest]; [contradiction|].
      exists r. split; [symmetry; apply (Hall r); left | left]. }
  rewrite Hset. apply elements_singleton.
Qed.

(** X11: The statistics of what [process_pdf] returned, when that is not empty:
    the only source is the file name, the number of chunks is the number of
    records, and the average chunk size lies between 1 and 800. *)
Theorem stats_of_processed_pdf fuel pages filename records :
  process_pdf fuel (Pages pages) filename = Returned records ->
  records <> [] ->
  get_document_stats records !! "sources" = Some (SourcesStat [filename])
  /\ get_document_stats records !! "total_chunks"
     = Some (IntStat (Z.of_nat (List.length records)))
  /\ exists avg,
       get_document_stats records !! "avg_chunk_size" = Some (IntStat avg)
       /\ 1 <= avg <= 800.
Proof.
  intros Hrun Hne.
  assert (Hshape : Forall (fun r => source (metadata r) = filename
                                    /\ 1 <= len (text r) <= 800) records).
  { unfold process_pdf in Hrun.
    destruct (page_loop fuel filename pages 1 []) as [l|msg|] eqn:Hloop;
      try discriminate.
    injection Hrun as <-.
    destruct (page_loop_invariant _ _ _ _ _ _ Hloop) as [_ Hall];
      [constructor | constructor | lia |].
    eapply Forall_impl; [exact Hall|]. cbn beta.
    intros r (Hs & _ & _ & (Hne' & _) & Hl). split; [exact Hs|].
    split; [|exact Hl]. unfold len. destruct (text r); [contradiction | cbn; lia]. }
  destruct (get_document_stats_nonempty records Hne)
    as (Hcount & _ & Havg & names & Hnames & _).
  cbv zeta in *.
  assert (Hsrc : distinct_sources records = [filename]).
  { apply distinct_sources_one; [exact Hne|].
    eapply Forall_impl; [exact Hshape|]. cbn beta. tauto. }
  split.
  { unfold get_document_stats. rewrite bool_decide_eq_false_2 by exact Hne.
    do 2 (rewrite lookup_insert_ne by discriminate).
    rewrite lookup_insert_eq, Hsrc. reflexivity. }
  split; [exact Hcount|].
  eexists. split; [exact Havg|].
  pose proof (sum_of_lengths_bounds records) as Hsum.
  destruct Hsum as [Hlow Hhigh].
  { eapply Forall_impl; [exact Hshape|]. cbn beta. tauto. }
  assert (Hpos : 0 < Z.of_nat (List.length records))
    by (destruct records; [contradiction | cbn [List.length]; lia]).
  split.
  - apply Z.div_le_lower_bound; lia.
  - apply Z.div_le_upper_bound; lia.
Qed.

Lemma stats_of_processed_pdf_witness :
  get_document_stats
    [ {| text := "Hi there";
         metadata := {| source := "f.pdf"; page := 1; chunk := 0 |} |};
      {| text := "Bye";
         metadata := {| source := "f.pdf"; page := 3; chunk := 0 |} |} ]
    !! "sources" = Some (SourcesStat ["f.pdf"]).
Proof.
  destruct (stats_of_processed_pdf 1
              [Extracted " Hi there "; Extracted " "; Extracted "Bye"] "f.pdf"
              [ {| text := "Hi there";
                   metadata := {| source := "f.pdf"; page := 1; chunk := 0 |} |};
                {| text := "Bye";
                   metadata := {| source := "f.pdf"; page := 3; chunk := 0 |} |} ]
              ltac:(vm_compute; reflexivity) ltac:(discriminate))
    as [Hsources _].
  exact Hsources.
Defined.


(** ** The vector store *)

Import VectorStore.

Lemma format_loop_map metadatas sources :
  format_loop metadatas sources = sources ++ (format_source <$> metadatas).
Proof.
  revert sources. induction metadatas as [|m rest IH]; intros sources;
    cbn [format_loop fmap list_fmap].
  - rewrite app_nil_r. reflexivity.
  - rewrite IH, <- app_assoc. reflexivity.
Qed.

(** X12: [format_sources] gives one citation per metadata dictionary, in their
    order: source, " (Page ", the page number in decimal, ")"; a dictionary
    without source is cited as Unknown, one without page with a question
    mark for the number. *)
Theorem format_sources_citations metadatas :
  List.length (format_sources metadatas) = List.length metadatas
  /\ forall i m,
       metadatas !! i = Some m ->
       format_sources metadatas !! i
       = Some (match meta_source m, meta_page m with
               | Some s, Some p => s +:+ " (Page " +:+ str_of_int p +:+ ")"
               | Some s, None => s +:+ " (Page ?)"
               | None, Some p => "Unknown (Page " +:+ str_of_int p +:+ ")"
               | None, None => "Unknown (Page ?)"
               end).
Proof.
  unfold format_sources. rewrite format_loop_map. cbn [app]. split.
  - apply length_fmap.
  - intros i m Hm. rewrite list_lookup_fmap, Hm. cbn. f_equal.
    unfold format_source. destruct (meta_source m), (meta_page m); reflexivity.
Qed.

Lemma format_sources_citations_witness :
  format_sources [ {| meta_source := Some "a.pdf"; meta_page := Some 3;
                      meta_chunk := Some 0 |} ] !! 0%nat
  = Some "a.pdf (Page 3)".
Proof.
  destruct (format_sources_citations
              [ {| meta_source := Some "a.pdf"; meta_page := Some 3;
                   meta_chunk := Some 0 |} ]) as [_ Hcite].
  exact (Hcite 0%nat _ eq_refl).
Defined.

Lemma elem_of_collect_sources x metadatas sources :
  x ∈ collect_sources metadatas sources
  <-> x ∈ sources \/ exists m, m ∈ metadatas /\ meta_source m = Some x.
Proof.
  revert sources. induction metadatas as [|m rest IH]; intros sources;
    cbn [collect_sources].
  - split; [auto|]. intros [H|(m & Hm & _)]; [exact H|].
    apply elem_of_nil in Hm. contradiction.
  - rewrite IH. split.
    + intros [H|(m' & Hm' & Hs)].
      * destruct (meta_source m) as [s|] eqn:Hsrc.
        -- apply elem_of_union in H as [H|H]; [|left; exact H].
           apply elem_of_singleton in H as ->. right. exists m.
           split; [left | exact Hsrc].
        -- left. exact H.
      * right. exists m'. split; [right; exact Hm' | exact Hs].
    + intros [H|(m' & Hm' & Hs)].
      * left. destruct (meta_source m); [apply elem_of_union; right|]; exact H.
      * apply elem_of_cons in Hm' as [->|Hm'].
        -- left. rewrite Hs. apply elem_of_union. left.
           apply elem_of_singleton. reflexivity.
        -- right. exists m'. split; assumption.
Qed.

Lemma indexed_iff x st :
  x ∈ get_indexed_documents st <-> has_source x (records st).
Proof.
  unfold get_indexed_documents, has_source, collection_get.
  rewrite merge_sort_Permutation, elem_of_elements, elem_of_collect_sources.
  split.
  - intros [H|(m & Hm & Hs)]; [apply elem_of_empty in H; contradiction|].
    apply list_elem_of_fmap in Hm as ([i [d m']] & -> & Hin).
    apply elem_of_map_to_list in Hin. exists i, d, m'. split; assumption.
  - intros (i & d & m & Hlook & Hs). right. exists m. split; [|exact Hs].
    apply list_elem_of_fmap. exists (i, (d, m)). split; [reflexivity|].
    apply elem_of_map_to_list. exact Hlook.
Qed.

Lemma is_document_indexed_iff x st :
  is_document_indexed x st = true <-> has_source x (records st).
Proof.
  unfold is_document_indexed. rewrite bool_decide_eq_true. apply indexed_iff.
Qed.

(** X13: [get_indexed_documents] lists exactly the sources that some record of
    the collection carries, each once, in increasing order. *)
Theorem get_indexed_documents_sorted st :
  Sorted String.le (get_indexed_documents st)
  /\ NoDup (get_indexed_documents st)
  /\ forall x, x ∈ get_indexed_documents st <-> has_source x (records st).
Proof.
  split; [apply Sorted_merge_sort; apply _|].
  split; [|intros x; apply indexed_iff].
  unfold get_indexed_documents. rewrite merge_sort_Permutation.
  apply NoDup_elements.
Qed.

Lemma bool_eq_by_iff (a b : bool) : (a = true <-> b = true) -> a = b.
Proof.
  destruct a, b; intros [H1 H2]; try reflexivity.
  - symmetry. apply H1. reflexivity.
  - apply H2. reflexivity.
Qed.

(** *** delete_document *)

Lemma ids_of_source_app filename entries acc :
  ids_of_source filename entries acc
  = acc ++ ids_of_source filename entries [].
Proof.
  revert acc. induction entries as [|[i [d m]] rest IH]; intros acc;
    cbn [ids_of_source].
  - rewrite app_nil_r. reflexivity.
  - rewrite IH, (IH (if bool_decide _ then _ else _)).
    destruct (bool_decide (meta_source m = Some filename)); cbn [app];
      [rewrite <- app_assoc|]; reflexivity.
Qed.

Lemma elem_of_ids_of_source filename entries i :
  i ∈ ids_of_source filename entries []
  <-> exists d m, (i, (d, m)) ∈ entries /\ meta_source m = Some filename.
Proof.
  induction entries as [|[i' [d' m']] rest IH]; cbn [ids_of_source].
  - split; [intros H; apply elem_of_nil in H; contradiction|].
    intros (d & m & H & _). apply elem_of_nil in H. contradiction.
  - rewrite ids_of_source_app, elem_of_app, IH. split.
    + intros [H|(d & m & H & Hs)].
      * destruct (bool_decide_reflect (meta_source m' = Some filename))
          as [Hs|_]; cbn [app] in H.
        -- apply list_elem_of_singleton in H as ->. exists d', m'.
           split; [left | exact Hs].
        -- apply elem_of_nil in H. contradiction.
      * exists d, m. split; [right; exact H | exact Hs].
    + intros (d & m & H & Hs). apply elem_of_cons in H as [[= -> -> ->]|H].
      * left. rewrite bool_decide_eq_true_2 by exact Hs. cbn [app]. left.
      * right. exists d, m. split; assumption.
Qed.

Lemma NoDup_ids_of_source filename (entries : list (string * (string * meta))) :
  NoDup (entries.*1) -> NoDup (ids_of_source filename entries []).
Proof.
  induction entries as [|[i [d m]] rest IH]; cbn [ids_of_source fmap list_fmap];
    [constructor|].
  intros Hnd. apply NoDup_cons in Hnd as [Hnotin Hnd].
  rewrite ids_of_source_app.
  destruct (bool_decide (meta_source m = Some filename)); cbn [app];
    [|apply IH; exact Hnd].
  apply NoDup_cons. split; [|apply IH; exact Hnd].
  intros Hin. apply elem_of_ids_of_source in Hin as (d' & m' & Hin & _).
  apply Hnotin. apply list_elem_of_fmap. exists (i, (d', m')).
  split; [reflexivity | exact Hin].
Qed.

Lemma collection_delete_lookup ids (c : collection) i :
  collection_delete ids c !! i = if decide (i ∈ ids) then None else c !! i.
Proof.
  unfold collection_delete. induction ids as [|j ids IH]; cbn [foldr].
  - destruct (decide (i ∈ [])) as [H|_]; [|reflexivity].
    apply elem_of_nil in H. contradiction.
  - destruct (decide (j = i)) as [->|Hne].
    + rewrite lookup_delete_eq. destruct (decide (i ∈ i :: ids)) as [_|H];
        [reflexivity|]. exfalso. apply H. left.
    + rewrite lookup_delete_ne by exact Hne. rewrite IH.
      destruct (decide (i ∈ ids)) as [Hin|Hnin];
        destruct (decide (i ∈ j :: ids)) as [Hin'|Hnin']; try reflexivity.
      * exfalso. apply Hnin'. right. exact Hin.
      * exfalso. apply elem_of_cons in Hin' as [->|Hin']; contradiction.
Qed.

Lemma collection_delete_size ids (c : collection) :
  NoDup ids -> (forall i, i ∈ ids -> is_Some (c !! i)) ->
  (size (collection_delete ids c) + List.length ids = size c)%nat.
Proof.
  intros Hnd. induction Hnd as [|j ids Hnotin Hnd IH]; intros Hin;
    cbn [collection_delete foldr List.length].
  - lia.
  - fold (collection_delete ids c).
    assert (Hj : is_Some (collection_delete ids c !! j)).
    { rewrite collection_delete_lookup.
      destruct (decide (j ∈ ids)); [contradiction|]. apply Hin. left. }
    rewrite (map_size_delete_Some _ _ Hj).
    assert (Hrest : forall i, i ∈ ids -> is_Some (c !! i))
      by (intros i Hi; apply Hin; right; exact Hi).
    specialize (IH Hrest).
    assert (size (collection_delete ids c) <> 0%nat).
    { intros H0. apply map_size_empty_inv in H0. rewrite H0 in Hj.
      rewrite lookup_empty in Hj. destruct Hj as [x Hx]. discriminate. }
    lia.
Qed.

Lemma deleted_ids_iff filename st i :
  i ∈ ids_of_source filename (collection_get (records st)) []
  <-> exists d m, records st !! i = Some (d, m)
                  /\ meta_source m = Some filename.
Proof.
  rewrite elem_of_ids_of_source. unfold collection_get.
  split; intros (d & m & H & Hs); exists d, m; (split; [|exact Hs]);
    apply elem_of_map_to_list; exact H.
Qed.

(** What is left after [delete_document]: the records of the other
    sources. *)
Lemma delete_document_lookup filename st i :
  records (snd (delete_document filename st)) !! i
  = match records st !! i with
    | Some (d, m) =>
        if bool_decide (meta_source m = Some filename) then None
        else Some (d, m)
    | None => None
    end.
Proof.
  unfold delete_document. cbn [snd].
  pose proof (deleted_ids_iff filename st) as Hids.
  destruct (ids_of_source filename (collection_get (records st)) [])
    as [|j ids] eqn:Hl.
  - destruct (records st !! i) as [[d m]|] eqn:Hi; [|reflexivity].
    destruct (bool_decide_reflect (meta_source m = Some filename)) as [Hs|_];
      [|reflexivity].
    exfalso. assert (Hin : i ∈ @nil string) by (apply Hids; eauto).
    apply elem_of_nil in Hin. exact Hin.
  - cbn [records]. rewrite collection_delete_lookup.
    destruct (decide (i ∈ j :: ids)) as [Hin|Hnin].
    + apply Hids in Hin as (d & m & -> & Hs).
      rewrite bool_decide_eq_true_2 by exact Hs. reflexivity.
    + destruct (records st !! i) as [[d m]|] eqn:Hi; [|reflexivity].
      destruct (bool_decide_reflect (meta_source m = Some filename)) as [Hs|_];
        [|reflexivity].
      exfalso. apply Hnin, Hids. eauto.
Qed.

Lemma has_source_after_delete filename st g :
  has_source g (records (snd (delete_document filename st)))
  <-> g <> filename /\ has_source g (records st).
Proof.
  unfold has_source. split.
  - intros (i & d & m & Hi & Hs). rewrite delete_document_lookup in Hi.
    destruct (records st !! i) as [[d' m']|] eqn:Hold; [|discriminate].
    destruct (bool_decide_reflect (meta_source m' = Some filename)) as [|Hne];
      [discriminate|].
    injection Hi as -> ->. split; [intros ->; contradiction|]. eauto.
  - intros (Hne & i & d & m & Hi & Hs). exists i, d, m. split; [|exact Hs].
    rewrite delete_document_lookup, Hi.
    rewrite bool_decide_eq_false_2; [reflexivity|]. congruence.
Qed.

Lemma delete_document_count filename st :
  get_collection_count (snd (delete_document filename st))
  = get_collection_count st - fst (delete_document filename st).
Proof.
  unfold delete_document, get_collection_count. cbn [fst snd].
  pose proof (deleted_ids_iff filename st) as Hids.
  pose proof (NoDup_ids_of_source filename (collection_get (records st))
                (NoDup_fst_map_to_list (records st))) as Hnd.
  destruct (ids_of_source filename (collection_get (records st)) [])
    as [|j ids] eqn:Hl; [cbn [List.length]; lia|].
  cbn [records].
  pose proof (collection_delete_size (j :: ids) (records st) Hnd) as Hsize.
  destruct Hsize; [|lia..].
  intros i Hi. apply Hids in Hi as (d & m & -> & _). eauto.
Qed.

Lemma delete_document_positive filename st :
  0 < fst (delete_document filename st)
  <-> is_document_indexed filename st = true.
Proof.
  rewrite is_document_indexed_iff. unfold delete_document. cbn [fst].
  pose proof (deleted_ids_iff filename st) as Hids.
  destruct (ids_of_source filename (collection_get (records st)) [])
    as [|j ids] eqn:Hl.
  - cbn [List.length]. split; [lia|].
    intros (i & d & m & Hi & Hs).
    assert (Hin : i ∈ @nil string) by (apply Hids; eauto).
    apply elem_of_nil in Hin. contradiction.
  - cbn [List.length]. split; [|lia]. intros _.
    destruct (proj1 (Hids j)) as (d & m & Hi & Hs); [left|].
    exists j, d, m. split; assumption.
Qed.

Lemma delete_document_unindexes filename st :
  is_document_indexed filename (snd (delete_document filename st)) = false.
Proof.
  apply not_true_is_false. rewrite is_document_indexed_iff.
  rewrite has_source_after_delete. tauto.
Qed.

(** X14: After [delete_document] the file is not indexed any more, every other
    file is indexed exactly when it was before, the count has gone down by
    the number returned, and that number is positive exactly when the file
    was indexed. *)
Theorem delete_document_removes filename st :
  is_document_indexed filename (snd (delete_document filename st)) = false
  /\ (forall g, g <> filename ->
        is_document_indexed g (snd (delete_document filename st))
        = is_document_indexed g st)
  /\ get_collection_count (snd (delete_document filename st))
     = get_collection_count st - fst (delete_document filename st)
  /\ (0 < fst (delete_document filename st)
      <-> is_document_indexed filename st = true).
Proof.
  split; [|split; [|split]].
  - apply delete_document_unindexes.
  - intros g Hne. apply bool_eq_by_iff.
    rewrite !is_document_indexed_iff, has_source_after_delete. tauto.
  - apply delete_document_count.
  - apply delete_document_positive.
Qed.

(** X15: [delete_document] for a file that is not indexed returns 0 and leaves
    the store as it is. *)
Theorem delete_document_not_indexed filename st :
  is_document_indexed filename st = false ->
  delete_document filename st = (0, st).
Proof.
  intros Hnot. unfold delete_document.
  pose proof (deleted_ids_iff filename st) as Hids.
  destruct (ids_of_source filename (collection_get (records st)) [])
    as [|j ids] eqn:Hl; [reflexivity|].
  exfalso. destruct (proj1 (Hids j)) as (d & m & Hi & Hs); [left|].
  assert (Hyes : is_document_indexed filename st = true).
  { apply is_document_indexed_iff. exists j, d, m. split; assumption. }
  congruence.
Qed.

Import StoreSamples.

Lemma delete_document_not_indexed_witness :
  delete_document "c.pdf" sample_store = (0, sample_store).
Proof.
  apply (delete_document_not_indexed "c.pdf" sample_store).
  vm_compute. reflexivity.
Defined.

(** *** add_documents *)

Lemma collection_add_other ids documents metadatas (c : collection) i :
  i ∉ ids -> collection_add ids documents metadatas c !! i = c !! i.
Proof.
  revert documents metadatas c.
  induction ids as [|j ids IH]; intros documents metadatas c Hnotin;
    [reflexivity|].
  destruct documents as [|d documents]; [reflexivity|].
  destruct metadatas as [|m metadatas]; [reflexivity|].
  cbn [collection_add]. rewrite IH by (intros H; apply Hnotin; right; exact H).
  destruct (c !! j); [reflexivity|].
  apply lookup_insert_ne. intros ->. apply Hnotin. left.
Qed.

Lemma collection_add_fresh ids documents metadatas (c : collection) k i d m :
  NoDup ids -> Forall (fun i => c !! i = None) ids ->
  ids !! k = Some i -> documents !! k = Some d -> metadatas !! k = Some m ->
  collection_add ids documents metadatas c !! i = Some (d, m).
Proof.
  intros Hnd. revert documents metadatas c k.
  induction Hnd as [|j ids Hnotin Hnd IH];
    intros documents metadatas c k Hfresh Hi Hd Hm; [discriminate|].
  destruct documents as [|d0 documents]; [discriminate|].
  destruct metadatas as [|m0 metadatas]; [discriminate|].
  apply Forall_cons in Hfresh as [Hj Hfresh].
  cbn [collection_add]. rewrite Hj.
  destruct k as [|k]; cbn in Hi, Hd, Hm.
  - injection Hi as ->. injection Hd as ->. injection Hm as ->.
    rewrite collection_add_other by exact Hnotin. apply lookup_insert_eq.
  - apply (IH _ _ _ k); try assumption.
    apply Forall_forall. intros x Hx. rewrite Forall_forall in Hfresh.
    rewrite lookup_insert_ne; [apply Hfresh; exact Hx|].
    intros ->. contradiction.
Qed.

Lemma collection_add_size ids documents metadatas (c : collection) :
  NoDup ids -> Forall (fun i => c !! i = None) ids ->
  List.length documents = List.length ids ->
  List.length metadatas = List.length ids ->
  size (collection_add ids documents metadatas c)
  = (size c + List.length ids)%nat.
Proof.
  intros Hnd. revert documents metadatas c.
  induction Hnd as [|j ids Hnotin Hnd IH];
    intros documents metadatas c Hfresh Hd Hm; [cbn; lia|].
  destruct documents as [|d0 documents]; [discriminate|].
  destruct metadatas as [|m0 metadatas]; [discriminate|].
  apply Forall_cons in Hfresh as [Hj Hfresh].
  cbn [collection_add List.length] in *. rewrite Hj, IH; try lia.
  - rewrite map_size_insert_None by exact Hj. lia.
  - apply Forall_forall. intros x Hx. rewrite Forall_forall in Hfresh.
    rewrite lookup_insert_ne; [apply Hfresh; exact Hx|].
    intros ->. contradiction.
Qed.

Lemma delete_document_nothing filename st :
  is_document_indexed filename st = false ->
  delete_document filename st = (0, st).
Proof.
  intros Hnot. unfold delete_document.
  pose proof (deleted_ids_iff filename st) as Hids.
  destruct (ids_of_source filename (collection_get (records st)) [])
    as [|j ids] eqn:Hl; [reflexivity|].
  exfalso. destruct (proj1 (Hids j)) as (d & m & Hi & Hs); [left|].
  assert (Hyes : is_document_indexed filename st = true).
  { apply is_document_indexed_iff. exists j, d, m. split; assumption. }
  congruence.
Qed.

Section AddDocuments.
Variable uuid4 : nat -> string.

Lemma add_documents_taken chunks st :
  add_error st (List.length chunks) = None ->
  add_documents uuid4 chunks st
  = (Returned tt,
     match chunks with
     | [] => st
     | _ =>
         {| records :=
              collection_add (uuid4 <$> seq (drawn st) (List.length chunks))
                             (text <$> chunks)
                             ((stored_meta ∘ metadata) <$> chunks) (records st);
            drawn := (drawn st + List.length chunks)%nat;
            add_error := add_error st |}
     end).
Proof.
  intros Hok. destruct chunks as [|c chunks]; [reflexivity|].
  unfold add_documents. rewrite length_fmap, length_seq, Hok. reflexivity.
Qed.

Lemma add_documents_refused chunks st e :
  chunks <> [] ->
  add_error st (List.length chunks) = Some e ->
  add_documents uuid4 chunks st
  = (Raised e,
     {| records := records st;
        drawn := (drawn st + List.length chunks)%nat;
        add_error := add_error st |}).
Proof.
  intros Hne Herr. destruct chunks as [|c chunks]; [contradiction|].
  unfold add_documents. rewrite length_fmap, length_seq, Herr. reflexivity.
Qed.

Lemma add_documents_records chunks st :
  add_error st (List.length chunks) = None ->
  records (snd (add_documents uuid4 chunks st))
  = collection_add (uuid4 <$> seq (drawn st) (List.length chunks))
                   (text <$> chunks)
                   ((stored_meta ∘ metadata) <$> chunks) (records st).
Proof.
  intros Hok. rewrite (add_documents_taken chunks st Hok).
  destruct chunks; reflexivity.
Qed.

(** However the call ends, the collection either took the whole batch or
    is as it was. *)
Lemma add_documents_all_or_nothing chunks st :
  (fst (add_documents uuid4 chunks st) = Returned tt
   /\ records (snd (add_documents uuid4 chunks st))
      = collection_add (uuid4 <$> seq (drawn st) (List.length chunks))
                       (text <$> chunks)
                       ((stored_meta ∘ metadata) <$> chunks) (records st))
  \/ (exists e, fst (add_documents uuid4 chunks st) = Raised e
                /\ records (snd (add_documents uuid4 chunks st)) = records st).
Proof.
  destruct (add_error st (List.length chunks)) as [e|] eqn:Herr.
  - destruct chunks as [|c chunks]; [left; split; reflexivity|].
    right. exists e.
    rewrite (add_documents_refused (c :: chunks) st e) by (discriminate || exact Herr).
    split; reflexivity.
  - left. split; [|apply add_documents_records; exact Herr].
    rewrite (add_documents_taken chunks st Herr). reflexivity.
Qed.

Lemma add_documents_drawn chunks st :
  (drawn st <= drawn (snd (add_documents uuid4 chunks st))
   <= drawn st + List.length chunks)%nat
  /\ (chunks <> [] ->
      drawn (snd (add_documents uuid4 chunks st))
      = (drawn st + List.length chunks)%nat)
  /\ add_error (snd (add_documents uuid4 chunks st)) = add_error st.
Proof.
  destruct chunks as [|c chunks]; [cbn; repeat split; try lia; congruence|].
  unfold add_documents.
  destruct (add_error st _); cbn [snd drawn add_error];
    (split; [lia | split; reflexivity]).
Qed.

Lemma has_source_after_add chunks st g :
  fresh_ids uuid4 st (List.length chunks) ->
  add_error st (List.length chunks) = None ->
  has_source g (records (snd (add_documents uuid4 chunks st)))
  <-> has_source g (records st)
      \/ exists c, c ∈ chunks /\ source (metadata c) = g.
Proof.
  intros [Hnd Hfresh] Hok. rewrite (add_documents_records chunks st Hok).
  unfold has_source.
  set (ids := uuid4 <$> seq (drawn st) (List.length chunks)) in *.
  assert (Hlen : List.length ids = List.length chunks)
    by (subst ids; rewrite length_fmap, length_seq; reflexivity).
  split.
  - intros (i & d & m & Hi & Hs).
    destruct (decide (i ∈ ids)) as [Hin|Hnin].
    + right. apply list_elem_of_lookup in Hin as [k Hk].
      assert (Hlt : (k < List.length chunks)%nat)
        by (rewrite <- Hlen; eapply lookup_lt_Some; exact Hk).
      destruct (lookup_lt_is_Some_2 chunks k Hlt) as [c Hc].
      rewrite (collection_add_fresh ids _ _ _ k i (text c)
                 (stored_meta (metadata c)) Hnd Hfresh Hk) in Hi.
      * injection Hi as <- <-. exists c.
        split; [eapply list_elem_of_lookup_2; exact Hc|].
        cbn in Hs. congruence.
      * rewrite list_lookup_fmap, Hc. reflexivity.
      * rewrite list_lookup_fmap, Hc. reflexivity.
    + left. rewrite collection_add_other in Hi by exact Hnin. eauto.
  - intros [(i & d & m & Hi & Hs)|(c & Hc & Hs)].
    + exists i, d, m. split; [|exact Hs].
      rewrite collection_add_other; [exact Hi|].
      intros Hin. rewrite Forall_forall in Hfresh.
      rewrite (Hfresh i Hin) in Hi. discriminate.
    + apply list_elem_of_lookup in Hc as [k Hk].
      assert (Hlt : (k < List.length ids)%nat)
        by (rewrite Hlen; eapply lookup_lt_Some; exact Hk).
      destruct (lookup_lt_is_Some_2 ids k Hlt) as [i Hi].
      exists i, (text c), (stored_meta (metadata c)). split.
      * apply (collection_add_fresh ids _ _ _ k); try assumption;
          rewrite list_lookup_fmap, Hk; reflexivity.
      * cbn. rewrite Hs. reflexivity.
Qed.

Lemma add_documents_count chunks st :
  fresh_ids uuid4 st (List.length chunks) ->
  add_error st (List.length chunks) = None ->
  get_collection_count (snd (add_documents uuid4 chunks st))
  = get_collection_count st + Z.of_nat (List.length chunks).
Proof.
  intros [Hnd Hfresh] Hok.
  unfold get_collection_count. rewrite (add_documents_records chunks st Hok).
  rewrite collection_add_size; try assumption.
  - rewrite length_fmap, length_seq. lia.
  - rewrite !length_fmap, length_seq. reflexivity.
  - rewrite !length_fmap, length_seq. reflexivity.
Qed.

(** X16: [add_documents] hands the whole list to [collection.add] as one
    batch.  When the collection takes the batch and the ids drawn are new,
    the call returns, a file is indexed afterwards exactly when it was
    indexed before or one of the added chunks has it as its source, and the
    count has grown by the number of chunks.  When the collection refuses
    the batch (Chroma does for one above its maximal batch size), the call
    raises what the collection raised and the collection is as it was: no
    part of the batch is indexed.  For the empty list the collection is not
    called. *)
Theorem add_documents_indexes chunks st :
  (fresh_ids uuid4 st (List.length chunks) ->
   add_error st (List.length chunks) = None ->
   fst (add_documents uuid4 chunks st) = Returned tt
   /\ (forall g,
          is_document_indexed g (snd (add_documents uuid4 chunks st)) = true
          <-> is_document_indexed g st = true
              \/ exists c, c ∈ chunks /\ source (metadata c) = g)
   /\ get_collection_count (snd (add_documents uuid4 chunks st))
      = get_collection_count st + Z.of_nat (List.length chunks))
  /\ (forall e,
         chunks <> [] ->
         add_error st (List.length chunks) = Some e ->
         fst (add_documents uuid4 chunks st) = Raised e
         /\ records (snd (add_documents uuid4 chunks st)) = records st
         /\ get_indexed_documents (snd (add_documents uuid4 chunks st))
            = get_indexed_documents st
         /\ get_collection_count (snd (add_documents uuid4 chunks st))
            = get_collection_count st)
  /\ (chunks = [] -> add_documents uuid4 chunks st = (Returned tt, st)).
Proof.
  split; [|split].
  - intros Hfresh Hok. split; [|split].
    + rewrite (add_documents_taken chunks st Hok). reflexivity.
    + intros g. rewrite !is_document_indexed_iff.
      apply has_source_after_add; assumption.
    + apply add_documents_count; assumption.
  - intros e Hne Herr. rewrite (add_documents_refused chunks st e Hne Herr).
    repeat split; reflexivity.
  - intros ->. reflexivity.
Qed.

(** X17: When the collection takes the batch, adding the chunks of a file and
    deleting the file again gives back the documents that were indexed
    before, when the file was not among them: the other files stay indexed,
    the file is gone, and the number of chunks deleted is the number added.
    When the collection refuses the batch, the file is not indexed and
    deleting it deletes nothing. *)
Theorem add_then_delete chunks filename st :
  fresh_ids uuid4 st (List.length chunks) ->
  Forall (fun c => source (metadata c) = filename) chunks ->
  is_document_indexed filename st = false ->
  let added := snd (add_documents uuid4 chunks st) in
  (add_error st (List.length chunks) = None ->
   get_indexed_documents (snd (delete_document filename added))
   = get_indexed_documents st
   /\ fst (delete_document filename added) = Z.of_nat (List.length chunks))
  /\ (forall e,
         chunks <> [] ->
         add_error st (List.length chunks) = Some e ->
         is_document_indexed filename added = false
         /\ delete_document filename added = (0, added)).
Proof.
  intros Hfresh Hall Hnot added. split.
  2:{ intros e Hne Herr. subst added.
      rewrite (add_documents_refused chunks st e Hne Herr). cbn [snd].
      assert (Hsame : is_document_indexed filename
                        {| records := records st;
                           drawn := (drawn st + List.length chunks)%nat;
                           add_error := add_error st |} = false)
        by exact Hnot.
      split; [exact Hsame|].
      apply delete_document_nothing. exact Hsame. }
  intros Hok.
  set (st1 := added).
  assert (Hsame : forall g,
             has_source g (records (snd (delete_document filename st1)))
             <-> has_source g (records st)).
  { intros g. rewrite has_source_after_delete. subst st1 added.
    rewrite (has_source_after_add chunks st g Hfresh Hok). split.
    - intros [Hne [H|(c & Hc & Hs)]]; [exact H|].
      rewrite Forall_forall in Hall. rewrite (Hall c Hc) in Hs. congruence.
    - intros H. split; [|left; exact H]. intros ->.
      apply is_document_indexed_iff in H. congruence. }
  split.
  - apply (Sorted_unique String.le).
    + apply Sorted_merge_sort; apply _.
    + apply Sorted_merge_sort; apply _.
    + apply NoDup_Permutation.
      * unfold get_indexed_documents. rewrite merge_sort_Permutation.
        apply NoDup_elements.
      * unfold get_indexed_documents. rewrite merge_sort_Permutation.
        apply NoDup_elements.
      * intros g. rewrite !indexed_iff. apply Hsame.
  - pose proof (delete_document_count filename st1) as Hcount.
    pose proof (add_documents_count chunks st Hfresh Hok) as Hadd.
    fold added in Hadd. fold st1 in Hadd.
    assert (Hrec : records (snd (delete_document filename st1)) = records st).
    { apply map_eq. intros i. rewrite delete_document_lookup. subst st1 added.
      rewrite (add_documents_records chunks st Hok).
      set (ids := uuid4 <$> seq (drawn st) (List.length chunks)) in *.
      destruct Hfresh as [Hnd Hfr].
      destruct (decide (i ∈ ids)) as [Hin|Hnin].
      - apply list_elem_of_lookup in Hin as [k Hk].
        assert (Hlt : (k < List.length chunks)%nat).
        { apply lookup_lt_Some in Hk. subst ids.
          rewrite length_fmap, length_seq in Hk. exact Hk. }
        destruct (lookup_lt_is_Some_2 chunks k Hlt) as [c Hc].
        rewrite (collection_add_fresh ids _ _ _ k i (text c)
                   (stored_meta (metadata c)) Hnd Hfr Hk)
          by (rewrite list_lookup_fmap, Hc; reflexivity).
        pose proof (proj1 (Forall_forall _ _) Hall) as Hall'.
        pose proof (proj1 (Forall_forall _ _) Hfr) as Hfr'.
        rewrite bool_decide_eq_true_2.
        + symmetry. apply Hfr'. eapply list_elem_of_lookup_2. exact Hk.
        + cbn. f_equal. apply Hall'. eapply list_elem_of_lookup_2. exact Hc.
      - rewrite collection_add_other by exact Hnin.
        destruct (records st !! i) as [[d m]|] eqn:Hi; [|reflexivity].
        rewrite bool_decide_eq_false_2; [reflexivity|].
        intros Hs. apply not_true_iff_false in Hnot. apply Hnot.
        apply is_document_indexed_iff. exists i, d, m. split; assumption. }
    unfold get_collection_count in *. rewrite Hrec in Hcount. lia.
Qed.
End AddDocuments.

Lemma sample_fresh_ids : fresh_ids sample_uuid4 sample_store 2.
Proof.
  split.
  - apply (bool_decide_unpack _). vm_compute. exact I.
  - repeat constructor.
Qed.

(** A batch the sample store takes, and the same batch with a client that
    takes one record at a time. *)
Lemma add_documents_indexes_witness :
  (is_document_indexed "c.pdf"
     (snd (add_documents sample_uuid4 new_chunks sample_store)) = true
   /\ get_collection_count
        (snd (add_documents sample_uuid4 new_chunks sample_store))
      = get_collection_count sample_store + 2)
  /\ fst (add_documents sample_uuid4 new_chunks narrow_store)
     = Raised batch_too_large
  /\ get_collection_count
       (snd (add_documents sample_uuid4 new_chunks narrow_store))
     = get_collection_count narrow_store.
Proof.
  split.
  - destruct (add_documents_indexes sample_uuid4 new_chunks sample_store)
      as [Htaken _].
    destruct (Htaken sample_fresh_ids eq_refl) as (_ & Hindexed & Hcount).
    split; [|exact Hcount].
    apply Hindexed. right. exists (chunk_of "c.pdf" 1 0 "Fourth text.").
    split; [left | reflexivity].
  - destruct (add_documents_indexes sample_uuid4 new_chunks narrow_store)
      as (_ & Hrefused & _).
    destruct (Hrefused batch_too_large ltac:(discriminate) eq_refl)
      as (Hraised & _ & _ & Hcount).
    split; [exact Hraised | exact Hcount].
Defined.

Lemma add_then_delete_witness :
  get_indexed_documents
    (snd (delete_document "c.pdf"
            (snd (add_documents sample_uuid4 new_chunks sample_store))))
  = get_indexed_documents sample_store
  /\ fst (delete_document "c.pdf"
            (snd (add_documents sample_uuid4 new_chunks sample_store))) = 2.
Proof.
  destruct (add_then_delete sample_uuid4 new_chunks "c.pdf" sample_store)
    as [Htaken _].
  - exact sample_fresh_ids.
  - repeat constructor.
  - vm_compute. reflexivity.
  - apply Htaken. reflexivity.
Defined.


(** ** More on the orchestrator *)

Section OrchestratorMore.
Context {Meta : Type}.
Variable search : string -> Z -> outcome (list string * list Meta).
Variable post : string -> post_result.

(** X18: When documents are retrieved and the service answers, [get_response]
    returns the generated text, or "No response generated" when the answer
    has no response field, together with the metadata of the search,
    unchanged and in the same order; the prompt was posted once. *)
Theorem get_response_success
    query chat_history n_results d docs metadatas response posted :
  search query n_results = Returned (d :: docs, metadatas) ->
  post (_build_prompt query (context_of (d :: docs)) chat_history)
  = Responded response ->
  get_response search post query chat_history n_results posted
  = (Returned (match response with
               | Some generated => generated
               | None => "No response generated"
               end, metadatas),
     posted ++ [_build_prompt query (context_of (d :: docs)) chat_history]).
Proof.
  intros Hs Hp. rewrite (get_response_generates _ _ _ _ _ _ _ _ _ Hs), Hp.
  destruct response; reflexivity.
Qed.

(** X19: Whatever the index and the service do, one call of [get_response]
    posts at most one prompt, after the ones posted before: there is no
    second try. *)
Theorem get_response_posts_at_most_once query chat_history n_results posted :
  exists extra,
    snd (get_response search post query chat_history n_results posted)
    = posted ++ extra
    /\ (List.length extra <= 1)%nat.
Proof.
  destruct (search query n_results) as [[[|d docs] metadatas]|e|] eqn:Hs.
  - exists []. unfold get_response. rewrite Hs, app_nil_r. split; [reflexivity|].
    cbn. lia.
  - eexists [_]. rewrite (get_response_generates _ _ _ _ _ _ _ _ _ Hs).
    split; [reflexivity | cbn; lia].
  - exists []. unfold get_response. rewrite Hs, app_nil_r. split; [reflexivity|].
    cbn. lia.
  - exists []. unfold get_response. rewrite Hs, app_nil_r. split; [reflexivity|].
    cbn. lia.
Qed.
End OrchestratorMore.

Lemma get_response_success_witness :
  fst (get_response one_document silent "What is this about?" None 5 [])
  = Returned ("No response generated", [tt]).
Proof.
  rewrite (get_response_success one_document silent "What is this about?"
             None 5 "Some text." [] [tt] None [] eq_refl eq_refl).
  reflexivity.
Defined.


(** ** The endpoints of main.py *)

Import ApiSamples.

Lemma sources_loop_map sources_list formatted :
  Api.sources_loop sources_list formatted
  = formatted ++ (Api.source_of <$> sources_list).
Proof.
  revert formatted. induction sources_list as [|m rest IH]; intros formatted;
    cbn [Api.sources_loop fmap list_fmap].
  - rewrite app_nil_r. reflexivity.
  - rewrite IH, <- app_assoc. reflexivity.
Qed.

Section ChatEndpoint.
Variable search : string -> Z -> outcome (list string * list meta).
Variable post : string -> post_result.

(** X21: What [chat] answers when there is nothing to generate from, or the
    generation fails: the no-documents message, with nothing posted, or
    "Error getting response from Ollama: " and the message of the failure;
    in both cases no source and no source text. *)
Theorem chat_degraded_answers st request posted :
  Api.chat_engine st = true ->
  let query := Api.message request in
  let history := Some (Api.history_of (Api.chat_history request)) in
  let failed text :=
    Api.Ok {| Api.response := "Error getting response from Ollama: " +:+ text;
              Api.sources := [];
              Api.sources_text := None |} in
  (forall metadatas,
      search query (Api.n_results request) = Returned ([], metadatas) ->
      Api.chat search post st request posted
      = (Api.Ok {| Api.response :=
                     "I don't have any documents to reference. Please upload some documents first.";
                   Api.sources := [];
                   Api.sources_text := None |}, posted))
  /\ (forall d docs metadatas,
         search query (Api.n_results request) = Returned (d :: docs, metadatas) ->
         let prompt := _build_prompt query (context_of (d :: docs)) history in
         (post prompt = ConnectionError ->
          fst (Api.chat search post st request posted)
          = failed "Cannot connect to Ollama. Make sure it's running with: ollama serve")
         /\ (post prompt = Timeout ->
             fst (Api.chat search post st request posted)
             = failed "Ollama request timed out. Try a smaller model or simpler question.")
         /\ (forall e, post prompt = RequestException e ->
             fst (Api.chat search post st request posted)
             = failed ("Error calling Ollama: " +:+ e))).
Proof.
  intros Hengine query history failed. unfold Api.chat. rewrite Hengine.
  cbn [negb]. unfold bind, ret. fold query history.
  split.
  - intros metadatas Hs. unfold get_response. rewrite Hs. reflexivity.
  - intros d docs metadatas Hs.
    rewrite (get_response_generates _ _ _ _ _ _ _ _ _ Hs).
    split; [|split]; [intros -> | intros -> | intros e ->]; reflexivity.
Qed.

(** X22: When documents are retrieved and the service answers, [chat] returns
    the generated text, one source per retrieved metadata dictionary, in
    their order, and the source text: the line "Sources:" and one line
    "- citation" per dictionary.  A dictionary of a chunk of [process_pdf]
    gives the file name, page and chunk number of that chunk. *)
Theorem chat_answer st vs request posted d docs m metadatas generated :
  Api.chat_engine st = true ->
  Api.vector_store st = Some vs ->
  search (Api.message request) (Api.n_results request)
  = Returned (d :: docs, m :: metadatas) ->
  post (_build_prompt (Api.message request) (context_of (d :: docs))
                      (Some (Api.history_of (Api.chat_history request))))
  = Responded (Some generated) ->
  fst (Api.chat search post st request posted)
  = Api.Ok {| Api.response := generated;
              Api.sources := Api.source_of <$> (m :: metadatas);
              Api.sources_text :=
                Some ("Sources:" +:+ newline
                      +:+ join newline
                            ((fun x => "- " +:+ format_source x)
                               <$> (m :: metadatas))) |}
  /\ forall c : Metadata,
       Api.source_of (stored_meta c)
       = {| Api.filename := source c; Api.page := page c;
            Api.chunk_index := chunk c |}.
Proof.
  intros Hengine Hstore Hs Hp. split; [|reflexivity].
  unfold Api.chat. rewrite Hengine. cbn [negb]. unfold bind, ret.
  rewrite (get_response_generates _ _ _ _ _ _ _ _ _ Hs), Hp, Hstore.
  cbn [fst default]. rewrite sources_loop_map. cbn [app].
  unfold Api.sources_text_of, format_sources. rewrite format_loop_map.
  cbn [app]. rewrite <- list_fmap_compose. reflexivity.
Qed.
End ChatEndpoint.

Lemma chat_degraded_answers_witness :
  fst (Api.chat one_hit offline sample_app sample_request [])
  = Api.Ok {| Api.response :=
                "Error getting response from Ollama: "
                +:+ "Cannot connect to Ollama. Make sure it's running with: ollama serve";
              Api.sources := [];
              Api.sources_text := None |}.
Proof.
  destruct (chat_degraded_answers one_hit offline sample_app sample_request []
              eq_refl) as [_ Hfail].
  destruct (Hfail "First text." []
              [stored_meta {| source := "a.pdf"; page := 1; chunk := 0 |}]
              eq_refl) as [Hconnection _].
  apply Hconnection. reflexivity.
Defined.

Lemma chat_answer_witness :
  fst (Api.chat one_hit answering sample_app sample_request [])
  = Api.Ok {| Api.response := "It is about tests.";
              Api.sources := [ {| Api.filename := "a.pdf"; Api.page := 1;
                                  Api.chunk_index := 0 |} ];
              Api.sources_text :=
                Some ("Sources:" +:+ newline +:+ "- a.pdf (Page 1)") |}.
Proof.
  destruct (chat_answer one_hit answering sample_app sample_store
              sample_request [] "First text." []
              (stored_meta {| source := "a.pdf"; page := 1; chunk := 0 |}) []
              "It is about tests." eq_refl eq_refl eq_refl eq_refl)
    as [Hanswer _].
  rewrite Hanswer. reflexivity.
Defined.

(** *** The endpoint on answers of any type *)

Lemma untyped_history_of msgs :
  Untyped.history_of msgs = Untyped.of_message <$> Api.history_of msgs.
Proof.
  induction msgs as [|msg msgs IH]; [reflexivity|].
  unfold Untyped.history_of, Api.history_of in *.
  cbn [fmap list_fmap] in *. rewrite IH. f_equal.
Qed.

Lemma untyped_request_prompt query context msgs :
  Untyped._build_prompt query context (Some (Untyped.history_of msgs))
  = Returned (_build_prompt query context (Some (Api.history_of msgs))).
Proof.
  rewrite untyped_history_of.
  exact (untyped_build_prompt_agrees query context (Some (Api.history_of msgs))).
Qed.

(** On a history and answers of texts [Untyped.get_response] is
    [get_response]. *)
Lemma untyped_get_response_agrees {Meta : Type}
    (search : string -> Z -> outcome (list string * list Meta))
    (post : string -> post_result) query
    (chat_history : option (list message)) n_results posted :
  Untyped.get_response search (fun prompt => Untyped.of_post (post prompt))
    query (fmap (M:=option) (fmap (M:=list) Untyped.of_message) chat_history)
    n_results posted
  = (Untyped.of_outcome (fun r => (Untyped.VStr (fst r), snd r))
       (fst (get_response search post query chat_history n_results posted)),
     snd (get_response search post query chat_history n_results posted)).
Proof.
  destruct (search query n_results) as [[[|d docs] metadatas]|e|] eqn:Hs.
  - unfold Untyped.get_response, get_response. rewrite Hs. reflexivity.
  - rewrite (untyped_get_response_generates _ _ _ _ _ _ _ _ _ _ Hs
               (untyped_build_prompt_agrees _ _ _)).
    rewrite (get_response_generates _ _ _ _ _ _ _ _ _ Hs).
    destruct (post _) as [[r|]| | | |]; reflexivity.
  - unfold Untyped.get_response, get_response. rewrite Hs. reflexivity.
  - unfold Untyped.get_response, get_response. rewrite Hs. reflexivity.
Qed.

Section UntypedChat.
Variable search : string -> Z -> outcome (list string * list meta).
Variable none_refused : string.
Variable coerced : Untyped.value -> outcome string.

(** On answers of texts [Untyped.chat] is [Api.chat]. *)
Lemma untyped_chat_agrees (post : string -> post_result) st request posted :
  Untyped.chat search (fun prompt => Untyped.of_post (post prompt))
    none_refused coerced st request posted
  = Api.chat search post st request posted.
Proof.
  unfold Untyped.chat, Api.chat.
  destruct (Api.chat_engine st); [|reflexivity]. cbn [negb].
  unfold bind. rewrite untyped_history_of.
  pose proof (untyped_get_response_agrees search post (Api.message request)
                (Some (Api.history_of (Api.chat_history request)))
                (Api.n_results request) posted) as Hagree.
  cbn [fmap option_fmap option_map] in Hagree. rewrite Hagree.
  destruct (get_response search post (Api.message request)
              (Some (Api.history_of (Api.chat_history request)))
              (Api.n_results request) posted) as [[[text sources]|e|] posted'];
    cbn [fst snd Untyped.of_outcome]; unfold ret; try reflexivity.
  destruct sources as [|m sources]; [reflexivity|].
  destruct (Api.vector_store st); reflexivity.
Qed.

Variable post : string -> Untyped.post_result.

(** X20: The status of [chat].  Without the engine it is 503 and nothing is
    posted.  With the engine and the store: when the search raises it is
    500 with "Error processing request: " and the message; when the search
    finds no document it is 200; when the search finds documents it is 200
    if the generation service fails or answers with a text or without a
    [response] field, and 500 if the [response] field of the answer is
    [null], which the response model refuses; for a [response] field that
    holds a number or a truth value it is what the response model makes of
    that value. *)
Theorem chat_status st request posted :
  let status := fst (Untyped.chat search post none_refused coerced st
                       request posted) in
  (Api.chat_engine st = false ->
   Untyped.chat search post none_refused coerced st request posted
   = (Api.HTTPException 503 "Chat engine not initialized", posted))
  /\ (Api.chat_engine st = true ->
      (exists vs, Api.vector_store st = Some vs) ->
      (forall e,
          search (Api.message request) (Api.n_results request) = Raised e ->
          status = Api.HTTPException 500 ("Error processing request: " +:+ e))
      /\ (forall metadatas,
             search (Api.message request) (Api.n_results request)
             = Returned ([], metadatas) ->
             exists body, status = Api.Ok body)
      /\ (forall d docs metadatas,
             search (Api.message request) (Api.n_results request)
             = Returned (d :: docs, metadatas) ->
             let reply :=
               post (_build_prompt (Api.message request)
                       (context_of (d :: docs))
                       (Some (Api.history_of (Api.chat_history request)))) in
             (reply = Untyped.Responded (Some Untyped.VNone) ->
              status
              = Api.HTTPException 500
                  ("Error processing request: " +:+ none_refused))
             /\ ((forall v, reply = Untyped.Responded (Some v) ->
                            exists generated, v = Untyped.VStr generated) ->
                 exists body, status = Api.Ok body)
             /\ (forall v,
                    reply = Untyped.Responded (Some v) ->
                    v <> Untyped.VNone ->
                    (forall generated, v <> Untyped.VStr generated) ->
                    match coerced v with
                    | Returned _ => exists body, status = Api.Ok body
                    | Raised e =>
                        status
                        = Api.HTTPException 500
                            ("Error processing request: " +:+ e)
                    | Unfinished => status = Api.Pending
                    end))).
Proof.
  intros status. subst status. split.
  - intros H. unfold Untyped.chat. rewrite H. reflexivity.
  - intros Hengine [vs Hstore]. unfold Untyped.chat. rewrite Hengine.
    cbn [negb]. unfold bind, ret.
    split; [|split].
    + intros e Hs. unfold Untyped.get_response. rewrite Hs. reflexivity.
    + intros metadatas Hs. unfold Untyped.get_response. rewrite Hs.
      eexists. reflexivity.
    + intros d docs metadatas Hs.
      rewrite (untyped_get_response_generates _ _ _ _ _ _ _ _ _ _ Hs
                 (untyped_request_prompt _ _ _)), Hstore.
      split; [|split].
      * intros ->. cbn [fst default from_option id Untyped.response_field].
        destruct metadatas; reflexivity.
      * intros Htext.
        destruct (post _) as [[v|]| | | |]; cbn [fst default from_option id];
          try (eexists; reflexivity);
          try (destruct metadatas; eexists; reflexivity).
        destruct (Htext v eq_refl) as [generated ->].
        destruct metadatas; eexists; reflexivity.
      * intros v -> Hnone Htext. cbn [fst default from_option id].
        destruct v as [|b|n|s];
          [contradiction | | | exfalso; exact (Htext s eq_refl)];
          cbn [Untyped.response_field];
          destruct (coerced _); destruct metadatas;
          try reflexivity; eexists; reflexivity.
Qed.
End UntypedChat.

(** One retrieved text: a service that cannot be reached, and one whose
    answer has [null] as its response. *)
Lemma chat_status_witness :
  (exists body,
      fst (Untyped.chat one_hit (fun _ => Untyped.ConnectionError)
             "none is not an allowed value" (fun _ => Unfinished)
             sample_app sample_request []) = Api.Ok body)
  /\ fst (Untyped.chat one_hit Untyped.null_response
            "none is not an allowed value" (fun _ => Unfinished)
            sample_app sample_request [])
     = Api.HTTPException 500
         ("Error processing request: " +:+ "none is not an allowed value").
Proof.
  split.
  - destruct (chat_status one_hit "none is not an allowed value"
                (fun _ => Unfinished) (fun _ => Untyped.ConnectionError)
                sample_app sample_request []) as [_ Hready].
    destruct (Hready eq_refl ltac:(eexists; reflexivity)) as (_ & _ & Hdocs).
    destruct (Hdocs "First text." []
                [stored_meta {| source := "a.pdf"; page := 1; chunk := 0 |}]
                eq_refl) as (_ & Hok & _).
    apply Hok. intros v Hv. discriminate.
  - destruct (chat_status one_hit "none is not an allowed value"
                (fun _ => Unfinished) Untyped.null_response
                sample_app sample_request []) as [_ Hready].
    destruct (Hready eq_refl ltac:(eexists; reflexivity)) as (_ & _ & Hdocs).
    destruct (Hdocs "First text." []
                [stored_meta {| source := "a.pdf"; page := 1; chunk := 0 |}]
                eq_refl) as (Hnull & _).
    apply Hnull. reflexivity.
Defined.

(** *** upload_document *)

(** X23: No call of [upload_document] answers with its response model, and none
    changes the vector store: the call [get_document_stats(chunks)] in it
    reaches the endpoint of that name, which takes no argument. *)
Theorem upload_document_never_indexes fuel st file :
  Api.vector_store (snd (Api.upload_document fuel st file))
  = Api.vector_store st
  /\ forall body, fst (Api.upload_document fuel st file) <> Api.Ok body.
Proof.
  unfold Api.upload_document.
  destruct (Api.vector_store st) as [vs|] eqn:Hstore;
    [|split; [exact Hstore | discriminate]].
  destruct (negb _); [split; [exact Hstore | discriminate]|].
  destruct (is_document_indexed _ vs); [split; [exact Hstore | discriminate]|].
  destruct (Api.save_error st _); [split; [exact Hstore | discriminate]|].
  destruct (process_pdf fuel (Api.file_pdf file) (Api.file_name file))
    as [[|c chunks]|e|]; cbn [fst snd Api.vector_store];
    (split; [reflexivity | discriminate]).
Qed.

(** X24: What [upload_document] answers, with the store set up.  A name that
    does not end in .pdf (in any case) gives 400 and a name that is indexed
    gives 409, both with the application as it was.  Otherwise the file is
    opened for writing under the name the client gave.  When that raises (a
    name with a directory part that does not exist, a name that is too
    long), the answer is 500 with the message of the error, nothing is
    saved and the application is as it was.  When the file is saved: a PDF
    with chunks gives 500 with the message of the [TypeError] and the file
    stays in the folder; a PDF without any text gives 400 and the file is
    removed; a PDF that cannot be processed gives 500 with the message of
    [process_pdf] and the file stays. *)
Theorem upload_document_outcomes fuel st vs file :
  Api.vector_store st = Some vs ->
  let name := Api.file_name file in
  let saved :=
    {| Api.vector_store := Api.vector_store st;
       Api.chat_engine := Api.chat_engine st;
       Api.documents_dir := {[name]} ∪ Api.documents_dir st;
       Api.save_error := Api.save_error st |} in
  (Api.endswith (Api.lower name) ".pdf" = false ->
   Api.upload_document fuel st file
   = (Api.HTTPException 400 "Only PDF files are supported", st))
  /\ (Api.endswith (Api.lower name) ".pdf" = true ->
      (is_document_indexed name vs = true ->
       Api.upload_document fuel st file
       = (Api.HTTPException 409
            ("Document '" +:+ name +:+ "' is already indexed"), st))
      /\ (is_document_indexed name vs = false ->
          (forall e,
              Api.save_error st name = Some e ->
              Api.upload_document fuel st file
              = (Api.HTTPException 500 ("Error uploading document: " +:+ e),
                 st))
          /\ (Api.save_error st name = None ->
              (forall c chunks,
                  process_pdf fuel (Api.file_pdf file) name
                  = Returned (c :: chunks) ->
                  Api.upload_document fuel st file
                  = (Api.HTTPException 500
                       ("Error uploading document: "
                        +:+ "get_document_stats() takes 0 positional arguments but 1 was given"),
                     saved))
              /\ (process_pdf fuel (Api.file_pdf file) name = Returned [] ->
                  fst (Api.upload_document fuel st file)
                  = Api.HTTPException 400 "Failed to extract text from PDF"
                  /\ (name ∉ Api.documents_dir
                               (snd (Api.upload_document fuel st file))))
              /\ (forall e,
                     process_pdf fuel (Api.file_pdf file) name = Raised e ->
                     Api.upload_document fuel st file
                     = (Api.HTTPException 500
                          ("Error uploading document: " +:+ e),
                        saved))))).
Proof.
  intros Hstore name saved. subst saved. unfold Api.upload_document.
  rewrite Hstore. fold name. split; [intros ->; reflexivity|].
  intros ->. cbn [negb]. split; [intros ->; reflexivity|].
  intros ->. split; [intros e ->; reflexivity|].
  intros ->. split; [|split].
  - intros c chunks ->. reflexivity.
  - intros ->. cbn [fst snd Api.documents_dir]. split; [reflexivity|].
    intros [_ Hnot]%elem_of_difference. apply Hnot.
    apply elem_of_singleton. reflexivity.
  - intros e ->. reflexivity.
Qed.

(** *** delete_document *)

(** X25: The endpoint [delete_document], with the store set up.  For a file that
    is not indexed it answers 404 and changes nothing.  For an indexed file
    it answers with the number of chunks the store deleted, which is
    positive; afterwards the file is neither indexed nor in the folder, and
    deleting it again gives 404. *)
Theorem delete_endpoint st vs name :
  Api.vector_store st = Some vs ->
  (is_document_indexed name vs = false ->
   Api.delete_document st name
   = (Api.HTTPException 404 ("Document '" +:+ name +:+ "' not found in index"),
      st))
  /\ (is_document_indexed name vs = true ->
      exists body st',
        Api.delete_document st name = (Api.Ok body, st')
        /\ Api.chunks_deleted body = fst (delete_document name vs)
        /\ 0 < Api.chunks_deleted body
        /\ (name ∉ Api.documents_dir st')
        /\ fst (Api.delete_document st' name)
           = Api.HTTPException 404
               ("Document '" +:+ name +:+ "' not found in index")).
Proof.
  intros Hstore. unfold Api.delete_document at 1 2. rewrite Hstore.
  split; [intros ->; reflexivity|].
  intros Hindexed. rewrite Hindexed. cbn [negb].
  eexists _, _. split; [reflexivity|]. cbn [Api.chunks_deleted Api.documents_dir].
  pose proof (delete_document_count name vs) as Hcount.
  pose proof (proj2 (delete_document_positive name vs) Hindexed) as Hpos.
  split; [lia|]. split; [lia|].
  split.
  { intros [_ Hnot]%elem_of_difference. apply Hnot.
    apply elem_of_singleton. reflexivity. }
  unfold Api.delete_document. cbn [Api.vector_store].
  rewrite delete_document_unindexes. reflexivity.
Qed.

(** *** get_document_stats *)

Lemma collect_sources_size metadatas (acc : gset string) :
  (size (collect_sources metadatas acc) <= size acc + List.length metadatas)%nat.
Proof.
  revert acc. induction metadatas as [|m rest IH]; intros acc;
    cbn [collect_sources List.length]; [lia|].
  specialize (IH (match meta_source m with
                  | Some s => {[s]} ∪ acc
                  | None => acc
                  end)).
  destruct (meta_source m) as [s|]; [|lia].
  assert (size ({[s]} ∪ acc : gset string) <= 1 + size acc)%nat.
  { rewrite size_union_alt, size_singleton.
    assert (Hsub : acc ∖ {[s]} ⊆ acc)
      by (intros x [Hx _]%elem_of_difference; exact Hx).
    pose proof (subseteq_size _ _ Hsub). lia. }
  lia.
Qed.

(** X26: The statistics endpoint, with the store set up: it reports the number
    of chunks of the collection and the number of indexed documents, which
    is never more than the number of chunks, and lists the documents; the
    endpoint that lists the documents gives the same list and the same
    number. *)
Theorem stats_endpoint st vs :
  Api.vector_store st = Some vs ->
  exists body,
    Api.get_document_stats st = Api.Ok body
    /\ Api.total_chunks body = get_collection_count vs
    /\ Api.indexed_documents body = get_indexed_documents vs
    /\ Api.total_documents body
       = Z.of_nat (List.length (get_indexed_documents vs))
    /\ Api.get_indexed_documents st
       = Api.Ok {| Api.documents := Api.indexed_documents body;
                   Api.total_count := Api.total_documents body |}
    /\ 0 <= Api.total_documents body <= Api.total_chunks body.
Proof.
  intros Hstore. unfold Api.get_document_stats, Api.get_indexed_documents.
  rewrite Hstore.
  eexists. split; [reflexivity|].
  cbn [Api.total_chunks Api.indexed_documents Api.total_documents].
  split; [reflexivity|]. split; [reflexivity|]. split; [reflexivity|].
  split; [reflexivity|].
  split; [lia|]. unfold get_collection_count, get_indexed_documents.
  rewrite merge_sort_Permutation.
  pose proof (collect_sources_size
                ((snd ∘ snd) <$> collection_get (records vs)) ∅) as Hsize.
  rewrite size_empty, length_fmap in Hsize. unfold collection_get in Hsize.
  rewrite length_map_to_list in Hsize.
  assert (Hlen : forall X : gset string, List.length (elements X) = size X)
    by reflexivity.
  rewrite Hlen. unfold collection_get. lia.
Qed.

(** A PDF with text under a plain name, and the same file under a name with
    a directory part. *)
Lemma upload_document_outcomes_witness :
  Api.upload_document 1 sample_app
    {| Api.file_name := "Notes.PDF";
       Api.file_pdf := Pages [Extracted "Some notes."] |}
  = (Api.HTTPException 500
       ("Error uploading document: "
        +:+ "get_document_stats() takes 0 positional arguments but 1 was given"),
     {| Api.vector_store := Some sample_store;
        Api.chat_engine := true;
        Api.documents_dir := {["Notes.PDF"]} ∪ {["a.pdf"; "b.pdf"]};
        Api.save_error := Api.save_error sample_app |})
  /\ Api.upload_document 1 sample_app
       {| Api.file_name := "sub/x.pdf";
          Api.file_pdf := Pages [Extracted "Some notes."] |}
     = (Api.HTTPException 500
          ("Error uploading document: "
           +:+ "[Errno 2] No such file or directory: 'documents/sub/x.pdf'"),
        sample_app).
Proof.
  split.
  - destruct (upload_document_outcomes 1 sample_app sample_store
                {| Api.file_name := "Notes.PDF";
                   Api.file_pdf := Pages [Extracted "Some notes."] |} eq_refl)
      as [_ Hpdf].
    destruct (Hpdf eq_refl) as [_ Hnew].
    destruct (Hnew ltac:(vm_compute; reflexivity)) as [_ Hsaved].
    destruct (Hsaved eq_refl) as [Hchunks _].
    apply (Hchunks (chunk_of "Notes.PDF" 1 0 "Some notes.") []).
    vm_compute. reflexivity.
  - destruct (upload_document_outcomes 1 sample_app sample_store
                {| Api.file_name := "sub/x.pdf";
                   Api.file_pdf := Pages [Extracted "Some notes."] |} eq_refl)
      as [_ Hpdf].
    destruct (Hpdf eq_refl) as [_ Hnew].
    destruct (Hnew ltac:(vm_compute; reflexivity)) as [Hrefused _].
    apply (Hrefused
             "[Errno 2] No such file or directory: 'documents/sub/x.pdf'").
    reflexivity.
Defined.

Lemma delete_endpoint_witness :
  exists body st',
    Api.delete_document sample_app "a.pdf" = (Api.Ok body, st')
    /\ Api.chunks_deleted body = 2.
Proof.
  destruct (delete_endpoint sample_app sample_store "a.pdf" eq_refl)
    as [_ Hindexed].
  destruct (Hindexed ltac:(vm_compute; reflexivity))
    as (body & st' & Hrun & Hcount & _).
  exists body, st'. split; [exact Hrun|]. rewrite Hcount.
  vm_compute. reflexivity.
Defined.

Lemma stats_endpoint_witness :
  exists body,
    Api.get_document_stats sample_app = Api.Ok body
    /\ Api.total_documents body <= Api.total_chunks body.
Proof.
  destruct (stats_endpoint sample_app sample_store eq_refl)
    as (body & Hrun & _ & _ & _ & _ & Hle).
  exists body. split; [exact Hrun | lia].
Defined.


(** ** The preprocessing script *)

Import Preprocess.

Lemma collection_add_domain ids documents metadatas (c : collection) i :
  is_Some (collection_add ids documents metadatas c !! i) ->
  is_Some (c !! i) \/ i ∈ ids.
Proof.
  revert documents metadatas c.
  induction ids as [|j ids IH]; intros documents metadatas c H; [left; exact H|].
  destruct documents as [|d documents]; [left; exact H|].
  destruct metadatas as [|m metadatas]; [left; exact H|].
  cbn [collection_add] in H. apply IH in H as [H|H]; [|right; right; exact H].
  destruct (c !! j) eqn:Hj; [left; exact H|].
  destruct (decide (i = j)) as [->|Hne]; [right; left|].
  rewrite lookup_insert_ne in H by congruence. left. exact H.
Qed.

Lemma process_pdf_sources fuel file filename chunks :
  process_pdf fuel file filename = Returned chunks ->
  Forall (fun c => source (metadata c) = filename) chunks.
Proof.
  unfold process_pdf. destruct file as [msg|pages]; [discriminate|].
  destruct (page_loop fuel filename pages 1 []) as [l|msg|] eqn:Hloop;
    try discriminate.
  intros [= <-].
  destruct (page_loop_invariant _ _ _ _ _ _ Hloop) as [_ Hall];
    [constructor | constructor | lia |].
  eapply Forall_impl; [exact Hall|]. cbn beta. tauto.
Qed.

Section Run.
Variable uuid4 : nat -> string.
Hypothesis uuid4_inj : forall a b, uuid4 a = uuid4 b -> a = b.

Lemma fresh_of_ok vs n : store_ok uuid4 vs -> fresh_ids uuid4 vs n.
Proof.
  intros Hok. split.
  - apply NoDup_fmap_2; [intros a b; apply uuid4_inj | apply NoDup_seq].
  - apply Forall_forall. intros i Hi.
    apply list_elem_of_fmap in Hi as (k & -> & Hk).
    apply elem_of_seq in Hk.
    destruct (records vs !! uuid4 k) eqn:Hlook; [|reflexivity].
    destruct (Hok (uuid4 k) ltac:(eauto)) as (k' & Hlt & Heq).
    apply uuid4_inj in Heq. lia.
Qed.

Lemma add_documents_ok chunks vs :
  store_ok uuid4 vs -> store_ok uuid4 (snd (add_documents uuid4 chunks vs)).
Proof.
  intros Hok i Hi.
  destruct (add_documents_drawn uuid4 chunks vs) as (Hle & Hdrawn & _).
  destruct (add_documents_all_or_nothing uuid4 chunks vs)
    as [[_ Hrec]|(e & _ & Hrec)]; rewrite Hrec in Hi.
  - apply collection_add_domain in Hi as [Hi|Hi].
    + destruct (Hok i Hi) as (k & Hlt & ->). exists k.
      split; [lia | reflexivity].
    + apply list_elem_of_fmap in Hi as (k & -> & Hk). apply elem_of_seq in Hk.
      exists k. split; [|reflexivity].
      destruct chunks as [|c chunks]; [cbn in Hk; lia|].
      rewrite Hdrawn by discriminate. lia.
  - destruct (Hok i Hi) as (k & Hlt & ->). exists k.
    split; [lia | reflexivity].
Qed.

Lemma add_documents_other_sources chunks filename g vs :
  fresh_ids uuid4 vs (List.length chunks) ->
  Forall (fun c => source (metadata c) = filename) chunks ->
  g <> filename ->
  records_of g (records (snd (add_documents uuid4 chunks vs)))
  = records_of g (records vs).
Proof.
  intros [Hnd Hfresh] Hall Hne.
  destruct (add_documents_all_or_nothing uuid4 chunks vs)
    as [[_ Hrec]|(e & _ & Hrec)]; rewrite Hrec; [|reflexivity].
  unfold records_of. apply map_eq. intros i.
  rewrite !map_lookup_filter.
  set (ids := uuid4 <$> seq (drawn vs) (List.length chunks)) in *.
  destruct (decide (i ∈ ids)) as [Hin|Hnin].
  - pose proof (proj1 (Forall_forall _ _) Hfresh i Hin) as Hnone.
    rewrite Hnone. cbn.
    apply list_elem_of_lookup in Hin as [k Hk].
    assert (Hlt : (k < List.length chunks)%nat).
    { apply lookup_lt_Some in Hk. subst ids.
      rewrite length_fmap, length_seq in Hk. exact Hk. }
    destruct (lookup_lt_is_Some_2 chunks k Hlt) as [c Hc].
    rewrite (collection_add_fresh ids _ _ _ k i (text c)
               (stored_meta (metadata c)) Hnd Hfresh Hk)
      by (rewrite list_lookup_fmap, Hc; reflexivity).
    cbn. rewrite option_guard_False; [reflexivity|].
    cbn. pose proof (proj1 (Forall_forall _ _) Hall c
                       (list_elem_of_lookup_2 _ _ _ Hc)). congruence.
  - rewrite collection_add_other by exact Hnin. reflexivity.
Qed.

Lemma add_documents_keeps_indexed chunks g vs :
  fresh_ids uuid4 vs (List.length chunks) ->
  is_document_indexed g vs = true ->
  is_document_indexed g (snd (add_documents uuid4 chunks vs)) = true.
Proof.
  intros [Hnd Hfresh] Hg. apply is_document_indexed_iff.
  apply is_document_indexed_iff in Hg.
  destruct (add_documents_all_or_nothing uuid4 chunks vs)
    as [[_ Hrec]|(e & _ & Hrec)]; rewrite Hrec; [|exact Hg].
  destruct Hg as (i & d & m & Hi & Hs). exists i, d, m. split; [|exact Hs].
  rewrite collection_add_other; [exact Hi|].
  intros Hin. rewrite Forall_forall in Hfresh.
  rewrite (Hfresh i Hin) in Hi. discriminate.
Qed.

(** The count after the call: grown by the batch when the call returned, as
    it was when the call raised. *)
Lemma add_documents_growth chunks vs :
  fresh_ids uuid4 vs (List.length chunks) ->
  match fst (add_documents uuid4 chunks vs) with
  | Returned _ =>
      get_collection_count (snd (add_documents uuid4 chunks vs))
      = get_collection_count vs + Z.of_nat (List.length chunks)
  | Raised _ =>
      get_collection_count (snd (add_documents uuid4 chunks vs))
      = get_collection_count vs
  | Unfinished => False
  end.
Proof.
  intros Hfresh.
  destruct (add_error vs (List.length chunks)) as [e|] eqn:Herr.
  - destruct chunks as [|c chunks]; [cbn; lia|].
    rewrite (add_documents_refused uuid4 (c :: chunks) vs e)
      by (discriminate || exact Herr).
    reflexivity.
  - pose proof (add_documents_count uuid4 chunks vs Hfresh Herr) as Hcount.
    rewrite (add_documents_taken uuid4 chunks vs Herr) in *. exact Hcount.
Qed.

(** X27: Running the script over files that are all indexed already changes
    nothing: every file is skipped, none is read, and the store is the one
    it was. *)
Theorem process_documents_rerun fuel pdf_files vs :
  Forall (fun f => is_document_indexed (fst f) vs = true) pdf_files ->
  process_documents uuid4 fuel pdf_files vs
  = Some (vs, {| new_documents := [];
                 skipped_documents := fst <$> pdf_files;
                 failed_documents := [];
                 total_chunks := 0 |}).
Proof.
  intros Hall.
  assert (Hloop : forall sm,
             documents_loop uuid4 fuel pdf_files vs sm
             = Some (vs, {| new_documents := new_documents sm;
                            skipped_documents :=
                              skipped_documents sm ++ (fst <$> pdf_files);
                            failed_documents := failed_documents sm;
                            total_chunks := total_chunks sm |})).
  { induction Hall as [|[filename file] rest Hf _ IH]; intros sm;
      cbn [documents_loop fmap list_fmap].
    - rewrite app_nil_r. destruct sm; reflexivity.
    - cbn [fst] in Hf. rewrite Hf, IH. cbn. rewrite <- app_assoc. reflexivity. }
  unfold process_documents. destruct pdf_files; [reflexivity|].
  rewrite Hloop. reflexivity.
Qed.

Lemma documents_loop_invariant fuel pdf_files vs sm vs' sm' :
  store_ok uuid4 vs ->
  documents_loop uuid4 fuel pdf_files vs sm = Some (vs', sm') ->
  store_ok uuid4 vs'
  /\ get_collection_count vs' - total_chunks sm'
     = get_collection_count vs - total_chunks sm
  /\ forall g, is_document_indexed g vs = true ->
               is_document_indexed g vs' = true
               /\ records_of g (records vs') = records_of g (records vs).
Proof.
  revert vs sm. induction pdf_files as [|[filename file] rest IH];
    intros vs sm Hok; cbn [documents_loop].
  - intros [= <- <-]. split; [exact Hok|]. split; [reflexivity|]. auto.
  - destruct (is_document_indexed filename vs) eqn:Hindexed.
    + intros Hrun. apply (IH _ _ Hok) in Hrun. exact Hrun.
    + destruct (process_pdf fuel file filename) as [chunks|e|] eqn:Hpdf;
        [| |discriminate].
      * pose proof (fresh_of_ok vs (List.length chunks) Hok) as Hfresh.
        pose proof (add_documents_ok chunks vs Hok) as Hok1.
        pose proof (add_documents_growth chunks vs Hfresh) as Hgrowth.
        assert (Hkeep1 : forall g,
                   is_document_indexed g vs = true ->
                   is_document_indexed g (snd (add_documents uuid4 chunks vs))
                   = true
                   /\ records_of g
                        (records (snd (add_documents uuid4 chunks vs)))
                      = records_of g (records vs)).
        { intros g Hg.
          split; [apply add_documents_keeps_indexed; assumption|].
          apply (add_documents_other_sources chunks filename g vs Hfresh).
          - eapply process_pdf_sources. exact Hpdf.
          - intros ->. congruence. }
        destruct (add_documents uuid4 chunks vs) as [[u|e|] vs1];
          cbn [fst snd] in *; [| |discriminate];
          intros Hrun; apply (IH _ _ Hok1) in Hrun;
          destruct Hrun as (Hok' & Hcount & Hkeep);
          cbn [total_chunks] in Hcount;
          (split; [exact Hok'|]); (split; [lia|]);
          intros g Hg; destruct (Hkeep1 g Hg) as [Hg1 Hsame1];
          destruct (Hkeep g Hg1) as [Hyes Hsame];
          (split; [exact Hyes | congruence]).
      * intros Hrun. apply (IH _ _ Hok) in Hrun. exact Hrun.
Qed.

(** X28: A run of the script never touches a document that is indexed already:
    such a document is still indexed afterwards, with exactly the records it
    had, whatever files the folder holds.  (The ids drawn are taken to be
    all different.) *)
Theorem process_documents_keeps_indexed fuel pdf_files vs vs' sm g :
  store_ok uuid4 vs ->
  process_documents uuid4 fuel pdf_files vs = Some (vs', sm) ->
  is_document_indexed g vs = true ->
  is_document_indexed g vs' = true
  /\ records_of g (records vs') = records_of g (records vs).
Proof.
  intros Hok Hrun Hg. unfold process_documents in Hrun.
  destruct pdf_files as [|f rest].
  - injection Hrun as <- <-. auto.
  - destruct (documents_loop_invariant _ _ _ _ _ _ Hok Hrun) as (_ & _ & Hkeep).
    apply Hkeep. exact Hg.
Qed.

(** X29: The number of chunks the script reports as created is the number by
    which the collection has grown. *)
Theorem process_documents_total fuel pdf_files vs vs' sm :
  store_ok uuid4 vs ->
  process_documents uuid4 fuel pdf_files vs = Some (vs', sm) ->
  get_collection_count vs' = get_collection_count vs + total_chunks sm.
Proof.
  intros Hok Hrun. unfold process_documents in Hrun.
  destruct pdf_files as [|f rest].
  - injection Hrun as <- <-. cbn. lia.
  - destruct (documents_loop_invariant _ _ _ _ _ _ Hok Hrun) as (_ & Hcount & _).
    cbn [total_chunks nothing_done] in Hcount. lia.
Qed.
End Run.

Lemma letters_length k c : String.length (letters k c) = k.
Proof.
  unfold letters. induction k as [|k IH]; cbn [repeat string_of_list_ascii];
    [reflexivity|].
  cbn [String.length]. rewrite IH. reflexivity.
Qed.

Lemma sample_uuid4_inj a b : sample_uuid4 a = sample_uuid4 b -> a = b.
Proof.
  unfold sample_uuid4. intros H.
  apply (f_equal String.length) in H.
  change ("id-" +:+ letters a "x")
    with (String "i" (String "d" (String "-" (letters a "x")))) in H.
  change ("id-" +:+ letters b "x")
    with (String "i" (String "d" (String "-" (letters b "x")))) in H.
  cbn [String.length] in H. rewrite !letters_length in H. lia.
Qed.

Lemma sample_store_ok : store_ok sample_uuid4 sample_store.
Proof.
  unfold sample_store. do 2 apply add_documents_ok.
  intros i [x Hx]. cbn in Hx. rewrite lookup_empty in Hx. discriminate.
Qed.

(** The folder of the samples: a.pdf, which is indexed, and a new file. *)
Lemma process_documents_rerun_witness :
  process_documents sample_uuid4 1
    [("a.pdf", Pages [Extracted "Again."]); ("b.pdf", Unreadable "no file")]
    sample_store
  = Some (sample_store,
          {| new_documents := [];
             skipped_documents := ["a.pdf"; "b.pdf"];
             failed_documents := [];
             total_chunks := 0 |}).
Proof.
  apply (process_documents_rerun sample_uuid4 1
           [("a.pdf", Pages [Extracted "Again."]);
            ("b.pdf", Unreadable "no file")] sample_store).
  constructor; [vm_compute; reflexivity|].
  constructor; [vm_compute; reflexivity | constructor].
Defined.

Lemma process_documents_keeps_indexed_witness :
  exists vs' sm,
    process_documents sample_uuid4 1
      [("a.pdf", Pages [Extracted "Again."]);
       ("c.pdf", Pages [Extracted "New text."])] sample_store
    = Some (vs', sm)
    /\ records_of "a.pdf" (records vs')
       = records_of "a.pdf" (records sample_store).
Proof.
  destruct (process_documents sample_uuid4 1
              [("a.pdf", Pages [Extracted "Again."]);
               ("c.pdf", Pages [Extracted "New text."])] sample_store)
    as [[vs' sm]|] eqn:Hrun; [|vm_compute in Hrun; discriminate].
  exists vs', sm. split; [reflexivity|].
  apply (process_documents_keeps_indexed sample_uuid4 sample_uuid4_inj 1
           _ sample_store vs' sm "a.pdf" sample_store_ok Hrun).
  vm_compute. reflexivity.
Defined.

Lemma process_documents_total_witness :
  exists vs' sm,
    process_documents sample_uuid4 1
      [("a.pdf", Pages [Extracted "Again."]);
       ("c.pdf", Pages [Extracted "New text."])] sample_store
    = Some (vs', sm)
    /\ get_collection_count vs'
       = get_collection_count sample_store + total_chunks sm.
Proof.
  destruct (process_documents sample_uuid4 1
              [("a.pdf", Pages [Extracted "Again."]);
               ("c.pdf", Pages [Extracted "New text."])] sample_store)
    as [[vs' sm]|] eqn:Hrun; [|vm_compute in Hrun; discriminate].
  exists vs', sm. split; [reflexivity|].
  apply (process_documents_total sample_uuid4 sample_uuid4_inj 1
           _ sample_store vs' sm sample_store_ok Hrun).
Defined.
